(** * cf-cli-multi-dc: the [endpoint] and [login] commands

    A shallow embedding of [cf/commands/endpoint.go] (the [Endpoint] and
    [Login] commands of package [commands]) and the properties of the
    login pipeline: endpoint resolution, the bounded authentication loop,
    organization / space targeting and the multi-instance session list.

    Go values are modelled as follows.
    - [string] is [string]; [error] is [option string] ([None] is [nil],
      [Some msg] an error whose [Error()] text is [msg]).
    - [map[string]string] and [map[string]AuthPrompt] are [gmap string _].
    - slices are lists; [int] is [Z].
    - the configuration store, the terminal, the authenticator and the
      repositories are collaborators whose code is outside this file:
      their pure behaviour is a field of [Env], the state they share with
      the commands is the [World]. *)

From Stdlib Require Import ZArith String Ascii List Lia.
From stdpp Require Import base strings gmap list.
Local Open Scope string_scope.
Local Open Scope list_scope.

(** ** Data model *)

(** Package [models]: of [OrganizationFields] and [SpaceFields] only
    [GUID] and [Name] are read here; [Organization] and [Space] embed
    them. *)
Module models.
Record OrganizationFields := mkOrganizationFields {
  org_GUID : string;
  org_Name : string
}.

Record SpaceFields := mkSpaceFields {
  space_GUID : string;
  space_Name : string
}.

Record Organization := mkOrganization {
  Organization_Fields : OrganizationFields
}.

Record Space := mkSpace {
  Space_Fields : SpaceFields
}.

Definition Organization_Name (o : Organization) : string :=
  org_Name (Organization_Fields o).

Definition Space_Name (s : Space) : string :=
  space_Name (Space_Fields s).
End models.

(** [coreconfig.CFInstanceData], one remembered session. *)
Module CFInstanceData.
Record t := mk {
  AccessToken : string;
  APIVersion : string;
  AuthorizationEndpoint : string;
  DopplerEndPoint : string;
  LogCacheEndPoint : string;
  OrganizationFields : models.OrganizationFields;
  SpaceFields : models.SpaceFields;
  RefreshToken : string;
  UaaEndpoint : string
}.
End CFInstanceData.

(** The part of [coreconfig.ReadWriter] the two commands read and write:
    one field per getter. *)
Module Config.
Record t := mk {
  APIEndpoint : string;
  IsSSLDisabled : bool;
  APIVersion : string;
  AuthenticationEndpoint : string;
  AccessToken : string;
  RefreshToken : string;
  DopplerEndpoint : string;
  LogCacheEndpoint : string;
  UaaEndpoint : string;
  UAAGrantType : string;
  OrganizationFields : models.OrganizationFields;
  SpaceFields : models.SpaceFields;
  InstanceData : list CFInstanceData.t
}.

Definition SetOrganizationFields (o : models.OrganizationFields) (c : t) : t :=
  mk (APIEndpoint c) (IsSSLDisabled c) (APIVersion c)
     (AuthenticationEndpoint c) (AccessToken c) (RefreshToken c)
     (DopplerEndpoint c) (LogCacheEndpoint c) (UaaEndpoint c)
     (UAAGrantType c) o (SpaceFields c) (InstanceData c).

Definition SetSpaceFields (s : models.SpaceFields) (c : t) : t :=
  mk (APIEndpoint c) (IsSSLDisabled c) (APIVersion c)
     (AuthenticationEndpoint c) (AccessToken c) (RefreshToken c)
     (DopplerEndpoint c) (LogCacheEndpoint c) (UaaEndpoint c)
     (UAAGrantType c) (OrganizationFields c) s (InstanceData c).

Definition SetInstanceData (l : list CFInstanceData.t) (c : t) : t :=
  mk (APIEndpoint c) (IsSSLDisabled c) (APIVersion c)
     (AuthenticationEndpoint c) (AccessToken c) (RefreshToken c)
     (DopplerEndpoint c) (LogCacheEndpoint c) (UaaEndpoint c)
     (UAAGrantType c) (OrganizationFields c) (SpaceFields c) l.
End Config.

(** [coreconfig.AuthPrompt].  [AuthPromptTypeUnset] is the zero value Go
    yields when a missing key of the catalog is read. *)
Inductive AuthPromptType :=
| AuthPromptTypeText
| AuthPromptTypePassword
| AuthPromptTypeUnset.

Record AuthPrompt := mkAuthPrompt {
  Type_ : AuthPromptType;
  DisplayName : string
}.

Definition zeroAuthPrompt : AuthPrompt := mkAuthPrompt AuthPromptTypeUnset "".

Definition AuthPromptType_eqb (a b : AuthPromptType) : bool :=
  match a, b with
  | AuthPromptTypeText, AuthPromptTypeText => true
  | AuthPromptTypePassword, AuthPromptTypePassword => true
  | AuthPromptTypeUnset, AuthPromptTypeUnset => true
  | _, _ => false
  end.

(** [prompts[key]] in Go: the zero value when the key is absent. *)
Definition index_prompts (prompts : gmap string AuthPrompt) (key : string)
  : AuthPrompt :=
  default zeroAuthPrompt (prompts !! key).

(** [flags.FlagContext] restricted to the flags of the two commands.
    [c.String(f)] is the empty string for a flag that is not set;
    [sso-passcode] is the only flag read through [IsSet] too. *)
Record FlagContext := mkFlagContext {
  flag_a : string;
  flag_u : string;
  flag_p : string;
  flag_o : string;
  flag_s : string;
  flag_sso : bool;
  flag_sso_passcode : option string;
  flag_skip_ssl_validation : bool
}.

Definition IsSet_sso_passcode (c : FlagContext) : bool :=
  match flag_sso_passcode c with Some _ => true | None => false end.

Definition String_sso_passcode (c : FlagContext) : string :=
  default "" (flag_sso_passcode c).

Definition maxLoginTries : nat := 3.
Definition maxChoices : nat := 50.

(** Result of [command.MinimumCCAPIVersionCheck] as [Login.Execute]
    inspects it. *)
Inductive VersionCheck :=
| VersionOk
| MinimumCFAPIVersionNotMetError
| VersionCheckError (msg : string).

(** Arguments of a formatted [ui.Say]. *)
Inductive Arg :=
| ArgInt (z : Z)
| ArgStr (s : string).

(** Calls made on the collaborators, in program order. *)
Inductive Event :=
| EvSay (message : string) (args : list Arg)
| EvWarn (message : string)
| EvOk
| EvAsk (prompt : string)
| EvAskForPassword (prompt : string)
| EvShowConfiguration
| EvNotifyUpdateIfNeeded
| EvClearSession
| EvSetAPIEndpoint (endpoint : string) (skipSSL : bool) (cmdName : string)
| EvGetLoginPrompts
| EvAuthenticate (credentials : gmap string string)
| EvListOrgs (limit : nat)
| EvFindOrgByName (name : string)
| EvListSpaces
| EvFindSpaceByName (name : string).

(** ** Collaborators *)

(** The behaviour of the code this file calls but does not contain.
    Each field is named after the Go function it stands for.
    - [T] is [i18n.T] (translation id and template data).
    - [ClearSession] and [IsLoggedIn] belong to the configuration store.
    - [setAPIEndpoint] is [API.setAPIEndpoint] of the same package: it
      targets the API and may rewrite the store.
    - [GetLoginPromptsAndSaveUAAServerURL] returns the catalog and an
      error, and may rewrite the store; [storeTokens] is what a successful
      [Authenticate] writes to the store.
    - [range_prompts] is the order in which [for key, prompt := range
      prompts] enumerates the catalog (unspecified in Go).
    - [ListSpaces] gives the spaces handed to the callback, in order, and
      the final error. *)
Record Env := mkEnv {
  T : string -> list (string * string) -> string;
  EntityNameColor : string -> string;
  ClearSession : Config.t -> Config.t;
  IsLoggedIn : Config.t -> bool;
  setAPIEndpoint : string -> bool -> string -> Config.t -> Config.t * option string;
  MinSupportedV2ClientVersion : string;
  MinimumCCAPIVersionCheck : string -> string -> VersionCheck;
  ShowConfiguration : Config.t -> option string;
  GetLoginPromptsAndSaveUAAServerURL :
    Config.t -> Config.t * (gmap string AuthPrompt * option string);
  range_prompts : gmap string AuthPrompt -> list (string * AuthPrompt);
  storeTokens : gmap string string -> Config.t -> Config.t;
  ListOrgs : nat -> Config.t -> list models.Organization * option string;
  FindOrgByName : string -> Config.t -> models.Organization * option string;
  ListSpaces : Config.t -> list models.Space * option string;
  FindSpaceByName : string -> Config.t -> models.Space * option string
}.

(** The state shared with the collaborators: the configuration store, what
    the user is going to type ([ui_in], read at [ui_pos] by [Ask] and
    [AskForPassword]), what the authentication server is going to answer
    ([auth_replies], read at [auth_calls] by [Authenticate]; [None] is
    success) and the calls made so far. *)
Record World := mkWorld {
  cfg : Config.t;
  ui_in : nat -> string;
  ui_pos : nat;
  auth_replies : nat -> option string;
  auth_calls : nat;
  trace : list Event
}.

Definition set_cfg (f : Config.t -> Config.t) (w : World) : World :=
  mkWorld (f (cfg w)) (ui_in w) (ui_pos w) (auth_replies w) (auth_calls w)
          (trace w).

Definition log (e : Event) (w : World) : World :=
  mkWorld (cfg w) (ui_in w) (ui_pos w) (auth_replies w) (auth_calls w)
          (trace w ++ [e]).

Definition next_input (w : World) : World :=
  mkWorld (cfg w) (ui_in w) (S (ui_pos w)) (auth_replies w) (auth_calls w)
          (trace w).

Definition next_auth (w : World) : World :=
  mkWorld (cfg w) (ui_in w) (ui_pos w) (auth_replies w) (S (auth_calls w))
          (trace w).

(** A command: a function of the world that returns a value. *)
Definition Cmd (A : Type) : Type := World -> A * World.

Definition ret {A} (a : A) : Cmd A := fun w => (a, w).

Definition bind {A B} (m : Cmd A) (k : A -> Cmd B) : Cmd B :=
  fun w => let '(a, w') := m w in k a w'.

Notation "x <- m ;; k" := (bind m (fun x => k))
  (at level 100, m at next level, right associativity).
Notation "m ;;; k" := (bind m (fun _ => k))
  (at level 100, right associativity).

(** A command whose loop may not end: [Diverging] is returned, with the
    world reached, when the fuel runs out. *)
Inductive Outcome (A : Type) :=
| Returned (a : A)
| Diverging.
Arguments Returned {A} a.
Arguments Diverging {A}.

(** *** The terminal ([terminal.UI]) *)

Definition Say (message : string) (args : list Arg) : Cmd unit :=
  fun w => (tt, log (EvSay message args) w).

Definition Warn (message : string) : Cmd unit :=
  fun w => (tt, log (EvWarn message) w).

Definition Ok : Cmd unit := fun w => (tt, log EvOk w).

Definition Ask (prompt : string) : Cmd string :=
  fun w => (ui_in w (ui_pos w), next_input (log (EvAsk prompt) w)).

Definition AskForPassword (prompt : string) : Cmd string :=
  fun w => (ui_in w (ui_pos w), next_input (log (EvAskForPassword prompt) w)).

Definition NotifyUpdateIfNeeded : Cmd unit :=
  fun w => (tt, log EvNotifyUpdateIfNeeded w).

Definition ui_ShowConfiguration (E : Env) : Cmd (option string) :=
  fun w => (ShowConfiguration E (cfg w), log EvShowConfiguration w).

(** *** The authenticator ([authentication.Repository]) *)

Definition authenticator_GetLoginPrompts (E : Env)
  : Cmd (gmap string AuthPrompt * option string) :=
  fun w =>
    let '(c', r) := GetLoginPromptsAndSaveUAAServerURL E (cfg w) in
    (r, set_cfg (fun _ => c') (log EvGetLoginPrompts w)).

Definition authenticator_Authenticate (E : Env) (credentials : gmap string string)
  : Cmd (option string) :=
  fun w =>
    let w1 := next_auth (log (EvAuthenticate credentials) w) in
    match auth_replies w (auth_calls w) with
    | None => (None, set_cfg (storeTokens E credentials) w1)
    | Some msg => (Some msg, w1)
    end.

(** *** The repositories *)

Definition orgRepo_ListOrgs (E : Env) (limit : nat)
  : Cmd (list models.Organization * option string) :=
  fun w => (ListOrgs E limit (cfg w), log (EvListOrgs limit) w).

Definition orgRepo_FindByName (E : Env) (name : string)
  : Cmd (models.Organization * option string) :=
  fun w => (FindOrgByName E name (cfg w), log (EvFindOrgByName name) w).

Definition spaceRepo_FindByName (E : Env) (name : string)
  : Cmd (models.Space * option string) :=
  fun w => (FindSpaceByName E name (cfg w), log (EvFindSpaceByName name) w).

(** The callback [setSpace] passes to [ListSpaces] appends the space and
    asks for the next one while fewer than [maxChoices] are held. *)
Fixpoint ListSpaces_callback (spaces availableSpaces : list models.Space)
  : list models.Space :=
  match spaces with
  | [] => availableSpaces
  | space :: rest =>
      let availableSpaces := availableSpaces ++ [space] in
      if (length availableSpaces <? maxChoices)%nat
      then ListSpaces_callback rest availableSpaces
      else availableSpaces
  end.

Definition spaceRepo_ListSpaces (E : Env)
  : Cmd (list models.Space * option string) :=
  fun w =>
    let '(spaces, err) := ListSpaces E (cfg w) in
    ((ListSpaces_callback spaces [], err), log EvListSpaces w).

(** ** Go library functions *)

(** [strings.Contains s substr]. *)
Fixpoint Contains (s substr : string) : bool :=
  String.prefix substr s ||
  match s with
  | EmptyString => false
  | String _ s' => Contains s' substr
  end.

(** [strconv.Atoi] on a 64-bit platform: an optional sign, then one or
    more decimal digits, the value within the range of [int]; [None] is
    the error case. *)
Definition digit_value (a : ascii) : option Z :=
  let n := Z.of_N (N_of_ascii a) in
  if ((48 <=? n) && (n <=? 57))%Z then Some (n - 48)%Z else None.

Fixpoint parse_digits (s : string) (acc : Z) : option Z :=
  match s with
  | EmptyString => Some acc
  | String a s' =>
      match digit_value a with
      | Some d => parse_digits s' (acc * 10 + d)%Z
      | None => None
      end
  end.

Definition Atoi (s : string) : option Z :=
  match s with
  | EmptyString => None
  | String a rest =>
      let neg := Ascii.eqb a "-"%char in
      let digits := if neg || Ascii.eqb a "+"%char then rest else s in
      match digits with
      | EmptyString => None
      | _ =>
          match parse_digits digits 0 with
          | None => None
          | Some n =>
              let v := if neg then (- n)%Z else n in
              if ((- 2 ^ 63 <=? v) && (v <=? 2 ^ 63 - 1))%Z
              then Some v else None
          end
      end
  end.

(** ** A [for i := 0; i < bound; i++] loop with [break]

    The loop is a machine: [Running i st] stands at the loop condition
    with counter [i] and variables [st]; the body returns the new
    variables and whether it left through [break]. *)
Section ForLoop.
Context {St : Type}.
Variable body : nat -> St -> Cmd (St * bool).
Variable bound : nat.

Inductive ForLoop :=
| Running (i : nat) (st : St)
| Exited (st : St).

Definition for_step (l : ForLoop) : Cmd ForLoop :=
  match l with
  | Running i st =>
      if (i <? bound)%nat
      then r <- body i st ;;
           ret (if snd r then Exited (fst r) else Running (S i) (fst r))
      else ret (Exited st)
  | Exited st => ret (Exited st)
  end.

Fixpoint for_iter (n : nat) (l : ForLoop) : Cmd ForLoop :=
  match n with
  | O => ret l
  | S n' => l' <- for_step l ;; for_iter n' l'
  end.

Definition for_vars (l : ForLoop) : St :=
  match l with
  | Running _ st => st
  | Exited st => st
  end.

(** [bound] bodies and one last test of the condition end the loop. *)
Definition for_loop (st : St) : Cmd St :=
  l <- for_iter (S bound) (Running 0 st) ;; ret (for_vars l).
End ForLoop.

Arguments Running {St} i st.
Arguments Exited {St} st.

(** ** The [endpoint] command *)
Module Endpoint.

(** The loop of [Execute] over the stored instances: [Some r] when the
    body returned [r], [None] when the range was exhausted. *)
Fixpoint Execute_range (instances : list CFInstanceData.t)
    (apiEndpointPattern : string) : Cmd (option (option string)) :=
  match instances with
  | [] => ret None
  | i :: rest =>
      if Contains (CFInstanceData.AuthorizationEndpoint i) apiEndpointPattern
      then Say "Found existed endpoint %s"
               [ArgStr (CFInstanceData.AuthorizationEndpoint i)] ;;;
           ret (Some None)
      else Execute_range rest apiEndpointPattern
  end.

Definition Execute (E : Env) (c : FlagContext) : Cmd (option string) :=
  let apiEndpointPattern := flag_a c in
  fun w =>
    (found <- Execute_range (Config.InstanceData (cfg w)) apiEndpointPattern ;;
     match found with
     | Some r => ret r
     | None =>
         err <- ui_ShowConfiguration E ;;
         match err with
         | Some e => ret (Some e)
         | None =>
             NotifyUpdateIfNeeded ;;;
             (fun w' =>
                if IsLoggedIn E (cfg w') then (None, w') else (Some "", w'))
         end
     end) w.

End Endpoint.

(** ** The [login] command *)
Module Login.

(** The line feed of the Go literals written with [\n]. *)
Definition LF : string := String (ascii_of_nat 10) EmptyString.

(** The variables the retry loop of [authenticate] updates. *)
Record AuthVars := mkAuthVars {
  passwordFlagValue : string;
  credentials : gmap string string;
  err : option string
}.

Section WithEnv.
Variable E : Env.

Definition decideEndpoint (c : FlagContext) : Cmd (string * bool) :=
  fun w =>
    let endpoint := flag_a c in
    let skipSSL := flag_skip_ssl_validation c in
    let endpoint' :=
      if endpoint =? "" then Config.APIEndpoint (cfg w) else endpoint in
    let skipSSL' :=
      if endpoint =? "" then Config.IsSSLDisabled (cfg w) || skipSSL
      else skipSSL in
    if endpoint' =? ""
    then (endpoint'' <- Ask (T E "API endpoint" []) ;;
          ret (endpoint'', skipSSL')) w
    else (Say (T E "API endpoint: {{.Endpoint}}"
                 [("Endpoint", EntityNameColor E endpoint')]) [] ;;;
          ret (endpoint', skipSSL')) w.

(** *** The SSO flow *)

(** Lines 281-296: one turn of the loop of [authenticateSSO]; the
    variables are the credentials and [err]. *)
Definition authenticateSSO_body (c : FlagContext) (passcode : AuthPrompt)
    (i : nat) (st : gmap string string * option string)
  : Cmd ((gmap string string * option string) * bool) :=
  v <- (if IsSet_sso_passcode c && (i =? 0)%nat
        then ret (String_sso_passcode c)
        else AskForPassword (DisplayName passcode)) ;;
  let credentials := <["passcode" := v]> (fst st) in
  Say (T E "Authenticating..." []) [] ;;;
  err <- authenticator_Authenticate E credentials ;;
  match err with
  | None => Ok ;;; Say "" [] ;;; ret ((credentials, None), true)
  | Some msg => Say msg [] ;;; ret ((credentials, Some msg), false)
  end.

Definition authenticateSSO (c : FlagContext) : Cmd (option string) :=
  r <- authenticator_GetLoginPrompts E ;;
  match snd r with
  | Some e => ret (Some e)
  | None =>
      let prompts := fst r in
      let passcode := index_prompts prompts "passcode" in
      fun w =>
        let passcode :=
          if DisplayName passcode =? ""
          then mkAuthPrompt AuthPromptTypePassword
                 (T E "Temporary Authentication Code ( Get one at {{.AuthenticationEndpoint}}/passcode )"
                    [("AuthenticationEndpoint",
                      Config.AuthenticationEndpoint (cfg w))])
          else passcode in
        (st <- for_loop (authenticateSSO_body c passcode) maxLoginTries
                 (∅, None) ;;
         match snd st with
         | Some _ => ret (Some (T E "Unable to authenticate." []))
         | None => ret None
         end) w
  end.

(** *** The password flow *)

(** Lines 320-326. *)
Definition authenticate_username (prompts : gmap string AuthPrompt)
    (usernameFlagValue : string) (credentials : gmap string string)
  : Cmd (gmap string string) :=
  match prompts !! "username" with
  | Some value =>
      if AuthPromptType_eqb (Type_ (index_prompts prompts "username"))
           AuthPromptTypeText && negb (usernameFlagValue =? "")
      then ret (<["username" := usernameFlagValue]> credentials)
      else v <- Ask (T E (DisplayName value) []) ;;
           ret (<["username" := v]> credentials)
  | None => ret credentials
  end.

(** Lines 328-340: the range over the catalog, which collects the keys
    of the secrets asked at every attempt and asks the other fields
    once. *)
Fixpoint authenticate_range (kvs : list (string * AuthPrompt))
    (passwordKeys : list string) (credentials : gmap string string)
  : Cmd (list string * gmap string string) :=
  match kvs with
  | [] => ret (passwordKeys, credentials)
  | (key, prompt) :: rest =>
      if AuthPromptType_eqb (Type_ prompt) AuthPromptTypePassword
      then if (key =? "passcode") || (key =? "password")
           then authenticate_range rest passwordKeys credentials
           else authenticate_range rest (passwordKeys ++ [key]) credentials
      else if key =? "username"
           then authenticate_range rest passwordKeys credentials
           else v <- Ask (T E (DisplayName prompt) []) ;;
                authenticate_range rest passwordKeys (<[key := v]> credentials)
  end.

(** Lines 345-352: the password, from the flag once and from the
    terminal afterwards. *)
Definition authenticate_password (prompts : gmap string AuthPrompt)
    (v : AuthVars) : Cmd AuthVars :=
  match prompts !! "password" with
  | Some passPrompt =>
      if negb (passwordFlagValue v =? "")
      then ret (mkAuthVars ""
                  (<["password" := passwordFlagValue v]> (credentials v))
                  (err v))
      else p <- AskForPassword (T E (DisplayName passPrompt) []) ;;
           ret (mkAuthVars (passwordFlagValue v)
                  (<["password" := p]> (credentials v)) (err v))
  | None => ret v
  end.

(** Lines 354-356: the other secrets. *)
Fixpoint authenticate_passwordKeys (prompts : gmap string AuthPrompt)
    (passwordKeys : list string) (credentials : gmap string string)
  : Cmd (gmap string string) :=
  match passwordKeys with
  | [] => ret credentials
  | key :: rest =>
      v <- AskForPassword (T E (DisplayName (index_prompts prompts key)) []) ;;
      authenticate_passwordKeys prompts rest (<[key := v]> credentials)
  end.

(** Lines 358-361: the copy handed to the authenticator. *)
Definition credentialsCopy (credentials : gmap string string)
  : gmap string string :=
  list_to_map (map_to_list credentials).

(** Lines 343-372: one turn of the loop of [authenticate]. *)
Definition authenticate_body (prompts : gmap string AuthPrompt)
    (passwordKeys : list string) (i : nat) (v : AuthVars)
  : Cmd (AuthVars * bool) :=
  v1 <- authenticate_password prompts v ;;
  creds <- authenticate_passwordKeys prompts passwordKeys (credentials v1) ;;
  Say (T E "Authenticating..." []) [] ;;;
  err <- authenticator_Authenticate E (credentialsCopy creds) ;;
  match err with
  | None =>
      Ok ;;; Say "" [] ;;;
      ret (mkAuthVars (passwordFlagValue v1) creds None, true)
  | Some msg =>
      Say msg [] ;;;
      ret (mkAuthVars (passwordFlagValue v1) creds (Some msg), false)
  end.

Definition authenticate (c : FlagContext) : Cmd (option string) :=
  fun w =>
    if Config.UAAGrantType (cfg w) =? "client_credentials"
    then (Some (T E "Service account currently logged in. Use 'cf logout' to log out service account and try again." []), w)
    else
      (let usernameFlagValue := flag_u c in
       let passwordFlagValue := flag_p c in
       r <- authenticator_GetLoginPrompts E ;;
       match snd r with
       | Some e => ret (Some e)
       | None =>
           let prompts := fst r in
           credentials <- authenticate_username prompts usernameFlagValue ∅ ;;
           kc <- authenticate_range (range_prompts E prompts) [] credentials ;;
           v <- for_loop (authenticate_body prompts (fst kc)) maxLoginTries
                  (mkAuthVars passwordFlagValue (snd kc) None) ;;
           match err v with
           | Some _ => ret (Some (T E "Unable to authenticate." []))
           | None => ret None
           end
       end) w.

(** *** Targeting *)

Definition targetOrganization (org : models.Organization) : Cmd unit :=
  fun w =>
    Say (T E ("Targeted org {{.OrgName}}" +:+ LF)
           [("OrgName", EntityNameColor E (models.Organization_Name org))]) []
      (set_cfg (Config.SetOrganizationFields (models.Organization_Fields org)) w).

Definition targetSpace (space : models.Space) : Cmd unit :=
  fun w =>
    Say (T E ("Targeted space {{.SpaceName}}" +:+ LF)
           [("SpaceName", EntityNameColor E (models.Space_Name space))]) []
      (set_cfg (Config.SetSpaceFields (models.Space_Fields space)) w).

(** Lines 495-497: the numbered list. *)
Fixpoint promptForName_list (names : list string) (i : nat) : Cmd unit :=
  match names with
  | [] => ret tt
  | name :: rest =>
      Say "%d. %s" [ArgInt (Z.of_nat i + 1); ArgStr name] ;;;
      promptForName_list rest (S i)
  end.

(** Lines 487-515: the loop of [promptForName], entered with the current
    [nameIndex].  The loop ends only on an answer of the user, so it is
    given fuel, one unit per question. *)
Fixpoint promptForName_loop (fuel : nat) (names : list string)
    (listPrompt itemPrompt : string) (nameIndex : Z)
  : Cmd (Outcome string) :=
  if ((nameIndex <? 1) || (Z.of_nat (length names) <? nameIndex))%Z
  then
    match fuel with
    | O => ret Diverging
    | S fuel' =>
        Say listPrompt [] ;;;
        (if (length names <? maxChoices)%nat
         then promptForName_list names 0
         else Say (T E "There are too many options to display, please type in the name." []) []) ;;;
        nameString <- Ask itemPrompt ;;
        if nameString =? ""
        then ret (Returned "")
        else
          match Atoi nameString with
          | None => ret (Returned nameString)
          | Some n => promptForName_loop fuel' names listPrompt itemPrompt n
          end
    end
  else ret (Returned (nth (Z.to_nat (nameIndex - 1)) names "")).

Definition promptForName (fuel : nat) (names : list string)
    (listPrompt itemPrompt : string) : Cmd (Outcome string) :=
  promptForName_loop fuel names listPrompt itemPrompt 0.

Definition promptForOrgName (fuel : nat) (orgs : list models.Organization)
  : Cmd (Outcome string) :=
  let orgNames := map models.Organization_Name orgs in
  promptForName fuel orgNames
    (T E "Select an org (or press enter to skip):" []) "Org".

Definition promptForSpaceName (fuel : nat) (spaces : list models.Space)
  : Cmd (Outcome string) :=
  let spaceNames := map models.Space_Name spaces in
  promptForName fuel spaceNames
    (T E "Select a space (or press enter to skip):" []) "Space".

(** Lines 406-413. *)
Definition setOrganization_find (orgName : string)
  : Cmd (Outcome (bool * option string)) :=
  r <- orgRepo_FindByName E orgName ;;
  match snd r with
  | Some e =>
      ret (Returned
             (false,
              Some (T E ("Error finding org {{.OrgName}}" +:+ LF +:+ "{{.Err}}")
                      [("OrgName", EntityNameColor E orgName); ("Err", e)])))
  | None => targetOrganization (fst r) ;;; ret (Returned (true, None))
  end.

Definition setOrganization (fuel : nat) (c : FlagContext)
  : Cmd (Outcome (bool * option string)) :=
  let orgName := flag_o c in
  if orgName =? ""
  then
    r <- orgRepo_ListOrgs E maxChoices ;;
    match snd r with
    | Some e =>
        ret (Returned
               (false,
                Some (T E ("Error finding available orgs" +:+ LF +:+ "{{.APIErr}}")
                        [("APIErr", e)])))
    | None =>
        match fst r with
        | [] => ret (Returned (false, None))
        | [org] => targetOrganization org ;;; ret (Returned (true, None))
        | orgs =>
            o <- promptForOrgName fuel orgs ;;
            match o with
            | Diverging => ret Diverging
            | Returned orgName =>
                if orgName =? ""
                then Say "" [] ;;; ret (Returned (false, None))
                else setOrganization_find orgName
            end
        end
    end
  else setOrganization_find orgName.

(** Lines 459-466. *)
Definition setSpace_find (spaceName : string) : Cmd (Outcome (option string)) :=
  r <- spaceRepo_FindByName E spaceName ;;
  match snd r with
  | Some e =>
      ret (Returned
             (Some (T E ("Error finding space {{.SpaceName}}" +:+ LF +:+ "{{.Err}}")
                      [("SpaceName", EntityNameColor E spaceName); ("Err", e)])))
  | None => targetSpace (fst r) ;;; ret (Returned None)
  end.

Definition setSpace (fuel : nat) (c : FlagContext)
  : Cmd (Outcome (option string)) :=
  let spaceName := flag_s c in
  if spaceName =? ""
  then
    r <- spaceRepo_ListSpaces E ;;
    match snd r with
    | Some e =>
        ret (Returned
               (Some (T E ("Error finding available spaces" +:+ LF +:+ "{{.Err}}")
                        [("Err", e)])))
    | None =>
        match fst r with
        | [] => ret (Returned None)
        | [space] => targetSpace space ;;; ret (Returned None)
        | availableSpaces =>
            o <- promptForSpaceName fuel availableSpaces ;;
            match o with
            | Diverging => ret Diverging
            | Returned spaceName =>
                if spaceName =? ""
                then Say "" [] ;;; ret (Returned None)
                else setSpace_find spaceName
            end
        end
    end
  else setSpace_find spaceName.

(** *** The session list *)

(** The new first entry of the list, read from the store. *)
Definition currentInstance (c : Config.t) : CFInstanceData.t :=
  CFInstanceData.mk
    (Config.AccessToken c)
    (Config.APIVersion c)
    (Config.AuthenticationEndpoint c)
    (Config.DopplerEndpoint c)
    (Config.LogCacheEndpoint c)
    (Config.OrganizationFields c)
    (Config.SpaceFields c)
    (Config.RefreshToken c)
    (Config.UaaEndpoint c).

(** Lines 532-536. *)
Fixpoint updateMultiInstances_range (c : Config.t)
    (instances newInstances : list CFInstanceData.t)
  : list CFInstanceData.t :=
  match instances with
  | [] => newInstances
  | i :: rest =>
      if negb (CFInstanceData.AuthorizationEndpoint i =? Config.APIEndpoint c)
      then updateMultiInstances_range c rest (newInstances ++ [i])
      else updateMultiInstances_range c rest newInstances
  end.

(** [updateMultiInstances] on the store. *)
Definition updateMultiInstances_cfg (c : Config.t) : Config.t :=
  let instances := Config.InstanceData c in
  let newInstances := [] ++ [currentInstance c] in
  Config.SetInstanceData (updateMultiInstances_range c instances newInstances) c.

Definition updateMultiInstances : Cmd unit :=
  fun w => (tt, set_cfg updateMultiInstances_cfg w).

(** *** [Execute] *)

Definition config_ClearSession : Cmd unit :=
  fun w => (tt, set_cfg (ClearSession E) (log EvClearSession w)).

Definition api_setAPIEndpoint (endpoint : string) (skipSSL : bool)
    (cmdName : string) : Cmd (option string) :=
  fun w =>
    let '(c', e) := setAPIEndpoint E endpoint skipSSL cmdName (cfg w) in
    (e, set_cfg (fun _ => c') (log (EvSetAPIEndpoint endpoint skipSSL cmdName) w)).

Definition command_MinimumCCAPIVersionCheck : Cmd VersionCheck :=
  fun w =>
    (MinimumCCAPIVersionCheck E (Config.APIVersion (cfg w))
       (MinSupportedV2ClientVersion E), w).

(** Lines 212-225, the choice of the flow: [Some e] when [Execute]
    returns [e] from inside the switch, [None] when it goes on. *)
Definition Execute_switch (c : FlagContext) : Cmd (option string) :=
  if flag_sso c && IsSet_sso_passcode c
  then ret (Some (T E "Incorrect usage: --sso-passcode flag cannot be used with --sso" []))
  else if flag_sso c || IsSet_sso_passcode c
       then authenticateSSO c
       else authenticate c.

(** Lines 227-241, after the authentication. *)
Definition Execute_target (fuel : nat) (c : FlagContext)
  : Cmd (Outcome (option string)) :=
  o <- setOrganization fuel c ;;
  match o with
  | Diverging => ret Diverging
  | Returned (_, Some e) => ret (Returned (Some e))
  | Returned (orgIsSet, None) =>
      s <- (if orgIsSet then setSpace fuel c else ret (Returned None)) ;;
      match s with
      | Diverging => ret Diverging
      | Returned (Some e) => ret (Returned (Some e))
      | Returned None =>
          NotifyUpdateIfNeeded ;;;
          updateMultiInstances ;;;
          ret (Returned None)
      end
  end.

(** The function deferred at line 197, run when [Execute] returns. *)
Definition Execute_deferred : Cmd unit :=
  Say "" [] ;;; _ <- ui_ShowConfiguration E ;; ret tt.

Definition Execute (fuel : nat) (c : FlagContext)
  : Cmd (Outcome (option string)) :=
  config_ClearSession ;;;
  es <- decideEndpoint c ;;
  e <- api_setAPIEndpoint (fst es) (snd es) "login" ;;
  match e with
  | Some e => ret (Returned (Some e))
  | None =>
      vc <- command_MinimumCCAPIVersionCheck ;;
      match vc with
      | VersionCheckError e => ret (Returned (Some e))
      | _ =>
          (match vc with
           | MinimumCFAPIVersionNotMetError =>
               Warn "Your API version is no longer supported. Upgrade to a newer version of the API."
           | _ => ret tt
           end) ;;;
          r <- (a <- Execute_switch c ;;
                match a with
                | Some e => ret (Returned (Some e))
                | None => Execute_target fuel c
                end) ;;
          match r with
          | Diverging => ret Diverging
          | Returned x => Execute_deferred ;;; ret (Returned x)
          end
      end
  end.

End WithEnv.
End Login.

(** ** Reading the trace *)

Fixpoint count_events (p : Event -> bool) (tr : list Event) : nat :=
  match tr with
  | [] => 0
  | e :: rest => (if p e then 1 else 0) + count_events p rest
  end.

Definition is_Authenticate (e : Event) : bool :=
  match e with EvAuthenticate _ => true | _ => false end.

Definition is_GetLoginPrompts (e : Event) : bool :=
  match e with EvGetLoginPrompts => true | _ => false end.

Definition is_prompt (e : Event) : bool :=
  match e with EvAsk _ | EvAskForPassword _ => true | _ => false end.

Definition is_repository_call (e : Event) : bool :=
  match e with
  | EvListOrgs _ | EvFindOrgByName _ | EvListSpaces | EvFindSpaceByName _ => true
  | _ => false
  end.

(** The credentials of the calls of [Authenticate], in order. *)
Fixpoint sent_credentials (tr : list Event) : list (gmap string string) :=
  match tr with
  | [] => []
  | EvAuthenticate credentials :: rest => credentials :: sent_credentials rest
  | _ :: rest => sent_credentials rest
  end.

Definition is_numbered_line (e : Event) : bool :=
  match e with
  | EvSay message [ArgInt _; ArgStr _] => message =? "%d. %s"
  | _ => false
  end.

(** The world after the terminal was told [es] and answered [k]
    questions. *)
Definition advance (es : list Event) (k : nat) (w : World) : World :=
  mkWorld (cfg w) (ui_in w) (ui_pos w + k) (auth_replies w) (auth_calls w)
          (trace w ++ es).

(** The lines of a menu numbered from [i + 1]. *)
Definition numbered_lines (i : nat) (names : list string) : list Event :=
  imap (fun j name => EvSay "%d. %s" [ArgInt (Z.of_nat (i + j) + 1); ArgStr name])
       names.

(** The secret prompts of one attempt after the password. *)
Definition passwordKeys_events (E : Env) (prompts : gmap string AuthPrompt)
    (passwordKeys : list string) : list Event :=
  map (fun key => EvAskForPassword (T E (DisplayName (index_prompts prompts key)) []))
      passwordKeys.

(** What follows the call of [Authenticate] in an attempt. *)
Definition attempt_epilogue (reply : option string) : list Event :=
  match reply with
  | None => [EvOk; EvSay "" []]
  | Some msg => [EvSay msg []]
  end.

(** [s] contains [substr]. *)
Definition substring_of (substr s : string) : Prop :=
  exists a b, s = a +:+ substr +:+ b.

(** An answer at the menu that makes [promptForName] ask again: a number
    outside [1 .. length names]. *)
Definition asks_again (names : list string) (answer : string) : Prop :=
  answer <> "" /\
  exists n, Atoi answer = Some n /\ (n < 1 \/ Z.of_nat (length names) < n)%Z.

(** What one turn of the loop of [promptForName] tells and asks: the
    header, the numbered list or the instruction to type the name, and
    the question. *)
Definition menu_events (E : Env) (names : list string)
    (listPrompt itemPrompt : string) : list Event :=
  [EvSay listPrompt []] ++
  (if (length names <? maxChoices)%nat
   then numbered_lines 0 names
   else [EvSay (T E "There are too many options to display, please type in the name." []) []]) ++
  [EvAsk itemPrompt].

(** The password prompt of an attempt entered with the variables [v]:
    none while the value of the flag is pending. *)
Definition password_events (E : Env) (passPrompt : AuthPrompt) (v : Login.AuthVars)
  : list Event :=
  if Login.passwordFlagValue v =? ""
  then [EvAskForPassword (T E (DisplayName passPrompt) [])]
  else [].


Definition authenticate_calls (w : World) : nat :=
  count_events is_Authenticate (trace w).

(** [Authenticate] succeeds for the first time at its [k]-th call from
    now on, [k] counted from 1. *)
Definition first_success (w : World) (k : nat) : Prop :=
  1 <= k /\
  (forall j, j < k - 1 -> auth_replies w (auth_calls w + j) <> None) /\
  auth_replies w (auth_calls w + (k - 1)) = None.

(** The next [n] calls of [Authenticate] fail. *)
Definition all_fail (w : World) (n : nat) : Prop :=
  forall j, j < n -> auth_replies w (auth_calls w + j) <> None.

(** [w'] is [w] after commands that did not call [Authenticate]. *)
Definition no_Authenticate (w w' : World) : Prop :=
  auth_replies w' = auth_replies w /\
  auth_calls w' = auth_calls w /\
  authenticate_calls w' = authenticate_calls w.

(** A loop body that calls [Authenticate] once, keeps its answer in the
    variable read by [errof] and leaves the loop on success. *)
Definition one_Authenticate {St : Type} (errof : St -> option string)
    (body : nat -> St -> Cmd (St * bool)) : Prop :=
  forall i st w,
    auth_replies (snd (body i st w)) = auth_replies w /\
    auth_calls (snd (body i st w)) = S (auth_calls w) /\
    authenticate_calls (snd (body i st w)) = S (authenticate_calls w) /\
    errof (fst (fst (body i st w))) = auth_replies w (auth_calls w) /\
    snd (fst (body i st w)) =
    match auth_replies w (auth_calls w) with None => true | Some _ => false end.

(** ** Sample collaborators and stores *)

Definition sampleEnv (apiErr showErr : option string)
    (catalog : gmap string AuthPrompt) (orgs : list models.Organization) : Env :=
  mkEnv (fun s _ => s) (fun s => s) (fun c => c)
        (fun c => negb (Config.AccessToken c =? ""))
        (fun _ _ _ c => (c, apiErr))
        "2.100.0" (fun _ _ => VersionOk)
        (fun _ => showErr)
        (fun c => (c, (catalog, None)))
        map_to_list
        (fun _ c => c)
        (fun _ _ => (orgs, None))
        (fun name _ =>
           (models.mkOrganization (models.mkOrganizationFields "guid" name), None))
        (fun _ => ([], None))
        (fun name _ =>
           (models.mkSpace (models.mkSpaceFields "guid" name), None)).

Definition noFields_org : models.OrganizationFields :=
  models.mkOrganizationFields "" "".
Definition noFields_space : models.SpaceFields :=
  models.mkSpaceFields "" "".

(** A store that targets [api] and authenticates at [auth]. *)
Definition sampleStore (api auth : string) (sslDisabled : bool)
    (instances : list CFInstanceData.t) : Config.t :=
  Config.mk api sslDisabled "2.150.0" auth "" "" "" "" "" ""
            noFields_org noFields_space instances.

Definition sampleInstance (auth token : string) : CFInstanceData.t :=
  CFInstanceData.mk token "2.150.0" auth "" "" noFields_org noFields_space "" "".

(** A world in which the user types [answers] and then empty lines, and
    the server answers [replies] and then accepts. *)
Definition sampleWorld (c : Config.t) (answers : list string)
    (replies : list (option string)) : World :=
  mkWorld c (fun n => nth n answers "") 0 (fun n => nth n replies None) 0 [].

(** A catalog with a user name, a password and one more secret. *)
Definition sampleCatalog : gmap string AuthPrompt :=
  <["username" := mkAuthPrompt AuthPromptTypeText "Email"]>
    (<["password" := mkAuthPrompt AuthPromptTypePassword "Password"]>
       (<["mfa_code" := mkAuthPrompt AuthPromptTypePassword "MFA Code"]> ∅)).

(** Collaborators of a platform at [https://api.example.com] that
    authenticates at [https://login.example.com] and has one organization
    with one space. *)
Definition scenarioEnv : Env :=
  mkEnv (fun s _ => s) (fun s => s)
        (fun c =>
           Config.mk (Config.APIEndpoint c) (Config.IsSSLDisabled c)
             (Config.APIVersion c) (Config.AuthenticationEndpoint c) "" ""
             (Config.DopplerEndpoint c) (Config.LogCacheEndpoint c)
             (Config.UaaEndpoint c) "" noFields_org noFields_space
             (Config.InstanceData c))
        (fun c => negb (Config.AccessToken c =? ""))
        (fun endpoint skipSSL _ c =>
           (Config.mk endpoint skipSSL "2.150.0" "https://login.example.com"
              (Config.AccessToken c) (Config.RefreshToken c) "" "" ""
              (Config.UAAGrantType c) (Config.OrganizationFields c)
              (Config.SpaceFields c) (Config.InstanceData c),
            None))
        "2.100.0" (fun _ _ => VersionOk)
        (fun _ => None)
        (fun c => (c, (sampleCatalog, None)))
        map_to_list
        (fun _ c =>
           Config.mk (Config.APIEndpoint c) (Config.IsSSLDisabled c)
             (Config.APIVersion c) (Config.AuthenticationEndpoint c)
             "access" "refresh"
             (Config.DopplerEndpoint c) (Config.LogCacheEndpoint c)
             (Config.UaaEndpoint c) "password" (Config.OrganizationFields c)
             (Config.SpaceFields c) (Config.InstanceData c))
        (fun _ _ =>
           ([models.mkOrganization (models.mkOrganizationFields "org1-guid" "org1")],
            None))
        (fun name _ =>
           (models.mkOrganization (models.mkOrganizationFields "guid" name), None))
        (fun _ =>
           ([models.mkSpace (models.mkSpaceFields "space1-guid" "space1")], None))
        (fun name _ =>
           (models.mkSpace (models.mkSpaceFields "guid" name), None)).

Definition noFlags : FlagContext :=
  mkFlagContext "" "" "" "" "" false None false.

(** ** More readers of the trace and of the store *)

Definition is_Ask (e : Event) : bool :=
  match e with EvAsk _ => true | _ => false end.

(** [c'] is [c] but for the targeted organization and space. *)
Definition retargeted (c c' : Config.t) : Prop :=
  c' = Config.SetSpaceFields (Config.SpaceFields c')
         (Config.SetOrganizationFields (Config.OrganizationFields c') c).

(** The keys of the session list. *)
Definition instance_keys (l : list CFInstanceData.t) : list string :=
  map CFInstanceData.AuthorizationEndpoint l.

(** The catalog entries whose secret is asked at every attempt of the
    password flow. *)
Definition retry_secret (kv : string * AuthPrompt) : bool :=
  AuthPromptType_eqb (Type_ (snd kv)) AuthPromptTypePassword &&
  negb ((fst kv =? "passcode") || (fst kv =? "password")).

(** The catalog entries asked once, as plain text, before the attempts:
    everything that is not a secret, but for the user name. *)
Definition plain_field (kv : string * AuthPrompt) : bool :=
  negb (AuthPromptType_eqb (Type_ (snd kv)) AuthPromptTypePassword) &&
  negb (fst kv =? "username").

(** The label of the passcode prompt of the SSO flow, for the catalog
    [prompts] and the store [c]. *)
Definition passcode_label (E : Env) (prompts : gmap string AuthPrompt)
    (c : Config.t) : string :=
  if DisplayName (index_prompts prompts "passcode") =? ""
  then T E "Temporary Authentication Code ( Get one at {{.AuthenticationEndpoint}}/passcode )"
         [("AuthenticationEndpoint", Config.AuthenticationEndpoint c)]
  else DisplayName (index_prompts prompts "passcode").

(** Collaborators as [sampleEnv], but the prompt service fails. *)
Definition noPromptsEnv : Env :=
  mkEnv (fun s _ => s) (fun s => s) (fun c => c)
        (fun c => negb (Config.AccessToken c =? ""))
        (fun _ _ _ c => (c, None))
        "2.100.0" (fun _ _ => VersionOk)
        (fun _ => None)
        (fun c => (c, (∅, Some "Error performing request")))
        map_to_list
        (fun _ c => c)
        (fun _ _ => ([], None))
        (fun name _ =>
           (models.mkOrganization (models.mkOrganizationFields "guid" name), None))
        (fun _ => ([], None))
        (fun name _ =>
           (models.mkSpace (models.mkSpaceFields "guid" name), None)).

(** A world whose user answers [0] to every question. *)
Definition stubbornWorld (c : Config.t) : World :=
  mkWorld c (fun _ => "0") 0 (fun _ => None) 0 [].

(** * The other source file: a test double and the [download-droplet] command *)

(** ** Package [v7fakes]: [FakeCreateUserActor]

    The counterfeiter double of [v7.CreateUserActor].  [v7action.User] is
    declared outside this file and only passed through, so it is a
    parameter here, with its zero value; [v7action.Warnings] is a slice of
    strings.  A [nil] map is [None], a map that was made is [Some m]: the
    code tests for [nil] before it writes.  A panic (an index out of
    range) is [None].  The two mutexes only serialise the calls, which
    are run one after the other here; a stub is a pure function. *)
Module v7fakes.
Section Fake.
Variable User : Type.
Variable zeroUser : User.

Record Returns := mkReturns {
  result1 : User;
  result2 : list string;
  result3 : option string
}.

Definition Stub : Type := string -> string -> string -> Returns.

Record FakeCreateUserActor := mkFake {
  CreateUserStub : option Stub;
  createUserArgsForCall : list (string * string * string);
  createUserReturns : Returns;
  createUserReturnsOnCall : option (gmap Z Returns);
  invocations : option (gmap string (list (list string)))
}.

(** [new(FakeCreateUserActor)]: every field has its zero value. *)
Definition new : FakeCreateUserActor :=
  mkFake None [] (mkReturns zeroUser [] None) None None.

(** Reading a [nil] map gives what reading an empty one gives. *)
Definition read {K : Type} `{Countable K} {V : Type} (m : option (gmap K V)) : gmap K V :=
  match m with
  | Some m => m
  | None => ∅
  end.

Definition recordInvocation (key : string) (args : list string)
    (fake : FakeCreateUserActor) : FakeCreateUserActor :=
  let made := match invocations fake with
              | None => ∅
              | Some m => m
              end in
  let keyed := match made !! key with
               | None => <[key := []]> made
               | Some _ => made
               end in
  mkFake (CreateUserStub fake) (createUserArgsForCall fake)
    (createUserReturns fake) (createUserReturnsOnCall fake)
    (Some (<[key := default [] (keyed !! key) ++ [args]]> keyed)).

Definition CreateUser (arg1 arg2 arg3 : string) (fake : FakeCreateUserActor) :
    Returns * FakeCreateUserActor :=
  let specific :=
    read (createUserReturnsOnCall fake)
      !! Z.of_nat (length (createUserArgsForCall fake)) in
  let fake1 :=
    mkFake (CreateUserStub fake)
      (createUserArgsForCall fake ++ [(arg1, arg2, arg3)])
      (createUserReturns fake) (createUserReturnsOnCall fake)
      (invocations fake) in
  let fake2 := recordInvocation "CreateUser" [arg1; arg2; arg3] fake1 in
  match CreateUserStub fake2 with
  | Some stub => (stub arg1 arg2 arg3, fake2)
  | None =>
      match specific with
      | Some ret => (ret, fake2)
      | None => (createUserReturns fake2, fake2)
      end
  end.

Definition CreateUserCallCount (fake : FakeCreateUserActor) : Z :=
  Z.of_nat (length (createUserArgsForCall fake)).

Definition CreateUserCalls (stub : option Stub) (fake : FakeCreateUserActor) :
    FakeCreateUserActor :=
  mkFake stub (createUserArgsForCall fake) (createUserReturns fake)
    (createUserReturnsOnCall fake) (invocations fake).

Definition CreateUserArgsForCall (i : Z) (fake : FakeCreateUserActor) :
    option (string * string * string) :=
  if (i <? 0)%Z then None
  else createUserArgsForCall fake !! Z.to_nat i.

Definition CreateUserReturns (r : Returns) (fake : FakeCreateUserActor) :
    FakeCreateUserActor :=
  mkFake None (createUserArgsForCall fake) r
    (createUserReturnsOnCall fake) (invocations fake).

Definition CreateUserReturnsOnCall (i : Z) (r : Returns)
    (fake : FakeCreateUserActor) : FakeCreateUserActor :=
  let made := match createUserReturnsOnCall fake with
              | None => ∅
              | Some m => m
              end in
  mkFake None (createUserArgsForCall fake) (createUserReturns fake)
    (Some (<[i := r]> made)) (invocations fake).

(** The loop of [Invocations] copies the entries one by one into a new
    map; over a [nil] map it does not run. *)
Definition Invocations (fake : FakeCreateUserActor) :
    gmap string (list (list string)) :=
  map_fold (fun key value copiedInvocations => <[key := value]> copiedInvocations)
    ∅ (read (invocations fake)).

(** A test drives the double by a sequence of calls. *)
Inductive Call :=
  | DoCreateUser (arg1 arg2 arg3 : string)
  | DoCreateUserCalls (stub : option Stub)
  | DoCreateUserReturns (r : Returns)
  | DoCreateUserReturnsOnCall (i : Z) (r : Returns).

Definition call (fake : FakeCreateUserActor) (c : Call) : FakeCreateUserActor :=
  match c with
  | DoCreateUser arg1 arg2 arg3 => snd (CreateUser arg1 arg2 arg3 fake)
  | DoCreateUserCalls stub => CreateUserCalls stub fake
  | DoCreateUserReturns r => CreateUserReturns r fake
  | DoCreateUserReturnsOnCall i r => CreateUserReturnsOnCall i r fake
  end.

Definition calls (cs : list Call) (fake : FakeCreateUserActor) : FakeCreateUserActor :=
  fold_left call cs fake.

Definition is_DoCreateUser (c : Call) : bool :=
  match c with
  | DoCreateUser _ _ _ => true
  | _ => false
  end.

Definition args_of (c : Call) : list (string * string * string) :=
  match c with
  | DoCreateUser arg1 arg2 arg3 => [(arg1, arg2, arg3)]
  | _ => []
  end.

Definition invocation_of (a : string * string * string) : list string :=
  [fst (fst a); snd (fst a); snd a].

(** What a call answers when no stub is set: the result registered for
    its index, or the general one. *)
Definition canned (fake : FakeCreateUserActor) (index : Z) : Returns :=
  match read (createUserReturnsOnCall fake) !! index with
  | Some ret => ret
  | None => createUserReturns fake
  end.

End Fake.

Arguments mkReturns {User}.
Arguments result1 {User}.
Arguments result2 {User}.
Arguments result3 {User}.
Arguments mkFake {User}.
Arguments CreateUserStub {User}.
Arguments createUserArgsForCall {User}.
Arguments createUserReturns {User}.
Arguments createUserReturnsOnCall {User}.
Arguments invocations {User}.
Arguments new {User}.
Arguments recordInvocation {User}.
Arguments CreateUser {User}.
Arguments CreateUserCallCount {User}.
Arguments CreateUserCalls {User}.
Arguments CreateUserArgsForCall {User}.
Arguments CreateUserReturns {User}.
Arguments CreateUserReturnsOnCall {User}.
Arguments Invocations {User}.
Arguments DoCreateUser {User}.
Arguments DoCreateUserCalls {User}.
Arguments DoCreateUserReturns {User}.
Arguments DoCreateUserReturnsOnCall {User}.
Arguments call {User}.
Arguments calls {User}.
Arguments is_DoCreateUser {User}.
Arguments args_of {User}.
Arguments canned {User}.
End v7fakes.

(** ** Package [v7]: [DownloadDropletCommand]

    The command reads its collaborators ([SharedActor], [Config], [Actor],
    the working directory, [filepath.Join] and the result of
    [ioutil.WriteFile]) and acts on the terminal and the file system; what
    it does is the list of [Action]s, in order.  The errors it tells apart
    or builds are constructors; any other error is [OtherError]. *)
Module v7.

Inductive error :=
  | DropletNotFoundError
  | OtherError (msg : string)
  | NoDropletForAppError (AppName DropletGUID : string)
  | DropletFileError (Err : error).

Inductive Action :=
  | DisplayTextWithFlavor (template : string) (vars : list (string * string))
  | DisplayText (template : string) (vars : list (string * string))
  | DisplayWarnings (warnings : list string)
  | DisplayOK
  | DownloadDropletByGUIDAndAppName (dropletGUID appName spaceGUID : string)
  | DownloadCurrentDropletByAppName (appName spaceGUID : string)
  | WriteFile (path : string) (data : list Byte.byte) (perm : Z).

Record DownloadDropletCommand := mkDownloadDropletCommand {
  RequiredArgs_AppName : string;
  Droplet : string;
  CWD : string
}.

Record Env := mkEnv {
  CheckTarget : bool -> bool -> option error;
  CurrentUser : string * option error;
  TargetedOrganization_Name : string;
  TargetedSpace_Name : string;
  TargetedSpace_GUID : string;
  downloadByGUID :
    string -> string -> string -> list Byte.byte * list string * option error;
  downloadCurrent :
    string -> string -> list Byte.byte * string * list string * option error;
  Getwd : string * option error;
  Join : string -> string -> string;
  writeFile : string -> list Byte.byte -> option error
}.

(** The download stage, lines 163-190: raw bytes, droplet GUID, error and
    what was done. *)
Definition Execute_download (E : Env) (cmd : DownloadDropletCommand)
    (userName : string) :
    list Byte.byte * string * option error * list Action :=
  if negb (Droplet cmd =? "") then
    let dropletGUID := Droplet cmd in
    let r := downloadByGUID E dropletGUID (RequiredArgs_AppName cmd)
               (TargetedSpace_GUID E) in
    (fst (fst r), dropletGUID, snd r,
     [DisplayTextWithFlavor
        "Downloading droplet {{.DropletGUID}} for app {{.AppName}} in org {{.OrgName}} / space {{.SpaceName}} as {{.Username}}..."
        [("DropletGUID", dropletGUID);
         ("AppName", RequiredArgs_AppName cmd);
         ("OrgName", TargetedOrganization_Name E);
         ("SpaceName", TargetedSpace_Name E);
         ("Username", userName)];
      DownloadDropletByGUIDAndAppName dropletGUID (RequiredArgs_AppName cmd)
        (TargetedSpace_GUID E);
      DisplayWarnings (snd (fst r))])
  else
    let r := downloadCurrent E (RequiredArgs_AppName cmd) (TargetedSpace_GUID E) in
    (fst (fst (fst r)), snd (fst (fst r)), snd r,
     [DisplayTextWithFlavor
        "Downloading current droplet for app {{.AppName}} in org {{.OrgName}} / space {{.SpaceName}} as {{.Username}}..."
        [("AppName", RequiredArgs_AppName cmd);
         ("OrgName", TargetedOrganization_Name E);
         ("SpaceName", TargetedSpace_Name E);
         ("Username", userName)];
      DownloadCurrentDropletByAppName (RequiredArgs_AppName cmd)
        (TargetedSpace_GUID E);
      DisplayWarnings (snd (fst r))]).

(** The write stage, lines 198-218. *)
Definition Execute_write (E : Env) (cmd : DownloadDropletCommand)
    (rawDropletBytes : list Byte.byte) (dropletGUID : string) :
    option error * list Action :=
  let dir :=
    if CWD cmd =? "" then
      match snd (Getwd E) with
      | Some err => inr err
      | None => inl (fst (Getwd E))
      end
    else inl (CWD cmd) in
  match dir with
  | inr err => (Some err, [])
  | inl cwd =>
      let pathToDroplet := Join E cwd ("droplet_" +:+ dropletGUID +:+ ".tgz") in
      match writeFile E pathToDroplet rawDropletBytes with
      | Some err =>
          (Some (DropletFileError err),
           [WriteFile pathToDroplet rawDropletBytes 438])
      | None =>
          (None,
           [WriteFile pathToDroplet rawDropletBytes 438;
            DisplayText "Droplet downloaded successfully at {{.FilePath}}"
              [("FilePath", pathToDroplet)];
            DisplayOK])
      end
  end.

Definition Execute (E : Env) (cmd : DownloadDropletCommand) :
    option error * list Action :=
  match CheckTarget E true true with
  | Some err => (Some err, [])
  | None =>
      match snd (CurrentUser E) with
      | Some err => (Some err, [])
      | None =>
          let d := Execute_download E cmd (fst (CurrentUser E)) in
          match snd (fst d) with
          | Some err =>
              (Some match err with
                    | DropletNotFoundError =>
                        NoDropletForAppError (RequiredArgs_AppName cmd) (Droplet cmd)
                    | _ => err
                    end,
               snd d)
          | None =>
              let r := Execute_write E cmd (fst (fst (fst d))) (snd (fst (fst d))) in
              (fst r, snd d ++ snd r)
          end
      end
  end.

Definition is_WriteFile (a : Action) : bool :=
  match a with
  | WriteFile _ _ _ => true
  | _ => false
  end.

Definition is_download (a : Action) : bool :=
  match a with
  | DownloadDropletByGUIDAndAppName _ _ _ => true
  | DownloadCurrentDropletByAppName _ _ => true
  | _ => false
  end.

Definition is_DisplayOK (a : Action) : bool :=
  match a with
  | DisplayOK => true
  | _ => false
  end.

End v7.

(** A run of [download-droplet] in which the current droplet is not
    found. *)
Definition noDropletEnv : v7.Env :=
  v7.mkEnv (fun _ _ => None) ("admin", None) "org1" "space1" "space1-guid"
    (fun _ _ _ => ([], ["warning"], Some v7.DropletNotFoundError))
    (fun _ _ => ([], "", ["warning"], Some v7.DropletNotFoundError))
    ("/home/user", None)
    (fun dir name => dir +:+ "/" +:+ name)
    (fun _ _ => None).

(** A run in which the download and the write succeed. *)
Definition dropletEnv : v7.Env :=
  v7.mkEnv (fun _ _ => None) ("admin", None) "org1" "space1" "space1-guid"
    (fun _ _ _ => ([Byte.x1f; Byte.x8b], [], None))
    (fun _ _ => ([Byte.x1f; Byte.x8b], "droplet-guid", [], None))
    ("/home/user", None)
    (fun dir name => dir +:+ "/" +:+ name)
    (fun _ _ => None).

(** [n] calls of [CreateUser] in a row, with the arguments of [l]. *)
Definition create_users {User : Type} (l : list (string * string * string)) :
    list (v7fakes.Call User) :=
  List.map (fun a => v7fakes.DoCreateUser (fst (fst a)) (snd (fst a)) (snd a)) l.

(** The record of a double on which [CreateUser] was called with [args]. *)
Definition recorded (args : list (string * string * string)) :
    gmap string (list (list string)) :=
  match args with
  | [] => ∅
  | _ => {[ "CreateUser" := List.map v7fakes.invocation_of args ]}
  end.

(** ** The attempts of a login, as the specification counts them *)

(** The number of attempts a loop of at most [n] turns makes when the
    authenticator answers [replies] from its call number [call] on: it
    stops at the first call that is accepted. *)
Fixpoint attempts_made (n : nat) (replies : nat -> option string) (call : nat)
  : nat :=
  match n with
  | O => 0
  | S n' =>
      match replies call with
      | None => 1
      | Some _ => S (attempts_made n' replies (S call))
      end
  end.

(** What one attempt of the password flow tells and asks: the password
    prompt when the password is [asked], the other secrets, the call of
    [Authenticate] with [credentials], and what follows its [reply]. *)
Definition password_attempt (E : Env) (prompts : gmap string AuthPrompt)
    (passPrompt : AuthPrompt) (passwordKeys : list string) (asked : bool)
    (credentials : gmap string string) (reply : option string) : list Event :=
  (if asked then [EvAskForPassword (T E (DisplayName passPrompt) [])] else []) ++
  passwordKeys_events E prompts passwordKeys ++
  [EvSay (T E "Authenticating..." []) []; EvAuthenticate credentials] ++
  attempt_epilogue reply.

(** What one attempt of the SSO flow tells and asks: the passcode prompt
    when the passcode is [asked], the call of [Authenticate] with the
    passcode [code] alone, and what follows its [reply]. *)
Definition passcode_attempt (E : Env) (label : string) (asked : bool)
    (code : string) (reply : option string) : list Event :=
  (if asked then [EvAskForPassword label] else []) ++
  [EvSay (T E "Authenticating..." []) []; EvAuthenticate {["passcode" := code]}] ++
  attempt_epilogue reply.

(** * Properties *)

(** ** The session list *)

Lemma updateMultiInstances_range_filter (c : Config.t)
    (instances newInstances : list CFInstanceData.t) :
  Login.updateMultiInstances_range c instances newInstances =
  newInstances ++
  List.filter
    (fun i => negb (CFInstanceData.AuthorizationEndpoint i =? Config.APIEndpoint c))
    instances.
Proof.
  revert newInstances.
  induction instances as [|i rest IH]; intros acc; simpl.
  - now rewrite app_nil_r.
  - destruct (negb _); rewrite IH; [now rewrite <- app_assoc | reflexivity].
Qed.

(** What [updateMultiInstances] stores: the current session, then the old
    entries whose authorization endpoint is not the API endpoint of the
    store, in their order. *)
Lemma updateMultiInstances_cfg_InstanceData (c : Config.t) :
  Config.InstanceData (Login.updateMultiInstances_cfg c) =
  Login.currentInstance c ::
  List.filter
    (fun i => negb (CFInstanceData.AuthorizationEndpoint i =? Config.APIEndpoint c))
    (Config.InstanceData c).
Proof.
  unfold Login.updateMultiInstances_cfg. simpl.
  now rewrite updateMultiInstances_range_filter.
Qed.

(** In a store whose API endpoint is its authentication endpoint, the
    entries dropped are those with the key of the new session. *)
Lemma updateMultiInstances_cfg_by_key (c : Config.t) :
  Config.APIEndpoint c = Config.AuthenticationEndpoint c ->
  Config.InstanceData (Login.updateMultiInstances_cfg c) =
  Login.currentInstance c ::
  List.filter
    (fun i => negb (CFInstanceData.AuthorizationEndpoint i =?
                    CFInstanceData.AuthorizationEndpoint (Login.currentInstance c)))
    (Config.InstanceData c).
Proof.
  intros H. rewrite updateMultiInstances_cfg_InstanceData. simpl.
  now rewrite H.
Qed.

(** A second login keeps the first entry whenever the API endpoint of the
    store differs from the endpoint the first session authenticated
    against. *)
Lemma updateMultiInstances_cfg_twice (c1 c2 : Config.t) :
  Config.InstanceData c1 = [] ->
  Config.InstanceData c2 = Config.InstanceData (Login.updateMultiInstances_cfg c1) ->
  Config.APIEndpoint c2 <> Config.AuthenticationEndpoint c1 ->
  Config.InstanceData (Login.updateMultiInstances_cfg c2) =
  [Login.currentInstance c2; Login.currentInstance c1].
Proof.
  intros H1 H2 Hne.
  rewrite updateMultiInstances_cfg_InstanceData, H2,
    updateMultiInstances_cfg_InstanceData, H1.
  simpl.
  destruct (String.eqb_spec (Config.AuthenticationEndpoint c1) (Config.APIEndpoint c2))
    as [Heq|_]; [now symmetry in Heq | reflexivity].
Qed.

(** C1, on the code: two logins in a row to [https://api.example.com],
    whose sessions both authenticate against [https://login.example.com],
    starting from an empty list, leave two entries with the same
    authorization endpoint, not one. *)
Theorem two_logins_same_endpoint_keep_two_entries :
  let c1 := Login.updateMultiInstances_cfg
              (sampleStore "https://api.example.com" "https://login.example.com"
                 false []) in
  let c2 := Login.updateMultiInstances_cfg c1 in
  length (Config.InstanceData c2) = 2 /\
  map CFInstanceData.AuthorizationEndpoint (Config.InstanceData c2) =
  ["https://login.example.com"; "https://login.example.com"].
Proof. split; reflexivity. Qed.

(** C2, on the code: with the list [A; B], [A] authenticated against X and
    [B] against Y, a login whose session authenticates against X through
    the API endpoint [https://api.x.example.com] stores
    [new session; A; B]: [A] is not dropped although it has the key of
    the new session. *)
Theorem login_keeps_entry_with_same_key :
  let A := sampleInstance "https://login.x.example.com" "token-a" in
  let B := sampleInstance "https://login.y.example.com" "token-b" in
  let c := sampleStore "https://api.x.example.com" "https://login.x.example.com"
             false [A; B] in
  CFInstanceData.AuthorizationEndpoint (Login.currentInstance c) =
  CFInstanceData.AuthorizationEndpoint A /\
  Config.InstanceData (Login.updateMultiInstances_cfg c) =
  [Login.currentInstance c; A; B].
Proof. split; reflexivity. Qed.

(** ** The endpoint resolver *)

(** C3 as stated fails: with an explicit endpoint, the persisted skip-ssl
    setting is not consulted. *)
Lemma decideEndpoint_ignores_persisted_skip_ssl :
  ~ (forall (E : Env) (c : FlagContext) (w : World),
       snd (fst (Login.decideEndpoint E c w)) =
       Config.IsSSLDisabled (cfg w) || flag_skip_ssl_validation c).
Proof.
  intros H.
  specialize (H (sampleEnv None None ∅ [])
                (mkFlagContext "https://api.example.com" "" "" "" "" false None false)
                (sampleWorld (sampleStore "https://old.example.com"
                                "https://login.example.com" true []) [] [])).
  vm_compute in H. discriminate H.
Qed.

(** C3, amended: the effective skip-ssl value is the persisted setting or
    the flag when no endpoint is given on the command line, and the flag
    alone when one is given. *)
Theorem decideEndpoint_skipSSL (E : Env) (c : FlagContext) (w : World) :
  snd (fst (Login.decideEndpoint E c w)) =
  if flag_a c =? ""
  then Config.IsSSLDisabled (cfg w) || flag_skip_ssl_validation c
  else flag_skip_ssl_validation c.
Proof.
  unfold Login.decideEndpoint.
  destruct (flag_a c =? "") eqn:Ha.
  - destruct (Config.APIEndpoint (cfg w) =? ""); reflexivity.
  - rewrite Ha. reflexivity.
Qed.

(** ** The [endpoint] command *)

Lemma prefix_true_iff (p s : string) :
  String.prefix p s = true <-> exists b, s = p +:+ b.
Proof.
  revert s. induction p as [|a p IH]; intros s.
  - split; [intros _; now exists s | intros _; now destruct s].
  - destruct s as [|a' s']; simpl.
    + split; [discriminate | intros [b Hb]; discriminate Hb].
    + destruct (Ascii.ascii_dec a a') as [->|Hne].
      * rewrite IH. split; intros [b Hb]; exists b.
        -- now rewrite Hb.
        -- now injection Hb.
      * split; [discriminate | intros [b Hb]; injection Hb; congruence].
Qed.

Lemma Contains_cons (a : ascii) (s substr : string) :
  Contains (String a s) substr =
  String.prefix substr (String a s) || Contains s substr.
Proof. reflexivity. Qed.

Lemma Contains_empty (substr : string) :
  Contains "" substr = String.prefix substr "" || false.
Proof. reflexivity. Qed.

(** [Contains] decides the substring relation. *)
Lemma Contains_true_iff (s substr : string) :
  Contains s substr = true <-> substring_of substr s.
Proof.
  unfold substring_of.
  induction s as [|a s IH].
  - rewrite Contains_empty, orb_false_r, prefix_true_iff. split.
    + intros [b Hb]. now exists "", b.
    + intros [x [b Hb]]. destruct x; [now exists b | discriminate Hb].
  - rewrite Contains_cons, orb_true_iff, prefix_true_iff, IH. split.
    + intros [[b Hb] | [x [b Hb]]].
      * now exists "", b.
      * exists (String a x), b. simpl. now rewrite Hb.
    + intros [x [b Hb]]. destruct x as [|a' x]; simpl in Hb.
      * left. now exists b.
      * right. injection Hb as _ Hb. now exists x, b.
Qed.

Lemma Execute_range_no_match (instances : list CFInstanceData.t)
    (pattern : string) (w : World) :
  Forall (fun i => ~ substring_of pattern (CFInstanceData.AuthorizationEndpoint i))
         instances ->
  Endpoint.Execute_range instances pattern w = (None, w).
Proof.
  induction 1 as [|i rest Hi _ IH]; simpl; [reflexivity|].
  destruct (Contains _ _) eqn:Hc; [|exact IH].
  apply Contains_true_iff in Hc. contradiction.
Qed.

Lemma Execute_range_match (instances : list CFInstanceData.t)
    (pattern : string) (w : World) :
  Exists (fun i => substring_of pattern (CFInstanceData.AuthorizationEndpoint i))
         instances ->
  exists i, In i instances /\
    substring_of pattern (CFInstanceData.AuthorizationEndpoint i) /\
    Endpoint.Execute_range instances pattern w =
    (Some None,
     log (EvSay "Found existed endpoint %s"
            [ArgStr (CFInstanceData.AuthorizationEndpoint i)]) w).
Proof.
  induction instances as [|i rest IH]; intros Hex.
  - inversion Hex.
  - simpl. destruct (Contains _ _) eqn:Hc.
    + exists i. split; [now left|]. split; [now apply Contains_true_iff|reflexivity].
    + assert (Hrest : Exists
        (fun i => substring_of pattern (CFInstanceData.AuthorizationEndpoint i)) rest).
      { inversion Hex as [? ? Hi|]; subst; [|assumption].
        apply Contains_true_iff in Hi. congruence. }
      destruct (IH Hrest) as (j & Hj & Hs & Hr).
      exists j. split; [now right|]. now split.
Qed.

(** C10 as stated fails: when no stored session matches and the user is
    not logged in, an error of [ShowConfiguration] is returned as it is,
    and its message need not be empty. *)
Lemma Endpoint_Execute_returns_ShowConfiguration_error :
  ~ (forall (E : Env) (c : FlagContext) (w : World),
       Forall (fun i => ~ substring_of (flag_a c)
                            (CFInstanceData.AuthorizationEndpoint i))
              (Config.InstanceData (cfg w)) ->
       IsLoggedIn E (cfg w) = false ->
       fst (Endpoint.Execute E c w) = Some "").
Proof.
  intros H.
  specialize (H (sampleEnv None (Some "cannot show") ∅ [])
                (mkFlagContext "eu10" "" "" "" "" false None false)
                (sampleWorld (sampleStore "https://api.example.com"
                                "https://login.example.com" false []) [] [])).
  specialize (H (List.Forall_nil _) eq_refl). vm_compute in H. discriminate H.
Qed.

(** C10, amended: [Execute] returns nil after the one line about the first
    stored session whose authorization endpoint contains the pattern,
    without showing the configuration; when no stored session matches, an
    error of [ShowConfiguration] is returned as it is, and when there is
    none and the user is not logged in, the error returned has the empty
    message. *)
Theorem Endpoint_Execute_result (E : Env) (c : FlagContext) (w : World) :
  (Exists (fun i => substring_of (flag_a c)
                      (CFInstanceData.AuthorizationEndpoint i))
          (Config.InstanceData (cfg w)) ->
   exists i, In i (Config.InstanceData (cfg w)) /\
     substring_of (flag_a c) (CFInstanceData.AuthorizationEndpoint i) /\
     Endpoint.Execute E c w =
     (None,
      log (EvSay "Found existed endpoint %s"
             [ArgStr (CFInstanceData.AuthorizationEndpoint i)]) w)) /\
  (Forall (fun i => ~ substring_of (flag_a c)
                        (CFInstanceData.AuthorizationEndpoint i))
          (Config.InstanceData (cfg w)) ->
   (forall e, ShowConfiguration E (cfg w) = Some e ->
      Endpoint.Execute E c w = (Some e, log EvShowConfiguration w)) /\
   (ShowConfiguration E (cfg w) = None -> IsLoggedIn E (cfg w) = false ->
      Endpoint.Execute E c w =
      (Some "", log EvNotifyUpdateIfNeeded (log EvShowConfiguration w)))).
Proof.
  split.
  - intros Hex.
    destruct (Execute_range_match _ _ w Hex) as (i & Hi & Hs & Hr).
    exists i. split; [assumption|]. split; [assumption|].
    unfold Endpoint.Execute, bind. now rewrite Hr.
  - intros Hall. pose proof (Execute_range_no_match _ _ w Hall) as Hr.
    split.
    + intros e He. unfold Endpoint.Execute, bind. rewrite Hr.
      unfold ui_ShowConfiguration. now rewrite He.
    + intros Hs Hl. unfold Endpoint.Execute, bind. rewrite Hr.
      unfold ui_ShowConfiguration. rewrite Hs.
      unfold NotifyUpdateIfNeeded. simpl. now rewrite Hl.
Qed.

(** A stored session matches: nothing but the line about it is shown. *)
Lemma Endpoint_Execute_result_witness :
  exists i,
    In i [sampleInstance "https://login.example.com" "token"] /\
    substring_of "login.example" (CFInstanceData.AuthorizationEndpoint i) /\
    Endpoint.Execute (sampleEnv None None ∅ [])
      (mkFlagContext "login.example" "" "" "" "" false None false)
      (sampleWorld (sampleStore "https://api.example.com"
                      "https://login.example.com" false
                      [sampleInstance "https://login.example.com" "token"])
         [] []) =
    (None,
     log (EvSay "Found existed endpoint %s"
            [ArgStr (CFInstanceData.AuthorizationEndpoint i)])
       (sampleWorld (sampleStore "https://api.example.com"
                       "https://login.example.com" false
                       [sampleInstance "https://login.example.com" "token"])
          [] [])).
Proof.
  apply (proj1 (Endpoint_Execute_result (sampleEnv None None ∅ [])
    (mkFlagContext "login.example" "" "" "" "" false None false)
    (sampleWorld (sampleStore "https://api.example.com" "https://login.example.com"
                    false [sampleInstance "https://login.example.com" "token"])
       [] []))).
  apply Exists_cons_hd. exists "https://", ".com". reflexivity.
Defined.

(** ** Commands and the world *)

Lemma bind_unfold {A B} (m : Cmd A) (k : A -> Cmd B) (w : World) :
  bind m k w = k (fst (m w)) (snd (m w)).
Proof. unfold bind. now destruct (m w). Qed.

Lemma advance_advance (es1 es2 : list Event) (k1 k2 : nat) (w : World) :
  advance es2 k2 (advance es1 k1 w) = advance (es1 ++ es2) (k1 + k2) w.
Proof.
  unfold advance. simpl. f_equal; [lia | now rewrite app_assoc].
Qed.

Lemma advance_nil (w : World) : advance [] 0 w = w.
Proof.
  destruct w. unfold advance. simpl. f_equal; [lia | apply app_nil_r].
Qed.

Lemma log_advance (e : Event) (w : World) : log e w = advance [e] 0 w.
Proof. unfold log, advance. f_equal. lia. Qed.

Lemma ask_advance (e : Event) (w : World) :
  next_input (log e w) = advance [e] 1 w.
Proof. unfold next_input, log, advance. simpl. f_equal. lia. Qed.

Lemma ui_in_advance (es : list Event) (k : nat) (w : World) :
  ui_in (advance es k w) = ui_in w.
Proof. reflexivity. Qed.

Lemma ui_pos_advance (es : list Event) (k : nat) (w : World) :
  ui_pos (advance es k w) = ui_pos w + k.
Proof. reflexivity. Qed.

Lemma trace_advance (es : list Event) (k : nat) (w : World) :
  trace (advance es k w) = trace w ++ es.
Proof. reflexivity. Qed.

Lemma trace_log (e : Event) (w : World) : trace (log e w) = trace w ++ [e].
Proof. reflexivity. Qed.

Lemma count_events_app (p : Event -> bool) (l1 l2 : list Event) :
  count_events p (l1 ++ l2) = count_events p l1 + count_events p l2.
Proof. induction l1 as [|e l1 IH]; simpl; [reflexivity | rewrite IH; lia]. Qed.

Lemma no_Authenticate_refl (w : World) : no_Authenticate w w.
Proof. now repeat split. Qed.

Lemma no_Authenticate_trans (w1 w2 w3 : World) :
  no_Authenticate w1 w2 -> no_Authenticate w2 w3 -> no_Authenticate w1 w3.
Proof. unfold no_Authenticate. intros (?&?&?) (?&?&?). repeat split; congruence. Qed.

Lemma no_Authenticate_advance (es : list Event) (k : nat) (w : World) :
  count_events is_Authenticate es = 0 -> no_Authenticate w (advance es k w).
Proof.
  intros H. unfold no_Authenticate, authenticate_calls, advance. simpl.
  rewrite count_events_app, H. repeat split. lia.
Qed.

Lemma no_Authenticate_set_cfg (f : Config.t -> Config.t) (w : World) :
  no_Authenticate w (set_cfg f w).
Proof. now repeat split. Qed.

Lemma Say_eq (message : string) (args : list Arg) (w : World) :
  Say message args w = (tt, advance [EvSay message args] 0 w).
Proof. unfold Say. now rewrite log_advance. Qed.

Lemma Ok_eq (w : World) : Ok w = (tt, advance [EvOk] 0 w).
Proof. unfold Ok. now rewrite log_advance. Qed.

Lemma Ask_eq (prompt : string) (w : World) :
  Ask prompt w = (ui_in w (ui_pos w), advance [EvAsk prompt] 1 w).
Proof. unfold Ask. now rewrite ask_advance. Qed.

Lemma AskForPassword_eq (prompt : string) (w : World) :
  AskForPassword prompt w =
  (ui_in w (ui_pos w), advance [EvAskForPassword prompt] 1 w).
Proof. unfold AskForPassword. now rewrite ask_advance. Qed.

(** One step through a [bind]. *)
Ltac run_bind := rewrite bind_unfold; cbn beta iota delta [fst snd].

(** ** The attempts of the password flow *)

Lemma authenticate_passwordKeys_world (E : Env) (prompts : gmap string AuthPrompt)
    (keys : list string) (creds : gmap string string) (w : World) :
  snd (Login.authenticate_passwordKeys E prompts keys creds w) =
  advance (passwordKeys_events E prompts keys) (length keys) w.
Proof.
  revert creds w. induction keys as [|key rest IH]; intros creds w; simpl.
  - now rewrite advance_nil.
  - rewrite bind_unfold, AskForPassword_eq. simpl.
    now rewrite IH, advance_advance.
Qed.

Lemma authenticate_passwordKeys_other (E : Env) (prompts : gmap string AuthPrompt)
    (keys : list string) (creds : gmap string string) (w : World) (k : string) :
  ~ In k keys ->
  fst (Login.authenticate_passwordKeys E prompts keys creds w) !! k = creds !! k.
Proof.
  revert creds w. induction keys as [|key rest IH]; intros creds w Hk; simpl.
  - reflexivity.
  - rewrite bind_unfold, AskForPassword_eq. simpl.
    rewrite IH; [|intros H; apply Hk; now right].
    apply lookup_insert_ne. intros ->. apply Hk. now left.
Qed.

Lemma authenticate_password_flag (E : Env) (prompts : gmap string AuthPrompt)
    (passPrompt : AuthPrompt) (v : Login.AuthVars) (w : World) :
  prompts !! "password" = Some passPrompt ->
  Login.passwordFlagValue v <> "" ->
  Login.authenticate_password E prompts v w =
  (Login.mkAuthVars ""
     (<["password" := Login.passwordFlagValue v]> (Login.credentials v))
     (Login.err v), w).
Proof.
  intros Hp Hf. unfold Login.authenticate_password. rewrite Hp.
  apply String.eqb_neq in Hf. now rewrite Hf.
Qed.

Lemma authenticate_password_asked (E : Env) (prompts : gmap string AuthPrompt)
    (passPrompt : AuthPrompt) (v : Login.AuthVars) (w : World) :
  prompts !! "password" = Some passPrompt ->
  Login.passwordFlagValue v = "" ->
  Login.authenticate_password E prompts v w =
  (Login.mkAuthVars ""
     (<["password" := ui_in w (ui_pos w)]> (Login.credentials v))
     (Login.err v),
   advance [EvAskForPassword (T E (DisplayName passPrompt) [])] 1 w).
Proof.
  intros Hp Hf. unfold Login.authenticate_password. rewrite Hp, Hf.
  change (negb ("" =? "")) with false. cbv iota.
  now rewrite bind_unfold, AskForPassword_eq.
Qed.

(** After the password step the value of the flag is gone. *)
Lemma authenticate_password_consumes (E : Env) (prompts : gmap string AuthPrompt)
    (passPrompt : AuthPrompt) (v : Login.AuthVars) (w : World) :
  prompts !! "password" = Some passPrompt ->
  Login.passwordFlagValue (fst (Login.authenticate_password E prompts v w)) = "".
Proof.
  intros Hp.
  destruct (String.eqb_spec (Login.passwordFlagValue v) "") as [Hf|Hf].
  - now rewrite (authenticate_password_asked E prompts passPrompt v w Hp Hf).
  - now rewrite (authenticate_password_flag E prompts passPrompt v w Hp Hf).
Qed.

Lemma authenticate_password_world (E : Env) (prompts : gmap string AuthPrompt)
    (v : Login.AuthVars) (w : World) :
  snd (Login.authenticate_password E prompts v w) =
  match prompts !! "password" with
  | Some passPrompt =>
      advance (password_events E passPrompt v)
        (length (password_events E passPrompt v)) w
  | None => w
  end.
Proof.
  destruct (prompts !! "password") as [p|] eqn:Hp.
  - unfold password_events.
    destruct (String.eqb_spec (Login.passwordFlagValue v) "") as [Hf|Hf].
    + now rewrite (authenticate_password_asked E prompts p v w Hp Hf).
    + rewrite (authenticate_password_flag E prompts p v w Hp Hf). simpl.
      now rewrite advance_nil.
  - unfold Login.authenticate_password. now rewrite Hp.
Qed.

Lemma passwordKeys_events_quiet (E : Env) (prompts : gmap string AuthPrompt)
    (keys : list string) :
  count_events is_Authenticate (passwordKeys_events E prompts keys) = 0.
Proof. induction keys; simpl; auto. Qed.

Lemma authenticate_password_quiet (E : Env) (prompts : gmap string AuthPrompt)
    (v : Login.AuthVars) (w : World) :
  no_Authenticate w (snd (Login.authenticate_password E prompts v w)).
Proof.
  rewrite authenticate_password_world.
  destruct (prompts !! "password") as [p|]; [|apply no_Authenticate_refl].
  apply no_Authenticate_advance. unfold password_events.
  now destruct (_ =? _).
Qed.

(** The world an attempt leaves, and what it returns. *)
Lemma authenticate_body_eq (E : Env) (prompts : gmap string AuthPrompt)
    (keys : list string) (i : nat) (v : Login.AuthVars) (w : World) :
  let r1 := Login.authenticate_password E prompts v w in
  let r2 := Login.authenticate_passwordKeys E prompts keys
              (Login.credentials (fst r1)) (snd r1) in
  let w3 := next_auth
              (log (EvAuthenticate (Login.credentialsCopy (fst r2)))
                 (advance [EvSay (T E "Authenticating..." []) []] 0 (snd r2))) in
  Login.authenticate_body E prompts keys i v w =
  match auth_replies w (auth_calls w) with
  | None =>
      ((Login.mkAuthVars (Login.passwordFlagValue (fst r1)) (fst r2) None, true),
       advance [EvOk; EvSay "" []] 0
         (set_cfg (storeTokens E (Login.credentialsCopy (fst r2))) w3))
  | Some msg =>
      ((Login.mkAuthVars (Login.passwordFlagValue (fst r1)) (fst r2) (Some msg),
        false),
       advance [EvSay msg []] 0 w3)
  end.
Proof.
  intros r1 r2 w3. unfold Login.authenticate_body.
  run_bind. fold r1. run_bind. fold r2.
  run_bind. rewrite Say_eq. run_bind.
  unfold authenticator_Authenticate.
  assert (Hq : no_Authenticate w (snd r2)).
  { eapply no_Authenticate_trans; [apply authenticate_password_quiet|].
    unfold r2. rewrite authenticate_passwordKeys_world.
    apply no_Authenticate_advance, passwordKeys_events_quiet. }
  destruct Hq as (Hr & Hc & _).
  replace (auth_replies (advance [EvSay (T E "Authenticating..." []) []] 0 (snd r2))
             (auth_calls (advance [EvSay (T E "Authenticating..." []) []] 0 (snd r2))))
    with (auth_replies w (auth_calls w))
    by (simpl; now rewrite Hr, Hc).
  fold w3.
  destruct (auth_replies w (auth_calls w)) as [msg|]; cbn beta iota delta [fst snd].
  - run_bind. now rewrite Say_eq.
  - run_bind. rewrite Ok_eq. run_bind. rewrite Say_eq. cbn beta iota delta [fst snd].
    unfold ret. now rewrite advance_advance.
Qed.

Lemma authenticate_body_one_Authenticate (E : Env)
    (prompts : gmap string AuthPrompt) (keys : list string) :
  one_Authenticate Login.err (Login.authenticate_body E prompts keys).
Proof.
  intros i v w.
  pose proof (authenticate_body_eq E prompts keys i v w) as Heq.
  cbv zeta in Heq.
  assert (Hq : no_Authenticate w
                 (snd (Login.authenticate_passwordKeys E prompts keys
                         (Login.credentials (fst (Login.authenticate_password E prompts v w)))
                         (snd (Login.authenticate_password E prompts v w))))).
  { eapply no_Authenticate_trans; [apply authenticate_password_quiet|].
    rewrite authenticate_passwordKeys_world.
    apply no_Authenticate_advance, passwordKeys_events_quiet. }
  destruct Hq as (Hr & Hc & Hn). unfold authenticate_calls in *.
  rewrite Heq.
  destruct (auth_replies w (auth_calls w)); simpl;
    rewrite ?count_events_app, ?Hr, ?Hc, ?Hn; simpl; repeat split; lia.
Qed.

(** One turn of the loop of the SSO flow. *)
Lemma authenticateSSO_body_eq (E : Env) (c : FlagContext) (passcode : AuthPrompt)
    (i : nat) (st : gmap string string * option string) (w : World) :
  let asked := negb (IsSet_sso_passcode c && (i =? 0)%nat) in
  let code := if asked then ui_in w (ui_pos w) else String_sso_passcode c in
  let w1 := if asked
            then advance [EvAskForPassword (DisplayName passcode)] 1 w else w in
  let credentials := <["passcode" := code]> (fst st) in
  let w3 := next_auth
              (log (EvAuthenticate credentials)
                 (advance [EvSay (T E "Authenticating..." []) []] 0 w1)) in
  Login.authenticateSSO_body E c passcode i st w =
  match auth_replies w (auth_calls w) with
  | None =>
      ((credentials, None, true),
       advance [EvOk; EvSay "" []] 0 (set_cfg (storeTokens E credentials) w3))
  | Some msg => ((credentials, Some msg, false), advance [EvSay msg []] 0 w3)
  end.
Proof.
  intros asked code w1 credentials w3. unfold Login.authenticateSSO_body.
  run_bind.
  assert (H1 : (if IsSet_sso_passcode c && (i =? 0)%nat
                then ret (String_sso_passcode c)
                else AskForPassword (DisplayName passcode)) w = (code, w1)).
  { unfold code, w1, asked.
    destruct (IsSet_sso_passcode c && (i =? 0)%nat); simpl;
      [reflexivity | now rewrite AskForPassword_eq]. }
  rewrite H1. cbn beta iota delta [fst snd]. fold credentials.
  run_bind. rewrite Say_eq. run_bind.
  unfold authenticator_Authenticate.
  replace (auth_replies (advance [EvSay (T E "Authenticating..." []) []] 0 w1)
             (auth_calls (advance [EvSay (T E "Authenticating..." []) []] 0 w1)))
    with (auth_replies w (auth_calls w))
    by (unfold w1; now destruct asked).
  fold w3.
  destruct (auth_replies w (auth_calls w)) as [msg|]; cbn beta iota delta [fst snd].
  - run_bind. now rewrite Say_eq.
  - run_bind. rewrite Ok_eq. run_bind. rewrite Say_eq. cbn beta iota delta [fst snd].
    unfold ret. now rewrite advance_advance.
Qed.

Lemma authenticateSSO_body_one_Authenticate (E : Env) (c : FlagContext)
    (passcode : AuthPrompt) :
  one_Authenticate snd (Login.authenticateSSO_body E c passcode).
Proof.
  intros i st w.
  pose proof (authenticateSSO_body_eq E c passcode i st w) as Heq.
  cbv zeta in Heq. rewrite Heq. unfold authenticate_calls.
  destruct (auth_replies w (auth_calls w));
    destruct (negb (IsSet_sso_passcode c && (i =? 0)%nat)); simpl;
    rewrite ?count_events_app; simpl; repeat split; lia.
Qed.

(** ** The bounded retry loop *)

Lemma for_iter_Exited {St : Type} (body : nat -> St -> Cmd (St * bool))
    (bound n : nat) (st : St) (w : World) :
  for_iter body bound n (Exited st) w = (Exited st, w).
Proof.
  induction n as [|n IH]; simpl; [reflexivity|].
  run_bind. exact IH.
Qed.

Lemma for_iter_S {St : Type} (body : nat -> St -> Cmd (St * bool))
    (bound n : nat) (l : ForLoop) (w : World) :
  for_iter body bound (S n) l w =
  for_iter body bound n (fst (for_step body bound l w))
    (snd (for_step body bound l w)).
Proof. simpl. now run_bind. Qed.

Lemma for_step_Running {St : Type} (body : nat -> St -> Cmd (St * bool))
    (bound i : nat) (st : St) (w : World) :
  i < bound ->
  for_step body bound (Running i st) w =
  (if snd (fst (body i st w))
   then Exited (fst (fst (body i st w)))
   else Running (S i) (fst (fst (body i st w))),
   snd (body i st w)).
Proof.
  intros Hi. simpl. apply Nat.ltb_lt in Hi. rewrite Hi. now run_bind.
Qed.

Lemma for_step_done {St : Type} (body : nat -> St -> Cmd (St * bool))
    (bound i : nat) (st : St) (w : World) :
  bound <= i ->
  for_step body bound (Running i st) w = (Exited st, w).
Proof.
  intros Hi. simpl. apply Nat.ltb_ge in Hi. now rewrite Hi.
Qed.

(** The loop from turn [i] with [m] turns left: it stops at the first
    success and otherwise runs all the turns. *)
Lemma for_iter_attempts {St : Type} (errof : St -> option string)
    (body : nat -> St -> Cmd (St * bool)) (bound : nat) :
  one_Authenticate errof body ->
  forall m i st w, i + m = bound ->
    let r := for_iter body bound (S m) (Running i st) w in
    auth_replies (snd r) = auth_replies w /\
    (exists st', fst r = Exited st') /\
    (forall k, k < m ->
       (forall j, j < k -> auth_replies w (auth_calls w + j) <> None) ->
       auth_replies w (auth_calls w + k) = None ->
       auth_calls (snd r) = auth_calls w + S k /\
       authenticate_calls (snd r) = authenticate_calls w + S k /\
       errof (for_vars (fst r)) = None) /\
    (0 < m ->
     (forall j, j < m -> auth_replies w (auth_calls w + j) <> None) ->
     auth_calls (snd r) = auth_calls w + m /\
     authenticate_calls (snd r) = authenticate_calls w + m /\
     errof (for_vars (fst r)) <> None).
Proof.
  intros Hb m. induction m as [|m IH]; intros i st w Him r.
  - unfold r. rewrite for_iter_S, for_step_done by lia. simpl.
    repeat split; try (now exists st); intros; lia.
  - destruct (Hb i st w) as (Hr & Hc & Hn & He & Hbrk).
    unfold r. rewrite for_iter_S, for_step_Running by lia.
    cbn beta iota delta [fst snd]. rewrite Hbrk.
    destruct (auth_replies w (auth_calls w)) as [msg|] eqn:Hreply.
    + destruct (IH (S i) (fst (fst (body i st w))) (snd (body i st w)) ltac:(lia))
        as (IHr & IHx & IHa & IHb).
      rewrite Hr, Hc in *.
      split; [assumption|]. split; [assumption|]. split.
      * intros k Hk Hfail Hok.
        destruct k as [|k]; [rewrite Nat.add_0_r in Hok; congruence|].
        destruct (IHa k ltac:(lia)) as (H1 & H2 & H3).
        -- intros j Hj. replace (S (auth_calls w) + j) with (auth_calls w + S j) by lia.
           apply Hfail. lia.
        -- now replace (S (auth_calls w) + k) with (auth_calls w + S k) by lia.
        -- rewrite H1, H2, Hn. repeat split; [lia | lia | assumption].
      * intros _ Hfail. destruct m as [|m].
        -- rewrite for_iter_S, for_step_done by lia. simpl.
           rewrite Hc, Hn, He. repeat split; [lia | lia | discriminate].
        -- destruct (IHb ltac:(lia)) as (H1 & H2 & H3).
           ++ intros j Hj.
              replace (S (auth_calls w) + j) with (auth_calls w + S j) by lia.
              apply Hfail. lia.
           ++ rewrite H1, H2, Hn. repeat split; [lia | lia | assumption].
    + rewrite for_iter_Exited. simpl. rewrite Hr, Hc, Hn, He.
      split; [reflexivity|]. split; [eauto|]. split.
      * intros k Hk Hfail _. destruct k as [|k].
        -- repeat split; lia.
        -- exfalso. apply (Hfail 0); [lia|]. now rewrite Nat.add_0_r.
      * intros _ Hfail. exfalso. apply (Hfail 0); [lia|]. now rewrite Nat.add_0_r.
Qed.

Lemma for_loop_eq {St : Type} (body : nat -> St -> Cmd (St * bool))
    (bound : nat) (st : St) (w : World) :
  for_loop body bound st w =
  (for_vars (fst (for_iter body bound (S bound) (Running 0 st) w)),
   snd (for_iter body bound (S bound) (Running 0 st) w)).
Proof. unfold for_loop. now run_bind. Qed.

(** Whatever the body does, the loop is left after at most [bound]
    turns. *)
Lemma for_iter_exits {St : Type} (body : nat -> St -> Cmd (St * bool))
    (bound : nat) :
  forall m i st w, i + m = bound ->
    exists st', fst (for_iter body bound (S m) (Running i st) w) = Exited st'.
Proof.
  induction m as [|m IH]; intros i st w Him.
  - rewrite for_iter_S, for_step_done by lia. simpl. eauto.
  - rewrite for_iter_S, for_step_Running by lia. cbn beta iota delta [fst snd].
    destruct (snd (fst (body i st w))).
    + rewrite for_iter_Exited. simpl. eauto.
    + apply IH. lia.
Qed.

(** The retry loop entered in a world [w] that saw no call of
    [Authenticate] since [w0]. *)
Lemma for_loop_attempts {St : Type} (errof : St -> option string)
    (body : nat -> St -> Cmd (St * bool)) (st : St) (w0 w : World) :
  one_Authenticate errof body ->
  no_Authenticate w0 w ->
  (forall k, first_success w0 k ->
     auth_calls (snd (for_loop body maxLoginTries st w)) =
     auth_calls w0 + Nat.min k maxLoginTries /\
     authenticate_calls (snd (for_loop body maxLoginTries st w)) =
     authenticate_calls w0 + Nat.min k maxLoginTries /\
     (k <= maxLoginTries -> errof (fst (for_loop body maxLoginTries st w)) = None) /\
     (maxLoginTries < k -> errof (fst (for_loop body maxLoginTries st w)) <> None)) /\
  (all_fail w0 maxLoginTries ->
     auth_calls (snd (for_loop body maxLoginTries st w)) =
     auth_calls w0 + maxLoginTries /\
     authenticate_calls (snd (for_loop body maxLoginTries st w)) =
     authenticate_calls w0 + maxLoginTries /\
     errof (fst (for_loop body maxLoginTries st w)) <> None).
Proof.
  intros Hb (Hr & Hc & Hn).
  destruct (for_iter_attempts errof body maxLoginTries Hb maxLoginTries 0 st w eq_refl)
    as (_ & _ & Ha & Hf).
  rewrite for_loop_eq. cbn beta iota delta [fst snd].
  rewrite Hr, Hc, Hn in *.
  assert (Hall : all_fail w0 maxLoginTries ->
            auth_calls (snd (for_iter body maxLoginTries (S maxLoginTries) (Running 0 st) w)) =
            auth_calls w0 + maxLoginTries /\
            authenticate_calls (snd (for_iter body maxLoginTries (S maxLoginTries) (Running 0 st) w)) =
            authenticate_calls w0 + maxLoginTries /\
            errof (for_vars (fst (for_iter body maxLoginTries (S maxLoginTries) (Running 0 st) w))) <> None).
  { intros Hfail. apply Hf; [unfold maxLoginTries; lia | exact Hfail]. }
  split; [|exact Hall].
  intros k (Hk1 & Hfail & Hok).
  destruct (Nat.le_gt_cases k maxLoginTries) as [Hle|Hgt].
  - destruct (Ha (k - 1) ltac:(unfold maxLoginTries in *; lia) Hfail Hok) as (H1 & H2 & H3).
    rewrite H1, H2, Nat.min_l by assumption.
    repeat split; [lia | lia | now intros _ | intros; lia].
  - destruct Hall as (H1 & H2 & H3).
    { intros j Hj. apply Hfail. lia. }
    rewrite H1, H2, Nat.min_r by lia.
    repeat split; [intros; lia | now intros _].
Qed.

(** ** The static part of the password flow *)

Lemma authenticate_username_quiet (E : Env) (prompts : gmap string AuthPrompt)
    (u : string) (creds : gmap string string) (w : World) :
  no_Authenticate w (snd (Login.authenticate_username E prompts u creds w)).
Proof.
  unfold Login.authenticate_username.
  destruct (prompts !! "username"); [|apply no_Authenticate_refl].
  destruct (_ && _); [apply no_Authenticate_refl|].
  run_bind. rewrite Ask_eq. now apply no_Authenticate_advance.
Qed.

Lemma authenticate_range_quiet (E : Env) (kvs : list (string * AuthPrompt))
    (keys : list string) (creds : gmap string string) (w : World) :
  no_Authenticate w (snd (Login.authenticate_range E kvs keys creds w)).
Proof.
  revert keys creds w.
  induction kvs as [|[key prompt] rest IH]; intros keys creds w; simpl.
  - apply no_Authenticate_refl.
  - destruct (AuthPromptType_eqb _ _).
    + destruct (_ || _); apply IH.
    + destruct (key =? "username"); [apply IH|].
      run_bind. rewrite Ask_eq. cbn beta iota delta [fst snd].
      eapply no_Authenticate_trans; [|apply IH].
      now apply no_Authenticate_advance.
Qed.



Lemma GetLoginPrompts_quiet (E : Env) (w : World) :
  no_Authenticate w (snd (authenticator_GetLoginPrompts E w)).
Proof.
  unfold authenticator_GetLoginPrompts.
  destruct (GetLoginPromptsAndSaveUAAServerURL E (cfg w)) as [c' r]. simpl.
  unfold no_Authenticate, authenticate_calls. simpl.
  rewrite count_events_app. simpl. repeat split. lia.
Qed.

Lemma GetLoginPrompts_result (E : Env) (w : World) :
  fst (authenticator_GetLoginPrompts E w) =
  snd (GetLoginPromptsAndSaveUAAServerURL E (cfg w)).
Proof.
  unfold authenticator_GetLoginPrompts.
  now destruct (GetLoginPromptsAndSaveUAAServerURL E (cfg w)).
Qed.

(** ** The authentication loop *)

Lemma authenticate_eq (E : Env) (c : FlagContext) (w : World) :
  Config.UAAGrantType (cfg w) <> "client_credentials" ->
  snd (snd (GetLoginPromptsAndSaveUAAServerURL E (cfg w))) = None ->
  let prompts := fst (snd (GetLoginPromptsAndSaveUAAServerURL E (cfg w))) in
  let w1 := snd (authenticator_GetLoginPrompts E w) in
  let r2 := Login.authenticate_username E prompts (flag_u c) ∅ w1 in
  let r3 := Login.authenticate_range E (range_prompts E prompts) [] (fst r2) (snd r2) in
  let r4 := for_loop (Login.authenticate_body E prompts (fst (fst r3))) maxLoginTries
              (Login.mkAuthVars (flag_p c) (snd (fst r3)) None) (snd r3) in
  no_Authenticate w (snd r3) /\
  Login.authenticate E c w =
  (match Login.err (fst r4) with
   | Some _ => Some (T E "Unable to authenticate." [])
   | None => None
   end, snd r4).
Proof.
  intros Hg Hp prompts w1 r2 r3 r4. split.
  - eapply no_Authenticate_trans; [apply GetLoginPrompts_quiet|]. fold w1.
    eapply no_Authenticate_trans; [apply authenticate_username_quiet|].
    apply authenticate_range_quiet.
  - unfold Login.authenticate. apply String.eqb_neq in Hg. rewrite Hg.
    run_bind. rewrite GetLoginPrompts_result, Hp.
    fold prompts. fold w1. run_bind. fold r2. run_bind. fold r3.
    run_bind. fold r4. now destruct (Login.err (fst r4)).
Qed.

Lemma authenticateSSO_eq (E : Env) (c : FlagContext) (w : World) :
  snd (snd (GetLoginPromptsAndSaveUAAServerURL E (cfg w))) = None ->
  let prompts := fst (snd (GetLoginPromptsAndSaveUAAServerURL E (cfg w))) in
  let w1 := snd (authenticator_GetLoginPrompts E w) in
  let passcode :=
    if DisplayName (index_prompts prompts "passcode") =? ""
    then mkAuthPrompt AuthPromptTypePassword
           (T E "Temporary Authentication Code ( Get one at {{.AuthenticationEndpoint}}/passcode )"
              [("AuthenticationEndpoint", Config.AuthenticationEndpoint (cfg w1))])
    else index_prompts prompts "passcode" in
  let r := for_loop (Login.authenticateSSO_body E c passcode) maxLoginTries
             (∅, None) w1 in
  Login.authenticateSSO E c w =
  (match snd (fst r) with
   | Some _ => Some (T E "Unable to authenticate." [])
   | None => None
   end, snd r).
Proof.
  intros Hp prompts w1 passcode r. unfold Login.authenticateSSO.
  run_bind. rewrite GetLoginPrompts_result, Hp.
  fold prompts. fold w1. fold passcode.
  run_bind. fold r. now destruct (snd (fst r)).
Qed.

(** C4: in either flow, once the catalog was fetched, [Authenticate] is
    called [min k 3] times when its first success is at call [k], counted
    from 1, and the flow succeeds exactly when [k <= 3]; when the three
    attempts fail, it is called 3 times and the error returned is the
    message ["Unable to authenticate."], whatever the server answered. *)
Theorem authentication_loop_attempts (E : Env) (c : FlagContext) (w : World)
    (flow : Cmd (option string)) :
  (flow = Login.authenticate E c /\
   Config.UAAGrantType (cfg w) <> "client_credentials") \/
  flow = Login.authenticateSSO E c ->
  snd (snd (GetLoginPromptsAndSaveUAAServerURL E (cfg w))) = None ->
  (forall k, first_success w k ->
     authenticate_calls (snd (flow w)) =
     authenticate_calls w + Nat.min k maxLoginTries /\
     auth_calls (snd (flow w)) = auth_calls w + Nat.min k maxLoginTries /\
     (k <= maxLoginTries -> fst (flow w) = None) /\
     (maxLoginTries < k ->
      fst (flow w) = Some (T E "Unable to authenticate." []))) /\
  (all_fail w maxLoginTries ->
     authenticate_calls (snd (flow w)) = authenticate_calls w + maxLoginTries /\
     auth_calls (snd (flow w)) = auth_calls w + maxLoginTries /\
     fst (flow w) = Some (T E "Unable to authenticate." [])).
Proof.
  intros Hflow Hp.
  assert (Hgen : forall (St : Type) (errof : St -> option string)
                   (body : nat -> St -> Cmd (St * bool)) (st : St) (w1 : World),
             one_Authenticate errof body -> no_Authenticate w w1 ->
             flow w =
             (match errof (fst (for_loop body maxLoginTries st w1)) with
              | Some _ => Some (T E "Unable to authenticate." [])
              | None => None
              end, snd (for_loop body maxLoginTries st w1)) ->
             (forall k, first_success w k ->
                authenticate_calls (snd (flow w)) =
                authenticate_calls w + Nat.min k maxLoginTries /\
                auth_calls (snd (flow w)) = auth_calls w + Nat.min k maxLoginTries /\
                (k <= maxLoginTries -> fst (flow w) = None) /\
                (maxLoginTries < k ->
                 fst (flow w) = Some (T E "Unable to authenticate." []))) /\
             (all_fail w maxLoginTries ->
                authenticate_calls (snd (flow w)) =
                authenticate_calls w + maxLoginTries /\
                auth_calls (snd (flow w)) = auth_calls w + maxLoginTries /\
                fst (flow w) = Some (T E "Unable to authenticate." []))).
  { intros St errof body st w1 Hb Hq Heq.
    destruct (for_loop_attempts errof body st w w1 Hb Hq) as (Ha & Hf).
    rewrite Heq. cbn beta iota delta [fst snd]. split.
    - intros k Hk. destruct (Ha k Hk) as (H1 & H2 & H3 & H4).
      repeat split; [assumption | assumption | |].
      + intros Hle. now rewrite (H3 Hle).
      + intros Hgt. specialize (H4 Hgt).
        now destruct (errof (fst (for_loop body maxLoginTries st w1))).
    - intros Hall. destruct (Hf Hall) as (H1 & H2 & H3).
      repeat split; [assumption | assumption |].
      now destruct (errof (fst (for_loop body maxLoginTries st w1))). }
  destruct Hflow as [[-> Hg] | ->].
  - destruct (authenticate_eq E c w Hg Hp) as (Hq & Heq).
    eapply (Hgen _ Login.err); [apply authenticate_body_one_Authenticate | exact Hq | exact Heq].
  - pose proof (authenticateSSO_eq E c w Hp) as Heq. cbv zeta in Heq.
    eapply (Hgen _ snd); [apply authenticateSSO_body_one_Authenticate | | exact Heq].
    apply GetLoginPrompts_quiet.
Qed.

(** Two calls: the first fails, the second succeeds. *)
Lemma authentication_loop_attempts_witness :
  authenticate_calls
    (snd (Login.authenticate (sampleEnv None None sampleCatalog []) noFlags
            (sampleWorld (sampleStore "https://api.example.com"
                            "https://login.example.com" false [])
               ["alice"; "wrong"; "000000"; "right"; "111111"]
               [Some "Credentials were rejected"; None]))) = 2 /\
  fst (Login.authenticate (sampleEnv None None sampleCatalog []) noFlags
         (sampleWorld (sampleStore "https://api.example.com"
                         "https://login.example.com" false [])
            ["alice"; "wrong"; "000000"; "right"; "111111"]
            [Some "Credentials were rejected"; None])) = None.
Proof.
  destruct (authentication_loop_attempts
              (sampleEnv None None sampleCatalog []) noFlags
              (sampleWorld (sampleStore "https://api.example.com"
                              "https://login.example.com" false [])
                 ["alice"; "wrong"; "000000"; "right"; "111111"]
                 [Some "Credentials were rejected"; None])
              (Login.authenticate (sampleEnv None None sampleCatalog []) noFlags))
    as [Hfirst _].
  - left. split; [reflexivity | discriminate].
  - reflexivity.
  - destruct (Hfirst 2) as (Hcalls & _ & Hok & _).
    + split; [lia|]. split; [|reflexivity].
      intros j Hj. assert (j = 0) as -> by (simpl in Hj; lia). discriminate.
    + split; [exact Hcalls | apply Hok; unfold maxLoginTries; lia].
Defined.

(** ** The password of the password flow *)

Lemma credentialsCopy_eq (credentials : gmap string string) :
  Login.credentialsCopy credentials = credentials.
Proof. unfold Login.credentialsCopy. apply list_to_map_to_list. Qed.




(** ** The choice of the flow *)

Lemma decideEndpoint_world (E : Env) (c : FlagContext) (w : World) :
  exists e k,
    snd (Login.decideEndpoint E c w) = advance [e] k w /\
    is_Authenticate e = false /\ is_GetLoginPrompts e = false /\
    is_repository_call e = false.
Proof.
  unfold Login.decideEndpoint.
  destruct ((if flag_a c =? "" then Config.APIEndpoint (cfg w) else flag_a c) =? "").
  - run_bind. rewrite Ask_eq. cbn beta iota delta [fst snd]. eauto 8.
  - run_bind. rewrite Say_eq. cbn beta iota delta [fst snd]. eauto 8.
Qed.

(** C6 as stated fails: the flags are looked at after the API endpoint was
    targeted, and a failure there is what [Execute] returns. *)
Lemma sso_conflict_reported_after_setAPIEndpoint :
  ~ (forall (E : Env) (fuel : nat) (c : FlagContext) (w : World),
       flag_sso c = true -> IsSet_sso_passcode c = true ->
       fst (Login.Execute E fuel c w) =
       Returned (Some (T E "Incorrect usage: --sso-passcode flag cannot be used with --sso" []))).
Proof.
  intros H.
  specialize (H (sampleEnv (Some "Error performing request") None sampleCatalog [])
                0
                (mkFlagContext "https://api.example.com" "" "" "" "" true
                   (Some "123456") false)
                (sampleWorld (sampleStore "" "" false []) [] [])
                eq_refl eq_refl).
  vm_compute in H. discriminate H.
Qed.

Lemma api_setAPIEndpoint_world (E : Env) (endpoint : string) (skipSSL : bool)
    (cmdName : string) (w : World) :
  trace (snd (Login.api_setAPIEndpoint E endpoint skipSSL cmdName w)) =
  trace w ++ [EvSetAPIEndpoint endpoint skipSSL cmdName] /\
  auth_calls (snd (Login.api_setAPIEndpoint E endpoint skipSSL cmdName w)) =
  auth_calls w.
Proof.
  unfold Login.api_setAPIEndpoint.
  now destruct (setAPIEndpoint E endpoint skipSSL cmdName (cfg w)).
Qed.

(** [Execute] when both [--sso] and [--sso-passcode] are given. *)
Lemma Execute_sso_conflict (E : Env) (fuel : nat) (c : FlagContext) (w : World) :
  flag_sso c = true ->
  IsSet_sso_passcode c = true ->
  let es := Login.decideEndpoint E c (snd (Login.config_ClearSession E w)) in
  let a := Login.api_setAPIEndpoint E (fst (fst es)) (snd (fst es)) "login"
             (snd es) in
  let usage :=
    T E "Incorrect usage: --sso-passcode flag cannot be used with --sso" [] in
  Login.Execute E fuel c w =
  match fst a with
  | Some e => (Returned (Some e), snd a)
  | None =>
      match MinimumCCAPIVersionCheck E (Config.APIVersion (cfg (snd a)))
              (MinSupportedV2ClientVersion E) with
      | VersionCheckError msg => (Returned (Some msg), snd a)
      | MinimumCFAPIVersionNotMetError =>
          (Returned (Some usage),
           advance
             [EvWarn "Your API version is no longer supported. Upgrade to a newer version of the API.";
              EvSay "" []; EvShowConfiguration] 0 (snd a))
      | VersionOk =>
          (Returned (Some usage),
           advance [EvSay "" []; EvShowConfiguration] 0 (snd a))
      end
  end.
Proof.
  intros Hsso Hset es a usage. unfold Login.Execute.
  run_bind. run_bind. fold es. run_bind. fold a.
  destruct (fst a) as [e|]; [reflexivity|].
  run_bind. unfold Login.command_MinimumCCAPIVersionCheck.
  cbn beta iota delta [fst snd].
  destruct (MinimumCCAPIVersionCheck E (Config.APIVersion (cfg (snd a)))
              (MinSupportedV2ClientVersion E)) as [| |msg]; [| |reflexivity].
  - run_bind. run_bind. run_bind.
    unfold Login.Execute_switch. rewrite Hsso, Hset.
    cbn beta iota delta [fst snd andb ret].
    run_bind. unfold Login.Execute_deferred. run_bind. rewrite Say_eq.
    run_bind. unfold ui_ShowConfiguration. cbn beta iota delta [fst snd ret].
    rewrite log_advance, advance_advance. reflexivity.
  - run_bind. unfold Warn. cbn beta iota delta [fst snd]. rewrite log_advance.
    run_bind. run_bind.
    unfold Login.Execute_switch. rewrite Hsso, Hset.
    cbn beta iota delta [fst snd andb ret].
    run_bind. unfold Login.Execute_deferred. run_bind. rewrite Say_eq.
    run_bind. unfold ui_ShowConfiguration. cbn beta iota delta [fst snd ret].
    rewrite log_advance, !advance_advance. reflexivity.
Qed.

(** C6, amended: with both [--sso] and [--sso-passcode], [Execute] fails
    without fetching the prompts, without calling [Authenticate] and
    without any call of the repositories; the error is the usage error
    about the two flags whenever targeting the API endpoint and the check
    of the API version did not fail before. *)
Theorem sso_with_passcode_rejected (E : Env) (fuel : nat) (c : FlagContext)
    (w : World) :
  flag_sso c = true ->
  IsSet_sso_passcode c = true ->
  (exists e, fst (Login.Execute E fuel c w) = Returned (Some e)) /\
  count_events is_GetLoginPrompts (trace (snd (Login.Execute E fuel c w))) =
  count_events is_GetLoginPrompts (trace w) /\
  authenticate_calls (snd (Login.Execute E fuel c w)) = authenticate_calls w /\
  auth_calls (snd (Login.Execute E fuel c w)) = auth_calls w /\
  count_events is_repository_call (trace (snd (Login.Execute E fuel c w))) =
  count_events is_repository_call (trace w) /\
  (let es := Login.decideEndpoint E c (snd (Login.config_ClearSession E w)) in
   let a := Login.api_setAPIEndpoint E (fst (fst es)) (snd (fst es)) "login"
              (snd es) in
   fst a = None ->
   (forall msg,
      MinimumCCAPIVersionCheck E (Config.APIVersion (cfg (snd a)))
        (MinSupportedV2ClientVersion E) <> VersionCheckError msg) ->
   fst (Login.Execute E fuel c w) =
   Returned (Some (T E "Incorrect usage: --sso-passcode flag cannot be used with --sso" []))).
Proof.
  intros Hsso Hset.
  pose proof (Execute_sso_conflict E fuel c w Hsso Hset) as Heq.
  cbv zeta in Heq. cbv zeta.
  assert (H1 : trace (snd (Login.config_ClearSession E w)) =
               trace w ++ [EvClearSession] /\
               auth_calls (snd (Login.config_ClearSession E w)) = auth_calls w)
    by (split; reflexivity).
  destruct H1 as [Ht1 Hc1].
  set (w1 := snd (Login.config_ClearSession E w)) in *. clearbody w1.
  destruct (decideEndpoint_world E c w1) as (e & k & Hw & He1 & He2 & He3).
  set (es := Login.decideEndpoint E c w1) in *. clearbody es.
  destruct (api_setAPIEndpoint_world E (fst (fst es)) (snd (fst es)) "login" (snd es))
    as (Ht & Hc).
  set (a := Login.api_setAPIEndpoint E (fst (fst es)) (snd (fst es)) "login" (snd es)) in *.
  clearbody a.
  rewrite Hw in Ht, Hc. simpl in Ht, Hc. rewrite Ht1 in Ht. rewrite Hc1 in Hc.
  rewrite Heq. unfold authenticate_calls.
  destruct (fst a) as [err|].
  - cbn beta iota delta [fst snd]. rewrite Ht, Hc, !count_events_app. simpl.
    rewrite He1, He2, He3.
    repeat split; eauto; try lia. intros Hx. discriminate Hx.
  - destruct (MinimumCCAPIVersionCheck E _ _) as [| |msg];
      cbn beta iota delta [fst snd]; simpl; rewrite ?Ht, ?Hc, ?count_events_app;
      simpl; rewrite ?count_events_app; simpl; rewrite ?He1, ?He2, ?He3;
      repeat split; eauto; try lia.
    intros _ Hno. exfalso. now apply (Hno msg).
Qed.

(** Both flags, a reachable API: the usage error. *)
Lemma sso_with_passcode_rejected_witness :
  fst (Login.Execute (sampleEnv None None sampleCatalog []) 0
         (mkFlagContext "https://api.example.com" "" "" "" "" true
            (Some "123456") false)
         (sampleWorld (sampleStore "" "" false []) [] [])) =
  Returned (Some "Incorrect usage: --sso-passcode flag cannot be used with --sso").
Proof.
  destruct (sso_with_passcode_rejected (sampleEnv None None sampleCatalog []) 0
              (mkFlagContext "https://api.example.com" "" "" "" "" true
                 (Some "123456") false)
              (sampleWorld (sampleStore "" "" false []) [] [])
              eq_refl eq_refl) as (_ & _ & _ & _ & _ & H).
  apply H; [reflexivity | intros msg; discriminate].
Defined.

(** ** The menu of [promptForName] *)

Lemma promptForName_list_eq (names : list string) (i : nat) (w : World) :
  Login.promptForName_list names i w = (tt, advance (numbered_lines i names) 0 w).
Proof.
  revert i w. induction names as [|name rest IH]; intros i w.
  - simpl. unfold ret. now rewrite advance_nil.
  - simpl. run_bind. rewrite Say_eq. cbn beta iota delta [fst snd].
    rewrite IH, advance_advance. unfold numbered_lines. simpl.
    rewrite Nat.add_0_r. do 3 f_equal.
    apply imap_ext. intros j x _. simpl. do 3 f_equal. lia.
Qed.

(** One turn of the loop, entered with an index outside the list. *)
Lemma promptForName_loop_turn (E : Env) (fuel : nat) (names : list string)
    (listPrompt itemPrompt : string) (nameIndex : Z) (w : World) :
  (nameIndex < 1 \/ Z.of_nat (length names) < nameIndex)%Z ->
  Login.promptForName_loop E (S fuel) names listPrompt itemPrompt nameIndex w =
  let w' := advance (menu_events E names listPrompt itemPrompt) 1 w in
  if ui_in w (ui_pos w) =? ""
  then (Returned "", w')
  else match Atoi (ui_in w (ui_pos w)) with
       | None => (Returned (ui_in w (ui_pos w)), w')
       | Some n => Login.promptForName_loop E fuel names listPrompt itemPrompt n w'
       end.
Proof.
  intros Hout. cbv zeta. cbn [Login.promptForName_loop].
  assert (Hc : ((nameIndex <? 1) || (Z.of_nat (length names) <? nameIndex))%Z = true).
  { apply orb_true_iff. destruct Hout; [left|right]; now apply Z.ltb_lt. }
  rewrite Hc. run_bind. rewrite Say_eq. run_bind.
  assert (Hl : (if (length names <? maxChoices)%nat
                then Login.promptForName_list names 0
                else Say (T E "There are too many options to display, please type in the name." []) [])
                 (advance [EvSay listPrompt []] 0 w) =
               (tt, advance
                      ([EvSay listPrompt []] ++
                       (if (length names <? maxChoices)%nat
                        then numbered_lines 0 names
                        else [EvSay (T E "There are too many options to display, please type in the name." []) []]))
                      0 w)).
  { destruct (length names <? maxChoices)%nat.
    - now rewrite promptForName_list_eq, advance_advance.
    - now rewrite Say_eq, advance_advance. }
  rewrite Hl. cbn beta iota delta [fst snd]. run_bind. rewrite Ask_eq.
  cbn beta iota delta [fst snd]. rewrite advance_advance.
  unfold menu_events. rewrite <- app_assoc.
  rewrite ui_in_advance, ui_pos_advance, Nat.add_0_r.
  destruct (ui_in w (ui_pos w) =? ""); [reflexivity|].
  now destruct (Atoi (ui_in w (ui_pos w))).
Qed.

(** With an index inside the list the loop is left at once. *)
Lemma promptForName_loop_done (E : Env) (fuel : nat) (names : list string)
    (listPrompt itemPrompt : string) (nameIndex : Z) (w : World) :
  (1 <= nameIndex <= Z.of_nat (length names))%Z ->
  Login.promptForName_loop E fuel names listPrompt itemPrompt nameIndex w =
  (Returned (nth (Z.to_nat (nameIndex - 1)) names ""), w).
Proof.
  intros [H1 H2].
  assert (Hc : ((nameIndex <? 1) || (Z.of_nat (length names) <? nameIndex))%Z = false).
  { apply orb_false_iff. split; apply Z.ltb_ge; lia. }
  destruct fuel; cbn [Login.promptForName_loop]; now rewrite Hc.
Qed.

Lemma Atoi_empty : Atoi "" = None.
Proof. reflexivity. Qed.

(** The loop after [m] answers that make it ask again. *)
Lemma promptForName_loop_answers (E : Env) (names : list string)
    (listPrompt itemPrompt : string) (m : nat) :
  forall (w : World) (fuel : nat) (nameIndex : Z),
    (nameIndex < 1 \/ Z.of_nat (length names) < nameIndex)%Z ->
    (forall j, j < m -> asks_again names (ui_in w (ui_pos w + j))) ->
    m < fuel ->
    Login.promptForName_loop E fuel names listPrompt itemPrompt nameIndex w =
    let w' := advance
                (concat (repeat (menu_events E names listPrompt itemPrompt) (S m)))
                (S m) w in
    if ui_in w (ui_pos w + m) =? ""
    then (Returned "", w')
    else match Atoi (ui_in w (ui_pos w + m)) with
         | None => (Returned (ui_in w (ui_pos w + m)), w')
         | Some n =>
             if ((1 <=? n) && (n <=? Z.of_nat (length names)))%Z
             then (Returned (nth (Z.to_nat (n - 1)) names ""), w')
             else Login.promptForName_loop E (fuel - S m) names listPrompt
                    itemPrompt n w'
         end.
Proof.
  induction m as [|m IH]; intros w fuel nameIndex Hout Hagain Hfuel.
  - destruct fuel as [|fuel]; [lia|].
    rewrite promptForName_loop_turn by assumption. cbv zeta.
    rewrite Nat.add_0_r. simpl concat. rewrite app_nil_r.
    replace (S fuel - 1) with fuel by lia.
    destruct (ui_in w (ui_pos w) =? ""); [reflexivity|].
    destruct (Atoi (ui_in w (ui_pos w))) as [n|]; [|reflexivity].
    destruct ((1 <=? n) && (n <=? Z.of_nat (length names)))%Z eqn:Hn;
      [|reflexivity].
    apply andb_true_iff in Hn. destruct Hn as [H1 H2].
    apply Z.leb_le in H1, H2.
    now rewrite promptForName_loop_done by lia.
  - destruct fuel as [|fuel]; [lia|].
    rewrite promptForName_loop_turn by assumption. cbv zeta.
    destruct (Hagain 0 ltac:(lia)) as (Hne & n & Hn & Hrange).
    rewrite Nat.add_0_r in Hne, Hn.
    apply String.eqb_neq in Hne. rewrite Hne, Hn.
    rewrite (IH (advance (menu_events E names listPrompt itemPrompt) 1 w) fuel n
               Hrange).
    + cbv zeta. rewrite !advance_advance, ui_in_advance, ui_pos_advance.
      replace (ui_pos w + 1 + m) with (ui_pos w + S m) by lia.
      replace (1 + S m) with (S (S m)) by lia.
      replace (S fuel - S (S m)) with (fuel - S m) by lia.
      reflexivity.
    + intros j Hj. rewrite ui_in_advance, ui_pos_advance.
      replace (ui_pos w + 1 + j) with (ui_pos w + S j) by lia.
      apply Hagain. lia.
    + lia.
Qed.

(** [setOrganization] when no org is named and more than one is listed:
    after the list call, the answer at the menu decides. *)
Lemma setOrganization_menu (E : Env) (fuel : nat) (c : FlagContext) (w : World)
    (orgs : list models.Organization) :
  flag_o c = "" ->
  ListOrgs E maxChoices (cfg w) = (orgs, None) ->
  2 <= length orgs ->
  Login.setOrganization E fuel c w =
  let r := Login.promptForName E fuel (map models.Organization_Name orgs)
             (T E "Select an org (or press enter to skip):" []) "Org"
             (log (EvListOrgs maxChoices) w) in
  match fst r with
  | Diverging => (Diverging, snd r)
  | Returned orgName =>
      if orgName =? ""
      then (Returned (false, None), advance [EvSay "" []] 0 (snd r))
      else Login.setOrganization_find E orgName (snd r)
  end.
Proof.
  intros Ho Hl Hn. unfold Login.setOrganization. rewrite Ho.
  change ("" =? "") with true. cbv iota.
  run_bind. unfold orgRepo_ListOrgs. rewrite Hl. cbn beta iota delta [fst snd].
  destruct orgs as [|o1 [|o2 rest]]; [simpl in Hn; lia | simpl in Hn; lia|].
  run_bind. unfold Login.promptForOrgName. cbv zeta.
  destruct (fst (Login.promptForName E fuel _ _ "Org" _)) as [orgName|];
    [|reflexivity].
  destruct (orgName =? ""); [|reflexivity].
  run_bind. now rewrite Say_eq.
Qed.

(** C8: after any number of answers that are numbers outside
    [1 .. length names], each of which shows the menu and asks again, the
    selector returns on the next answer: the listed name at that index for
    a number inside the range, the answer itself for a non-empty answer
    that is not a number (no membership check), and the empty string for an
    empty answer.  In [setOrganization] the empty answer ends the targeting
    with no organization and no error, and the answer that is not a number
    is looked up by name as it is. *)
Theorem promptForName_asks_until_final_answer (E : Env) (names : list string)
    (listPrompt itemPrompt : string) (m fuel : nat) (w : World) :
  (forall j, j < m -> asks_again names (ui_in w (ui_pos w + j))) ->
  m < fuel ->
  let answer := ui_in w (ui_pos w + m) in
  let shown := concat (repeat (menu_events E names listPrompt itemPrompt) (S m)) in
  (forall n, Atoi answer = Some n -> (1 <= n <= Z.of_nat (length names))%Z ->
     Login.promptForName E fuel names listPrompt itemPrompt w =
     (Returned (nth (Z.to_nat (n - 1)) names ""), advance shown (S m) w)) /\
  (answer <> "" -> Atoi answer = None ->
     Login.promptForName E fuel names listPrompt itemPrompt w =
     (Returned answer, advance shown (S m) w)) /\
  (answer = "" ->
     Login.promptForName E fuel names listPrompt itemPrompt w =
     (Returned "", advance shown (S m) w)) /\
  (forall (c : FlagContext) (orgs : list models.Organization),
     names = map models.Organization_Name orgs ->
     flag_o c = "" ->
     ListOrgs E maxChoices (cfg w) = (orgs, None) ->
     2 <= length orgs ->
     (answer = "" ->
      fst (Login.setOrganization E fuel c w) = Returned (false, None) /\
      cfg (snd (Login.setOrganization E fuel c w)) = cfg w) /\
     (answer <> "" -> Atoi answer = None ->
      Login.setOrganization E fuel c w =
      Login.setOrganization_find E answer
        (advance
           (concat (repeat (menu_events E names
                              (T E "Select an org (or press enter to skip):" [])
                              "Org") (S m)))
           (S m) (log (EvListOrgs maxChoices) w)))).
Proof.
  intros Hagain Hfuel answer shown.
  assert (Hloop : forall lp ip w1,
            ui_in w1 = ui_in w -> ui_pos w1 = ui_pos w ->
            Login.promptForName E fuel names lp ip w1 =
            let w' := advance (concat (repeat (menu_events E names lp ip) (S m)))
                        (S m) w1 in
            if answer =? ""
            then (Returned "", w')
            else match Atoi answer with
                 | None => (Returned answer, w')
                 | Some n =>
                     if ((1 <=? n) && (n <=? Z.of_nat (length names)))%Z
                     then (Returned (nth (Z.to_nat (n - 1)) names ""), w')
                     else Login.promptForName_loop E (fuel - S m) names lp ip n w'
                 end).
  { intros lp ip w1 Hin Hpos. unfold Login.promptForName.
    rewrite (promptForName_loop_answers E names lp ip m w1 fuel 0%Z).
    - cbv zeta. rewrite Hin, Hpos. reflexivity.
    - left. lia.
    - intros j Hj. rewrite Hin, Hpos. now apply Hagain.
    - assumption. }
  split; [|split; [|split]].
  - intros n Hn Hrange. rewrite (Hloop listPrompt itemPrompt w eq_refl eq_refl).
    cbv zeta. rewrite Hn.
    destruct (String.eqb_spec answer "") as [He|_].
    + rewrite He, Atoi_empty in Hn. discriminate Hn.
    + assert (Hb : ((1 <=? n) && (n <=? Z.of_nat (length names)))%Z = true).
      { apply andb_true_iff. split; apply Z.leb_le; lia. }
      now rewrite Hb.
  - intros Hne Hn. rewrite (Hloop listPrompt itemPrompt w eq_refl eq_refl).
    cbv zeta. apply String.eqb_neq in Hne. now rewrite Hne, Hn.
  - intros He. rewrite (Hloop listPrompt itemPrompt w eq_refl eq_refl).
    cbv zeta. now rewrite He.
  - intros c orgs Hnames Ho Hl Hlen.
    pose proof (setOrganization_menu E fuel c w orgs Ho Hl Hlen) as Heq.
    cbv zeta in Heq. rewrite <- Hnames in Heq.
    rewrite (Hloop _ "Org" (log (EvListOrgs maxChoices) w) eq_refl eq_refl) in Heq.
    cbv zeta in Heq. split.
    + intros He. rewrite He in Heq. simpl in Heq. now rewrite Heq.
    + intros Hne Hn. apply String.eqb_neq in Hne. rewrite Hne, Hn in Heq.
      cbn beta iota delta [fst snd] in Heq. now rewrite Hne in Heq.
Qed.

(** Only the first two answers, [7] and [0], make the menu of two names
    come back; the third, [2], selects the second name. *)
Lemma promptForName_asks_until_final_answer_witness :
  fst (Login.promptForName (sampleEnv None None sampleCatalog []) 5
         ["org1"; "org2"] "Select an org (or press enter to skip):" "Org"
         (sampleWorld (sampleStore "https://api.example.com"
                         "https://login.example.com" false [])
            ["7"; "0"; "2"] [])) = Returned "org2".
Proof.
  destruct (promptForName_asks_until_final_answer
              (sampleEnv None None sampleCatalog []) ["org1"; "org2"]
              "Select an org (or press enter to skip):" "Org" 2 5
              (sampleWorld (sampleStore "https://api.example.com"
                              "https://login.example.com" false [])
                 ["7"; "0"; "2"] [])) as (Hindex & _).
  - intros j Hj. destruct j as [|[|j]]; [| |lia].
    + split; [discriminate|]. exists 7%Z. split; [reflexivity|]. right. reflexivity.
    + split; [discriminate|]. exists 0%Z. split; [reflexivity|]. left. reflexivity.
  - lia.
  - rewrite (Hindex 2%Z); [reflexivity | reflexivity | split; discriminate].
Defined.

(** ** The organization stage *)

Lemma numbered_lines_count (i : nat) (names : list string) :
  count_events is_numbered_line (numbered_lines i names) = length names.
Proof.
  revert i. induction names as [|name rest IH]; intros i; [reflexivity|].
  unfold numbered_lines in *. simpl. f_equal.
  rewrite <- (IH (S i)). f_equal. apply imap_ext. intros j x _. simpl.
  do 3 f_equal. lia.
Qed.

(** With [maxChoices] names or more, a turn of the menu shows no numbered
    line. *)
Lemma menu_events_too_many (E : Env) (names : list string)
    (listPrompt itemPrompt : string) :
  maxChoices <= length names ->
  count_events is_numbered_line (menu_events E names listPrompt itemPrompt) = 0.
Proof.
  intros Hn. unfold menu_events. apply Nat.ltb_ge in Hn. now rewrite Hn.
Qed.

Lemma promptForName_loop_too_many (E : Env) (names : list string)
    (listPrompt itemPrompt : string) (fuel : nat) :
  maxChoices <= length names ->
  forall (nameIndex : Z) (w : World),
    count_events is_numbered_line
      (trace (snd (Login.promptForName_loop E fuel names listPrompt itemPrompt
                     nameIndex w))) =
    count_events is_numbered_line (trace w).
Proof.
  intros Hn. induction fuel as [|fuel IH]; intros nameIndex w.
  - simpl. now destruct (_ || _).
  - destruct (Z.ltb_spec nameIndex 1) as [H1|H1];
      [|destruct (Z.ltb_spec (Z.of_nat (length names)) nameIndex) as [H2|H2]].
    + rewrite promptForName_loop_turn by (now left). cbv zeta.
      destruct (_ =? ""); [|destruct (Atoi _); [rewrite IH|]];
        simpl; rewrite count_events_app, menu_events_too_many by assumption; lia.
    + rewrite promptForName_loop_turn by (now right). cbv zeta.
      destruct (_ =? ""); [|destruct (Atoi _); [rewrite IH|]];
        simpl; rewrite count_events_app, menu_events_too_many by assumption; lia.
    + now rewrite promptForName_loop_done by lia.
Qed.

(** The loop only adds to the trace. *)
Lemma promptForName_loop_extends (E : Env) (names : list string)
    (listPrompt itemPrompt : string) (fuel : nat) :
  forall (nameIndex : Z) (w : World),
    exists rest,
      trace (snd (Login.promptForName_loop E fuel names listPrompt itemPrompt
                    nameIndex w)) = trace w ++ rest.
Proof.
  induction fuel as [|fuel IH]; intros nameIndex w.
  - exists []. simpl. destruct (_ || _); simpl; now rewrite app_nil_r.
  - destruct (Z.ltb_spec nameIndex 1) as [H1|H1];
      [|destruct (Z.ltb_spec (Z.of_nat (length names)) nameIndex) as [H2|H2]].
    + rewrite promptForName_loop_turn by (now left). cbv zeta.
      destruct (_ =? ""); [eauto|]. destruct (Atoi _) as [n|]; [|eauto].
      destruct (IH n (advance (menu_events E names listPrompt itemPrompt) 1 w))
        as [rest Hr].
      rewrite Hr. simpl. rewrite <- app_assoc. eauto.
    + rewrite promptForName_loop_turn by (now right). cbv zeta.
      destruct (_ =? ""); [eauto|]. destruct (Atoi _) as [n|]; [|eauto].
      destruct (IH n (advance (menu_events E names listPrompt itemPrompt) 1 w))
        as [rest Hr].
      rewrite Hr. simpl. rewrite <- app_assoc. eauto.
    + rewrite promptForName_loop_done by lia. exists []. simpl.
      now rewrite app_nil_r.
Qed.

(** The first turn of the menu is always shown. *)
Lemma promptForName_first_turn (E : Env) (names : list string)
    (listPrompt itemPrompt : string) (fuel : nat) (w : World) :
  exists rest,
    trace (snd (Login.promptForName E (S fuel) names listPrompt itemPrompt w)) =
    trace w ++ menu_events E names listPrompt itemPrompt ++ rest.
Proof.
  unfold Login.promptForName.
  rewrite promptForName_loop_turn by (left; lia). cbv zeta.
  destruct (_ =? ""); [exists []; simpl; now rewrite app_nil_r|].
  destruct (Atoi _) as [n|]; [|exists []; simpl; now rewrite app_nil_r].
  destruct (promptForName_loop_extends E names listPrompt itemPrompt fuel n
              (advance (menu_events E names listPrompt itemPrompt) 1 w))
    as [rest Hr].
  rewrite Hr. simpl. rewrite <- app_assoc. eauto.
Qed.

Lemma setOrganization_find_trace (E : Env) (orgName : string) (w : World) :
  exists rest,
    trace (snd (Login.setOrganization_find E orgName w)) = trace w ++ rest /\
    count_events is_numbered_line rest = 0.
Proof.
  unfold Login.setOrganization_find. run_bind. unfold orgRepo_FindByName.
  cbn beta iota delta [fst snd].
  destruct (snd (FindOrgByName E orgName (cfg w))).
  - exists [EvFindOrgByName orgName]. now split.
  - run_bind. unfold Login.targetOrganization. rewrite Say_eq.
    cbn beta iota delta [fst snd ret]. simpl. rewrite <- app_assoc.
    eexists. split; [reflexivity|]. reflexivity.
Qed.

(** C7: with no org named on the command line and [N] organizations
    listed: for [N = 0] nothing is targeted, no error is returned, nothing
    is asked, and [Execute] goes on to the session list without the space
    stage; for [N = 1] the organization is targeted without a question;
    for [2 <= N < 50] the header, the lines numbered from 1 and the
    question are shown; for [N >= 50] the header, the instruction to type
    the name and the question are shown, and no numbered line at all. *)
Theorem setOrganization_by_count (E : Env) (fuel : nat) (c : FlagContext)
    (w : World) (orgs : list models.Organization) :
  flag_o c = "" ->
  ListOrgs E maxChoices (cfg w) = (orgs, None) ->
  let names := map models.Organization_Name orgs in
  let listPrompt := T E "Select an org (or press enter to skip):" [] in
  (orgs = [] ->
   Login.setOrganization E fuel c w =
   (Returned (false, None), log (EvListOrgs maxChoices) w) /\
   Login.Execute_target E fuel c w =
   (Returned None,
    set_cfg Login.updateMultiInstances_cfg
      (log EvNotifyUpdateIfNeeded (log (EvListOrgs maxChoices) w)))) /\
  (forall org, orgs = [org] ->
   Login.setOrganization E fuel c w =
   (Returned (true, None),
    log (EvSay (T E ("Targeted org {{.OrgName}}" +:+ Login.LF)
                  [("OrgName", EntityNameColor E (models.Organization_Name org))]) [])
      (set_cfg (Config.SetOrganizationFields (models.Organization_Fields org))
         (log (EvListOrgs maxChoices) w)))) /\
  (2 <= length orgs < maxChoices ->
   exists rest,
     trace (snd (Login.setOrganization E (S fuel) c w)) =
     trace w ++ [EvListOrgs maxChoices] ++ [EvSay listPrompt []] ++
     numbered_lines 0 names ++ [EvAsk "Org"] ++ rest) /\
  (maxChoices <= length orgs ->
   (exists rest,
      trace (snd (Login.setOrganization E (S fuel) c w)) =
      trace w ++ [EvListOrgs maxChoices] ++ [EvSay listPrompt []] ++
      [EvSay (T E "There are too many options to display, please type in the name." []) []] ++
      [EvAsk "Org"] ++ rest) /\
   count_events is_numbered_line (trace (snd (Login.setOrganization E fuel c w))) =
   count_events is_numbered_line (trace w)).
Proof.
  intros Ho Hl names listPrompt.
  assert (Hmenu : 2 <= length orgs ->
            exists rest,
              trace (snd (Login.setOrganization E (S fuel) c w)) =
              trace w ++ [EvListOrgs maxChoices] ++
              menu_events E names listPrompt "Org" ++ rest).
  { intros Hn. pose proof (setOrganization_menu E (S fuel) c w orgs Ho Hl Hn) as Heq.
    cbv zeta in Heq. rewrite Heq.
    destruct (promptForName_first_turn E names listPrompt "Org" fuel
                (log (EvListOrgs maxChoices) w)) as [rest Hr].
    fold names listPrompt.
    destruct (fst (Login.promptForName E (S fuel) names listPrompt "Org" _))
      as [orgName|]; cbn beta iota delta [fst snd].
    - destruct (orgName =? ""); cbn beta iota delta [fst snd].
      + exists (rest ++ [EvSay "" []]).
        rewrite trace_advance, Hr, trace_log. now rewrite <- !app_assoc.
      + destruct (setOrganization_find_trace E orgName
                    (snd (Login.promptForName E (S fuel) names listPrompt "Org"
                            (log (EvListOrgs maxChoices) w)))) as (rest' & Hr' & _).
        exists (rest ++ rest'). rewrite Hr', Hr, trace_log.
        now rewrite <- !app_assoc.
    - exists rest. rewrite Hr, trace_log. now rewrite <- !app_assoc. }
  assert (Hlen : length names = length orgs) by apply length_map.
  split; [|split; [|split]].
  - intros ->.
    assert (Hs : Login.setOrganization E fuel c w =
                 (Returned (false, None), log (EvListOrgs maxChoices) w)).
    { unfold Login.setOrganization. rewrite Ho.
      change ("" =? "") with true. cbv iota.
      run_bind. unfold orgRepo_ListOrgs. now rewrite Hl. }
    split; [exact Hs|].
    unfold Login.Execute_target. run_bind. rewrite Hs.
    cbn beta iota delta [fst snd]. run_bind. unfold ret at 1.
    cbn beta iota delta [fst snd]. run_bind. run_bind. reflexivity.
  - intros org ->.
    unfold Login.setOrganization. rewrite Ho.
    change ("" =? "") with true. cbv iota.
    run_bind. unfold orgRepo_ListOrgs. rewrite Hl. cbn beta iota delta [fst snd].
    run_bind. reflexivity.
  - intros [H2 H50]. destruct (Hmenu H2) as [rest Hr]. exists rest.
    rewrite Hr. unfold menu_events. rewrite Hlen.
    apply Nat.ltb_lt in H50. rewrite H50. now rewrite <- !app_assoc.
  - intros H50. split.
    + destruct Hmenu as [rest Hr]; [unfold maxChoices in H50; lia|]. exists rest.
      rewrite Hr. unfold menu_events. rewrite Hlen.
      apply Nat.ltb_ge in H50. rewrite H50. now rewrite <- !app_assoc.
    + pose proof (setOrganization_menu E fuel c w orgs Ho Hl
                    ltac:(unfold maxChoices in H50; lia)) as Heq.
      cbv zeta in Heq. rewrite Heq. fold names listPrompt.
      assert (Hq : count_events is_numbered_line
                     (trace (snd (Login.promptForName E fuel names listPrompt "Org"
                                    (log (EvListOrgs maxChoices) w)))) =
                   count_events is_numbered_line (trace w)).
      { unfold Login.promptForName.
        rewrite promptForName_loop_too_many by (rewrite Hlen; lia).
        rewrite trace_log, count_events_app. simpl. lia. }
      destruct (fst (Login.promptForName E fuel names listPrompt "Org" _))
        as [orgName|]; cbn beta iota delta [fst snd]; [|exact Hq].
      destruct (orgName =? ""); cbn beta iota delta [fst snd].
      * rewrite trace_advance, count_events_app, Hq. simpl. lia.
      * destruct (setOrganization_find_trace E orgName
                    (snd (Login.promptForName E fuel names listPrompt "Org"
                            (log (EvListOrgs maxChoices) w)))) as (rest' & Hr' & Hc').
        rewrite Hr', count_events_app, Hq, Hc'. lia.
Qed.

(** No organization: nothing asked, nothing targeted, no space stage. *)
Lemma setOrganization_by_count_witness :
  Login.Execute_target (sampleEnv None None sampleCatalog []) 0 noFlags
    (sampleWorld (sampleStore "https://api.example.com"
                    "https://login.example.com" false []) [] []) =
  (Returned None,
   set_cfg Login.updateMultiInstances_cfg
     (log EvNotifyUpdateIfNeeded
        (log (EvListOrgs maxChoices)
           (sampleWorld (sampleStore "https://api.example.com"
                           "https://login.example.com" false []) [] [])))).
Proof.
  destruct (setOrganization_by_count (sampleEnv None None sampleCatalog []) 0
              noFlags
              (sampleWorld (sampleStore "https://api.example.com"
                              "https://login.example.com" false []) [] [])
              [] eq_refl eq_refl) as (Hnone & _).
  now destruct (Hnone eq_refl).
Defined.

(** The lines of a menu of two names. *)
Example numbered_lines_from_one :
  numbered_lines 0 ["org1"; "org2"] =
  [EvSay "%d. %s" [ArgInt 1; ArgStr "org1"];
   EvSay "%d. %s" [ArgInt 2; ArgStr "org2"]].
Proof. reflexivity. Qed.

(** ** Whole runs *)

(** The password flow with [-p s3cret], a first attempt that is rejected
    and a second that is accepted: the flag value is sent once, the typed
    password afterwards. *)
Example authenticate_sends_flag_then_typed_password :
  map (fun credentials : gmap string string => credentials !! "password")
      (sent_credentials
         (trace (snd (Login.authenticate (sampleEnv None None sampleCatalog [])
                        (mkFlagContext "" "" "s3cret" "" "" false None false)
                        (sampleWorld (sampleStore "https://api.example.com"
                                        "https://login.example.com" false [])
                           ["alice"; "000000"; "typed"; "111111"]
                           [Some "Credentials were rejected"; None]))))) =
  [Some "s3cret"; Some "typed"].
Proof. vm_compute. reflexivity. Qed.

(** The SSO flow with [--sso-passcode 123456] accepted at once: one call,
    the passcode as given, no question. *)
Example authenticateSSO_sends_passcode :
  let w := sampleWorld (sampleStore "https://api.example.com"
                          "https://login.example.com" false []) [] [None] in
  let r := Login.authenticateSSO (sampleEnv None None sampleCatalog [])
             (mkFlagContext "" "" "" "" "" false (Some "123456") false) w in
  fst r = None /\
  map (fun credentials : gmap string string => credentials !! "passcode")
      (sent_credentials (trace (snd r))) = [Some "123456"] /\
  count_events is_prompt (trace (snd r)) = 0.
Proof. vm_compute. repeat split; reflexivity. Qed.

(** Three rejected attempts: three calls and the generic error. *)
Example authenticate_gives_up_after_three :
  let w := sampleWorld (sampleStore "https://api.example.com"
                          "https://login.example.com" false [])
             ["alice"; "a"; "1"; "b"; "2"; "c"; "3"; "d"; "4"]
             [Some "no"; Some "no"; Some "locked"; None] in
  let r := Login.authenticate (sampleEnv None None sampleCatalog []) noFlags w in
  fst r = Some "Unable to authenticate." /\ authenticate_calls (snd r) = 3.
Proof. vm_compute. split; reflexivity. Qed.

(** A login to [https://api.example.com] with nothing persisted, one
    organization with one space, and an authenticator that rejects the
    first attempt: both are targeted, the session list holds the one
    session, and [Authenticate] was called twice. *)
Example login_scenario :
  let w := sampleWorld (sampleStore "" "" false [])
             ["alice"; "wrong"; "000000"; "right"; "111111"]
             [Some "Credentials were rejected"; None] in
  let r := Login.Execute scenarioEnv 1
             (mkFlagContext "https://api.example.com" "" "" "" "" false None false)
             w in
  fst r = Returned None /\
  authenticate_calls (snd r) = 2 /\
  models.org_Name (Config.OrganizationFields (cfg (snd r))) = "org1" /\
  models.space_Name (Config.SpaceFields (cfg (snd r))) = "space1" /\
  Config.InstanceData (cfg (snd r)) = [Login.currentInstance (cfg (snd r))] /\
  count_events is_repository_call (trace (snd r)) = 2.
Proof. vm_compute. repeat split; reflexivity. Qed.

(** The same login done twice: the session list holds two entries for the
    one endpoint. *)
Example login_scenario_twice :
  let flags := mkFlagContext "https://api.example.com" "" "" "" "" false None false in
  let w := sampleWorld (sampleStore "" "" false [])
             ["alice"; "right"; "000000"; "alice"; "right"; "111111"] [None; None] in
  let r1 := Login.Execute scenarioEnv 1 flags w in
  let r2 := Login.Execute scenarioEnv 1 flags (snd r1) in
  fst r1 = Returned None /\ fst r2 = Returned None /\
  map CFInstanceData.AuthorizationEndpoint (Config.InstanceData (cfg (snd r2))) =
  ["https://login.example.com"; "https://login.example.com"].
Proof. vm_compute. repeat split; reflexivity. Qed.

(** * More properties of the two commands *)

(** ** The endpoint resolver *)

(** X1: [decideEndpoint] asks for the endpoint exactly when neither the
    flag nor the store gives one, and then returns the answer as typed;
    otherwise it asks nothing and returns the flag value, or else the
    stored endpoint.  The store is never written, and the endpoint
    returned is empty only when the answer of the user is. *)
Theorem decideEndpoint_asks_only_when_needed (E : Env) (c : FlagContext)
    (w : World) :
  cfg (snd (Login.decideEndpoint E c w)) = cfg w /\
  (flag_a c <> "" ->
   fst (fst (Login.decideEndpoint E c w)) = flag_a c /\
   ui_pos (snd (Login.decideEndpoint E c w)) = ui_pos w) /\
  (flag_a c = "" -> Config.APIEndpoint (cfg w) <> "" ->
   fst (fst (Login.decideEndpoint E c w)) = Config.APIEndpoint (cfg w) /\
   ui_pos (snd (Login.decideEndpoint E c w)) = ui_pos w) /\
  (flag_a c = "" -> Config.APIEndpoint (cfg w) = "" ->
   fst (fst (Login.decideEndpoint E c w)) = ui_in w (ui_pos w) /\
   trace (snd (Login.decideEndpoint E c w)) =
   trace w ++ [EvAsk (T E "API endpoint" [])] /\
   ui_pos (snd (Login.decideEndpoint E c w)) = S (ui_pos w)) /\
  (fst (fst (Login.decideEndpoint E c w)) = "" ->
   flag_a c = "" /\ Config.APIEndpoint (cfg w) = "" /\ ui_in w (ui_pos w) = "").
Proof.
  unfold Login.decideEndpoint.
  destruct (String.eqb_spec (flag_a c) "") as [Ha|Ha].
  - destruct (String.eqb_spec (Config.APIEndpoint (cfg w)) "") as [Hp|Hp];
      unfold bind, Ask, Say, ret; simpl;
      repeat split; try reflexivity; try tauto; try congruence.
  - destruct (String.eqb_spec (flag_a c) "") as [Ha'|_]; [contradiction|].
    unfold bind, Ask, Say, ret; simpl;
      repeat split; try reflexivity; try tauto; try congruence.
Qed.

(** ** The [endpoint] command *)

Lemma Execute_range_first (pre post : list CFInstanceData.t)
    (i : CFInstanceData.t) (pattern : string) (w : World) :
  Forall (fun j => ~ substring_of pattern (CFInstanceData.AuthorizationEndpoint j))
         pre ->
  substring_of pattern (CFInstanceData.AuthorizationEndpoint i) ->
  Endpoint.Execute_range (pre ++ i :: post) pattern w =
  (Some None,
   log (EvSay "Found existed endpoint %s"
          [ArgStr (CFInstanceData.AuthorizationEndpoint i)]) w).
Proof.
  intros Hpre Hi. induction Hpre as [|j pre Hj _ IH]; simpl.
  - apply Contains_true_iff in Hi. now rewrite Hi.
  - destruct (Contains _ _) eqn:Hc; [|exact IH].
    apply Contains_true_iff in Hc. contradiction.
Qed.

(** X2: the session [Execute] reports is the first one, in the order of
    the list, whose authorization endpoint contains the pattern; the
    sessions after it are not looked at. *)
Theorem Endpoint_Execute_reports_first_match (E : Env) (c : FlagContext)
    (w : World) (pre post : list CFInstanceData.t) (i : CFInstanceData.t) :
  Config.InstanceData (cfg w) = pre ++ i :: post ->
  Forall (fun j => ~ substring_of (flag_a c) (CFInstanceData.AuthorizationEndpoint j))
         pre ->
  substring_of (flag_a c) (CFInstanceData.AuthorizationEndpoint i) ->
  Endpoint.Execute E c w =
  (None,
   log (EvSay "Found existed endpoint %s"
          [ArgStr (CFInstanceData.AuthorizationEndpoint i)]) w).
Proof.
  intros Hl Hpre Hi. unfold Endpoint.Execute. run_bind.
  now rewrite Hl, (Execute_range_first pre post i (flag_a c) w Hpre Hi).
Qed.

Lemma Endpoint_Execute_reports_first_match_witness :
  Endpoint.Execute (sampleEnv None None ∅ [])
    (mkFlagContext "eu" "" "" "" "" false None false)
    (sampleWorld
       (sampleStore "https://api.example.com" "https://login.example.com" false
          [sampleInstance "https://login.us.example.com" "t1";
           sampleInstance "https://login.eu.example.com" "t2";
           sampleInstance "https://login.eu2.example.com" "t3"]) [] []) =
  (None,
   log (EvSay "Found existed endpoint %s" [ArgStr "https://login.eu.example.com"])
     (sampleWorld
        (sampleStore "https://api.example.com" "https://login.example.com" false
           [sampleInstance "https://login.us.example.com" "t1";
            sampleInstance "https://login.eu.example.com" "t2";
            sampleInstance "https://login.eu2.example.com" "t3"]) [] [])).
Proof.
  apply (Endpoint_Execute_reports_first_match (sampleEnv None None ∅ [])
           (mkFlagContext "eu" "" "" "" "" false None false) _
           [sampleInstance "https://login.us.example.com" "t1"]
           [sampleInstance "https://login.eu2.example.com" "t3"]
           (sampleInstance "https://login.eu.example.com" "t2")).
  - reflexivity.
  - constructor; [|constructor].
    intros H. apply Contains_true_iff in H. discriminate H.
  - exists "https://login.", ".example.com". reflexivity.
Defined.

(** X3: with the empty pattern and a session list that is not empty,
    [Execute] reports the first stored session and returns nil, whatever
    its endpoint: every string contains the empty one. *)
Theorem Endpoint_Execute_empty_pattern (E : Env) (c : FlagContext) (w : World)
    (i : CFInstanceData.t) (rest : list CFInstanceData.t) :
  flag_a c = "" ->
  Config.InstanceData (cfg w) = i :: rest ->
  Endpoint.Execute E c w =
  (None,
   log (EvSay "Found existed endpoint %s"
          [ArgStr (CFInstanceData.AuthorizationEndpoint i)]) w).
Proof.
  intros Ha Hl. unfold Endpoint.Execute. run_bind. rewrite Hl, Ha.
  change (i :: rest) with ([] ++ i :: rest).
  rewrite (Execute_range_first [] rest i "" w); [reflexivity | constructor |].
  exists "", (CFInstanceData.AuthorizationEndpoint i). reflexivity.
Qed.

Lemma Endpoint_Execute_empty_pattern_witness :
  fst (Endpoint.Execute (sampleEnv None None ∅ []) noFlags
         (sampleWorld
            (sampleStore "https://api.example.com" "https://login.example.com"
               false [sampleInstance "https://login.us.example.com" "t1"])
            [] [])) = None.
Proof.
  now rewrite (Endpoint_Execute_empty_pattern (sampleEnv None None ∅ []) noFlags
                 (sampleWorld
                    (sampleStore "https://api.example.com"
                       "https://login.example.com" false
                       [sampleInstance "https://login.us.example.com" "t1"])
                    [] [])
                 (sampleInstance "https://login.us.example.com" "t1") []
                 eq_refl eq_refl).
Defined.

Lemma Execute_range_world (instances : list CFInstanceData.t) (pattern : string)
    (w : World) :
  exists es, snd (Endpoint.Execute_range instances pattern w) = advance es 0 w.
Proof.
  induction instances as [|i rest IH]; simpl.
  - exists []. now rewrite advance_nil.
  - destruct (Contains _ _); [|exact IH].
    run_bind. rewrite Say_eq. simpl. eauto.
Qed.

(** X4: the [endpoint] command only reports.  Whatever the pattern and the
    stored sessions, [Execute] leaves the store as it was, asks nothing and
    calls neither the authenticator nor a repository; when no session
    matches, the configuration is shown without error and the user is
    logged in, it returns nil. *)
Theorem Endpoint_Execute_only_reports (E : Env) (c : FlagContext) (w : World) :
  cfg (snd (Endpoint.Execute E c w)) = cfg w /\
  ui_pos (snd (Endpoint.Execute E c w)) = ui_pos w /\
  auth_calls (snd (Endpoint.Execute E c w)) = auth_calls w /\
  (Forall (fun i => ~ substring_of (flag_a c)
                       (CFInstanceData.AuthorizationEndpoint i))
          (Config.InstanceData (cfg w)) ->
   ShowConfiguration E (cfg w) = None -> IsLoggedIn E (cfg w) = true ->
   Endpoint.Execute E c w =
   (None, log EvNotifyUpdateIfNeeded (log EvShowConfiguration w))).
Proof.
  assert (Hw : exists es, snd (Endpoint.Execute E c w) = advance es 0 w).
  { unfold Endpoint.Execute. run_bind.
    destruct (Execute_range_world (Config.InstanceData (cfg w)) (flag_a c) w)
      as [es Hes].
    rewrite Hes.
    destruct (fst (Endpoint.Execute_range _ _ w)) as [r|].
    - now exists es.
    - run_bind. unfold ui_ShowConfiguration. cbn beta iota delta [fst snd].
      destruct (ShowConfiguration E _).
      + exists (es ++ [EvShowConfiguration]).
        unfold ret. cbn beta iota delta [fst snd].
        now rewrite log_advance, advance_advance.
      + run_bind. unfold NotifyUpdateIfNeeded. cbn beta iota delta [fst snd].
        exists (es ++ [EvShowConfiguration] ++ [EvNotifyUpdateIfNeeded]).
        destruct (IsLoggedIn E _); cbn beta iota delta [fst snd];
          now rewrite !log_advance, !advance_advance. }
  destruct Hw as [es Hes].
  split; [now rewrite Hes|]. split; [rewrite Hes; simpl; lia|].
  split; [now rewrite Hes|].
  intros Hall Hs Hl.
  unfold Endpoint.Execute. run_bind.
  rewrite (Execute_range_no_match _ _ w Hall). cbn beta iota delta [fst snd].
  run_bind. unfold ui_ShowConfiguration. rewrite Hs.
  cbn beta iota delta [fst snd]. run_bind.
  unfold NotifyUpdateIfNeeded. cbn beta iota delta [fst snd cfg log].
  now rewrite Hl.
Qed.

(** ** Early exits of the two flows *)

Lemma authenticate_early_exits_aux (E : Env) (c : FlagContext) (w : World) :
  (Config.UAAGrantType (cfg w) = "client_credentials" ->
   Login.authenticate E c w =
   (Some (T E "Service account currently logged in. Use 'cf logout' to log out service account and try again." []),
    w)) /\
  (forall e,
     Config.UAAGrantType (cfg w) <> "client_credentials" ->
     snd (snd (GetLoginPromptsAndSaveUAAServerURL E (cfg w))) = Some e ->
     fst (Login.authenticate E c w) = Some e /\
     trace (snd (Login.authenticate E c w)) = trace w ++ [EvGetLoginPrompts] /\
     ui_pos (snd (Login.authenticate E c w)) = ui_pos w /\
     auth_calls (snd (Login.authenticate E c w)) = auth_calls w).
Proof.
  split.
  - intros Hg. unfold Login.authenticate.
    apply String.eqb_eq in Hg. now rewrite Hg.
  - intros e Hg He. unfold Login.authenticate.
    apply String.eqb_neq in Hg. rewrite Hg.
    run_bind. rewrite GetLoginPrompts_result, He.
    unfold authenticator_GetLoginPrompts.
    destruct (GetLoginPromptsAndSaveUAAServerURL E (cfg w)) as [c' r].
    now repeat split.
Qed.

(** X5: the password flow stops before anything is done when a service
    account is logged in (no prompt is fetched, nothing is asked, the
    world is as before), and returns the error of the prompt service as it
    is, after that one call, when the catalog cannot be fetched. *)
Theorem authenticate_early_exits (E : Env) (c : FlagContext) (w : World) :
  (Config.UAAGrantType (cfg w) = "client_credentials" ->
   Login.authenticate E c w =
   (Some (T E "Service account currently logged in. Use 'cf logout' to log out service account and try again." []),
    w)) /\
  (forall e,
     Config.UAAGrantType (cfg w) <> "client_credentials" ->
     snd (snd (GetLoginPromptsAndSaveUAAServerURL E (cfg w))) = Some e ->
     fst (Login.authenticate E c w) = Some e /\
     trace (snd (Login.authenticate E c w)) = trace w ++ [EvGetLoginPrompts] /\
     ui_pos (snd (Login.authenticate E c w)) = ui_pos w /\
     auth_calls (snd (Login.authenticate E c w)) = auth_calls w).
Proof. exact (authenticate_early_exits_aux E c w). Qed.

(** X6: the SSO flow returns the error of the prompt service as it is,
    with no question and no call of [Authenticate]; unlike the password
    flow it does not look at the grant type of the store. *)
Theorem authenticateSSO_fetch_error (E : Env) (c : FlagContext) (w : World)
    (e : string) :
  snd (snd (GetLoginPromptsAndSaveUAAServerURL E (cfg w))) = Some e ->
  fst (Login.authenticateSSO E c w) = Some e /\
  trace (snd (Login.authenticateSSO E c w)) = trace w ++ [EvGetLoginPrompts] /\
  ui_pos (snd (Login.authenticateSSO E c w)) = ui_pos w /\
  auth_calls (snd (Login.authenticateSSO E c w)) = auth_calls w.
Proof.
  intros He. unfold Login.authenticateSSO.
  run_bind. rewrite GetLoginPrompts_result, He.
  unfold authenticator_GetLoginPrompts.
  destruct (GetLoginPromptsAndSaveUAAServerURL E (cfg w)) as [c' r].
  now repeat split.
Qed.

(** ** What the attempts add to the trace *)

Lemma sent_credentials_app (l1 l2 : list Event) :
  sent_credentials (l1 ++ l2) = sent_credentials l1 ++ sent_credentials l2.
Proof.
  induction l1 as [|e l1 IH]; [reflexivity|].
  destruct e; simpl; now rewrite ?IH.
Qed.

(** A property of what a loop adds to the trace, kept by every turn. *)
Lemma for_iter_delta {St : Type} (body : nat -> St -> Cmd (St * bool))
    (bound : nat) (Inv : St -> Prop) (Q : list Event -> Prop) :
  Q [] ->
  (forall a b, Q a -> Q b -> Q (a ++ b)) ->
  (forall i st w, Inv st ->
     Inv (fst (fst (body i st w))) /\
     exists post, trace (snd (body i st w)) = trace w ++ post /\ Q post) ->
  forall n l w, Inv (for_vars l) ->
    Inv (for_vars (fst (for_iter body bound n l w))) /\
    exists post,
      trace (snd (for_iter body bound n l w)) = trace w ++ post /\ Q post.
Proof.
  intros Hnil Happ Hbody n.
  induction n as [|n IH]; intros l w Hl.
  - simpl. split; [assumption|]. exists []. now rewrite app_nil_r.
  - rewrite for_iter_S.
    assert (Hstep : Inv (for_vars (fst (for_step body bound l w))) /\
                    exists post, trace (snd (for_step body bound l w)) =
                                 trace w ++ post /\ Q post).
    { destruct l as [i st|st].
      - destruct (Nat.ltb_spec i bound) as [Hi|Hi].
        + rewrite for_step_Running by assumption. cbn beta iota delta [fst snd].
          destruct (Hbody i st w Hl) as (Hinv & post & Ht & Hq).
          split; [now destruct (snd (fst (body i st w)))|]. eauto.
        + rewrite for_step_done by assumption. simpl.
          split; [assumption|]. exists []. now rewrite app_nil_r.
      - simpl. split; [assumption|]. exists []. now rewrite app_nil_r. }
    destruct Hstep as (Hinv & post1 & Ht1 & Hq1).
    destruct (IH _ (snd (for_step body bound l w)) Hinv) as (Hinv2 & post2 & Ht2 & Hq2).
    split; [assumption|]. exists (post1 ++ post2).
    rewrite Ht2, Ht1, <- app_assoc. auto.
Qed.

Lemma for_loop_delta {St : Type} (body : nat -> St -> Cmd (St * bool))
    (bound : nat) (Inv : St -> Prop) (Q : list Event -> Prop) :
  Q [] ->
  (forall a b, Q a -> Q b -> Q (a ++ b)) ->
  (forall i st w, Inv st ->
     Inv (fst (fst (body i st w))) /\
     exists post, trace (snd (body i st w)) = trace w ++ post /\ Q post) ->
  forall st w, Inv st ->
    exists post,
      trace (snd (for_loop body bound st w)) = trace w ++ post /\ Q post.
Proof.
  intros Hnil Happ Hbody st w Hst. rewrite for_loop_eq. cbn beta iota delta [snd].
  apply (for_iter_delta body bound Inv Q Hnil Happ Hbody (S bound)
           (Running 0 st) w Hst).
Qed.

Lemma passwordKeys_events_no_Ask (E : Env) (prompts : gmap string AuthPrompt)
    (keys : list string) :
  count_events is_Ask (passwordKeys_events E prompts keys) = 0 /\
  sent_credentials (passwordKeys_events E prompts keys) = [].
Proof. induction keys; simpl; auto. Qed.

(** What one attempt of the password flow adds to the trace: secret
    prompts, then the one call of [Authenticate]. *)
Lemma authenticate_body_delta (E : Env) (prompts : gmap string AuthPrompt)
    (keys : list string) (i : nat) (v : Login.AuthVars) (w : World) :
  exists post,
    trace (snd (Login.authenticate_body E prompts keys i v w)) = trace w ++ post /\
    count_events is_Ask post = 0 /\
    sent_credentials post =
    [fst (Login.authenticate_passwordKeys E prompts keys
            (Login.credentials (fst (Login.authenticate_password E prompts v w)))
            (snd (Login.authenticate_password E prompts v w)))] /\
    Login.credentials (fst (fst (Login.authenticate_body E prompts keys i v w))) =
    fst (Login.authenticate_passwordKeys E prompts keys
           (Login.credentials (fst (Login.authenticate_password E prompts v w)))
           (snd (Login.authenticate_password E prompts v w))).
Proof.
  pose proof (authenticate_body_eq E prompts keys i v w) as Heq.
  cbv zeta in Heq. rewrite Heq. clear Heq.
  assert (Hpw : exists pw,
             trace (snd (Login.authenticate_password E prompts v w)) =
             trace w ++ pw /\ count_events is_Ask pw = 0 /\
             sent_credentials pw = []).
  { rewrite authenticate_password_world.
    destruct (prompts !! "password") as [p|].
    - exists (password_events E p v). rewrite trace_advance.
      unfold password_events. now destruct (_ =? _).
    - exists []. now rewrite app_nil_r. }
  destruct Hpw as (pw & Hpw & Hpw1 & Hpw2).
  destruct (passwordKeys_events_no_Ask E prompts keys) as [Hk1 Hk2].
  set (r2 := Login.authenticate_passwordKeys E prompts keys _ _) in *.
  assert (Ht : trace (snd r2) = trace w ++ pw ++ passwordKeys_events E prompts keys).
  { unfold r2. rewrite authenticate_passwordKeys_world, trace_advance, Hpw.
    now rewrite <- app_assoc. }
  rewrite credentialsCopy_eq.
  destruct (auth_replies w (auth_calls w)) as [msg|]; cbn beta iota delta [fst snd].
  - exists (pw ++ passwordKeys_events E prompts keys ++
            [EvSay (T E "Authenticating..." []) []; EvAuthenticate (fst r2)] ++
            [EvSay msg []]).
    rewrite trace_advance. simpl trace. rewrite Ht.
    rewrite !count_events_app, !sent_credentials_app, Hpw1, Hpw2, Hk1, Hk2.
    repeat split. now rewrite <- !app_assoc.
  - exists (pw ++ passwordKeys_events E prompts keys ++
            [EvSay (T E "Authenticating..." []) []; EvAuthenticate (fst r2)] ++
            [EvOk; EvSay "" []]).
    rewrite trace_advance. simpl trace. rewrite Ht.
    rewrite !count_events_app, !sent_credentials_app, Hpw1, Hpw2, Hk1, Hk2.
    repeat split. now rewrite <- !app_assoc.
Qed.

Lemma authenticate_password_other (E : Env) (prompts : gmap string AuthPrompt)
    (v : Login.AuthVars) (w : World) (k : string) :
  k <> "password" ->
  Login.credentials (fst (Login.authenticate_password E prompts v w)) !! k =
  Login.credentials v !! k.
Proof.
  intros Hk. unfold Login.authenticate_password.
  destruct (prompts !! "password"); [|reflexivity].
  destruct (negb _); [simpl|run_bind; simpl]; now apply lookup_insert_ne.
Qed.

(** ** The static part of the password flow, in full *)

Lemma AuthPromptType_eqb_eq (a b : AuthPromptType) :
  AuthPromptType_eqb a b = true <-> a = b.
Proof. destruct a, b; simpl; split; congruence. Qed.

(** The range over the catalog: the keys it collects, the questions it
    asks and the credentials it leaves alone. *)
Lemma authenticate_range_eq (E : Env) (kvs : list (string * AuthPrompt)) :
  forall (keys : list string) (creds : gmap string string) (w : World),
    fst (fst (Login.authenticate_range E kvs keys creds w)) =
    keys ++ map fst (List.filter retry_secret kvs) /\
    snd (Login.authenticate_range E kvs keys creds w) =
    advance (map (fun kv => EvAsk (T E (DisplayName (snd kv)) []))
               (List.filter plain_field kvs))
      (length (List.filter plain_field kvs)) w /\
    (forall k, (forall p, In (k, p) kvs -> plain_field (k, p) = false) ->
       snd (fst (Login.authenticate_range E kvs keys creds w)) !! k = creds !! k).
Proof.
  induction kvs as [|[key prompt] rest IH]; intros keys creds w.
  - simpl. rewrite app_nil_r, advance_nil. auto.
  - cbn [Login.authenticate_range List.filter].
    assert (Hr : retry_secret (key, prompt) =
                 AuthPromptType_eqb (Type_ prompt) AuthPromptTypePassword &&
                 negb ((key =? "passcode") || (key =? "password")))
      by reflexivity.
    assert (Hf : plain_field (key, prompt) =
                 negb (AuthPromptType_eqb (Type_ prompt) AuthPromptTypePassword) &&
                 negb (key =? "username"))
      by reflexivity.
    destruct (AuthPromptType_eqb (Type_ prompt) AuthPromptTypePassword) eqn:Ht.
    + destruct ((key =? "passcode") || (key =? "password")) eqn:Hk;
        simpl in Hr, Hf; rewrite Hr, Hf.
      * destruct (IH keys creds w) as (H1 & H2 & H3).
        split; [exact H1|]. split; [exact H2|].
        intros k Hk'. apply H3. intros p Hp. apply Hk'. now right.
      * destruct (IH (keys ++ [key]) creds w) as (H1 & H2 & H3).
        split; [rewrite H1; simpl; now rewrite <- app_assoc|].
        split; [exact H2|].
        intros k Hk'. apply H3. intros p Hp. apply Hk'. now right.
    + destruct (key =? "username") eqn:Hu; simpl in Hr, Hf; rewrite Hr, Hf.
      * destruct (IH keys creds w) as (H1 & H2 & H3).
        split; [exact H1|]. split; [exact H2|].
        intros k Hk'. apply H3. intros p Hp. apply Hk'. now right.
      * run_bind. rewrite Ask_eq. cbn beta iota delta [fst snd].
        destruct (IH keys (<[key := ui_in w (ui_pos w)]> creds)
                    (advance [EvAsk (T E (DisplayName prompt) [])] 1 w))
          as (H1 & H2 & H3).
        split; [exact H1|].
        split; [rewrite H2, advance_advance; reflexivity|].
        intros k Hk'. rewrite H3 by (intros p Hp; apply Hk'; now right).
        apply lookup_insert_ne. intros ->.
        specialize (Hk' prompt (or_introl eq_refl)).
        rewrite Hf in Hk'. discriminate Hk'.
Qed.

Lemma authenticate_username_eq (E : Env) (prompts : gmap string AuthPrompt)
    (u : string) (creds : gmap string string) (w : World) :
  (exists es k, snd (Login.authenticate_username E prompts u creds w) =
                advance es k w /\
                (forall e, In e es -> is_Ask e = true)) /\
  (forall p, prompts !! "username" = Some p ->
     Type_ p = AuthPromptTypeText -> u <> "" ->
     Login.authenticate_username E prompts u creds w =
     (<["username" := u]> creds, w)).
Proof.
  unfold Login.authenticate_username, index_prompts. split.
  - destruct (prompts !! "username") as [p|].
    + destruct (_ && _).
      * exists [], 0. rewrite advance_nil. split; [reflexivity | intros e []].
      * run_bind. rewrite Ask_eq. cbn beta iota delta [fst snd].
        exists [EvAsk (T E (DisplayName p) [])], 1. split; [reflexivity|].
        intros e [<-|[]]. reflexivity.
    + exists [], 0. rewrite advance_nil. split; [reflexivity | intros e []].
  - intros p Hp Ht Hu. rewrite Hp. simpl. rewrite Ht.
    apply String.eqb_neq in Hu. now rewrite Hu.
Qed.

Lemma sent_credentials_map_Ask {A : Type} (f : A -> string) (l : list A) :
  sent_credentials (map (fun a => EvAsk (f a)) l) = [].
Proof. induction l; simpl; auto. Qed.

(** The whole password flow, once the loop is reached: what is added to
    the trace before the loop and by the loop. *)
Lemma authenticate_run (E : Env) (c : FlagContext) (w : World) :
  Config.UAAGrantType (cfg w) <> "client_credentials" ->
  snd (snd (GetLoginPromptsAndSaveUAAServerURL E (cfg w))) = None ->
  let prompts := fst (snd (GetLoginPromptsAndSaveUAAServerURL E (cfg w))) in
  let w1 := snd (authenticator_GetLoginPrompts E w) in
  let r2 := Login.authenticate_username E prompts (flag_u c) ∅ w1 in
  let kvs := range_prompts E prompts in
  let r3 := Login.authenticate_range E kvs [] (fst r2) (snd r2) in
  exists pre post,
    trace (snd (Login.authenticate E c w)) = trace w ++ pre ++ post /\
    trace (snd r2) ++
    map (fun kv => EvAsk (T E (DisplayName (snd kv)) [])) (List.filter plain_field kvs) =
    trace w ++ pre /\
    count_events is_Authenticate pre = 0 /\
    sent_credentials pre = [] /\
    count_events is_Ask post = 0 /\
    Forall (fun cr : gmap string string =>
              forall k, k <> "password" ->
                (forall p, In (k, p) kvs -> Type_ p <> AuthPromptTypePassword) ->
                cr !! k = snd (fst r3) !! k)
           (sent_credentials post).
Proof.
  intros Hg Hp prompts w1 r2 kvs r3.
  destruct (authenticate_eq E c w Hg Hp) as (Hq & Heq). cbv zeta in Hq, Heq.
  fold prompts w1 r2 kvs r3 in Hq, Heq.
  destruct (authenticate_range_eq E kvs [] (fst r2) (snd r2)) as (Hkeys & Hworld & _).
  fold r3 in Hkeys, Hworld. simpl in Hkeys.
  (* before the loop *)
  assert (Hpre : exists pre, trace (snd r3) = trace w ++ pre /\
                   trace (snd r2) ++
                   map (fun kv => EvAsk (T E (DisplayName (snd kv)) []))
                     (List.filter plain_field kvs) = trace w ++ pre /\
                   sent_credentials pre = []).
  { destruct (authenticate_username_eq E prompts (flag_u c) ∅ w1)
      as ((es & k & Hes & Hask) & _).
    fold r2 in Hes.
    exists ([EvGetLoginPrompts] ++ es ++
            map (fun kv => EvAsk (T E (DisplayName (snd kv)) []))
              (List.filter plain_field kvs)).
    rewrite Hworld, trace_advance, Hes, trace_advance.
    assert (Hw1 : trace w1 = trace w ++ [EvGetLoginPrompts]).
    { unfold w1, authenticator_GetLoginPrompts.
      now destruct (GetLoginPromptsAndSaveUAAServerURL E (cfg w)). }
    rewrite Hw1, <- !app_assoc. split; [reflexivity|]. split; [reflexivity|].
    rewrite !sent_credentials_app. simpl.
    assert (H1 : sent_credentials es = []).
    { clear Hes. induction es as [|e es IH]; [reflexivity|].
      pose proof (Hask e (or_introl eq_refl)) as He.
      destruct e; try discriminate He. simpl. apply IH.
      intros e' He'. apply Hask. now right. }
    rewrite H1. simpl. apply sent_credentials_map_Ask. }
  destruct Hpre as (pre & Hpre & Hpre2 & Hsent).
  (* the loop *)
  set (static := fun k : string =>
         k <> "password" /\
         (forall p, In (k, p) kvs -> Type_ p <> AuthPromptTypePassword)).
  destruct (for_loop_delta
              (Login.authenticate_body E prompts (fst (fst r3))) maxLoginTries
              (fun v => forall k, static k ->
                 Login.credentials v !! k = snd (fst r3) !! k)
              (fun post => count_events is_Ask post = 0 /\
                 Forall (fun cr : gmap string string =>
                           forall k, static k -> cr !! k = snd (fst r3) !! k)
                        (sent_credentials post)))
    with (st := Login.mkAuthVars (flag_p c) (snd (fst r3)) None) (w := snd r3)
    as (post & Hpost & Hask & Hall).
  - split; [reflexivity | constructor].
  - intros a b [Ha1 Ha2] [Hb1 Hb2]. split.
    + rewrite count_events_app. lia.
    + rewrite sent_credentials_app. apply Forall_app. now split.
  - intros i v w' Hinv.
    destruct (authenticate_body_delta E prompts (fst (fst r3)) i v w')
      as (post & Ht & Hask & Hsent' & Hcr).
    assert (Hstatic : forall k, static k ->
              fst (Login.authenticate_passwordKeys E prompts (fst (fst r3))
                     (Login.credentials (fst (Login.authenticate_password E prompts v w')))
                     (snd (Login.authenticate_password E prompts v w'))) !! k =
              snd (fst r3) !! k).
    { intros k Hk. pose proof Hk as (Hk1 & Hk2).
      rewrite authenticate_passwordKeys_other.
      - rewrite authenticate_password_other by assumption. now apply Hinv.
      - rewrite Hkeys. intros Hin. apply in_map_iff in Hin.
        destruct Hin as ([k' p] & Hfst & Hin). simpl in Hfst. subst k'.
        apply filter_In in Hin. destruct Hin as [Hin Hsec].
        unfold retry_secret in Hsec. simpl in Hsec.
        apply andb_true_iff in Hsec. destruct Hsec as [Hsec _].
        apply AuthPromptType_eqb_eq in Hsec. exact (Hk2 p Hin Hsec). }
    split.
    + intros k Hk. rewrite Hcr. now apply Hstatic.
    + exists post. split; [assumption|]. split; [assumption|].
      rewrite Hsent'. constructor; [|constructor]. exact Hstatic.
  - intros k _. reflexivity.
  - exists pre, post. rewrite Heq. cbn beta iota delta [snd].
    rewrite Hpost, Hpre, <- app_assoc.
    split; [reflexivity|]. split; [assumption|].
    split.
    + destruct Hq as (_ & _ & Hn). unfold authenticate_calls in Hn.
      rewrite Hpre, count_events_app in Hn. lia.
    + split; [assumption|]. split; [assumption|].
      eapply List.Forall_impl; [|exact Hall].
      intros cr Hcr k Hk1 Hk2. apply Hcr. now split.
Qed.

Lemma count_events_map_Ask {A : Type} (f : A -> string) (l : list A) :
  count_events is_Ask (map (fun a => EvAsk (f a)) l) = length l.
Proof. induction l; simpl; auto. Qed.

(** X7: in the password flow every plain-text question comes before the
    first call of [Authenticate]: what the flow adds to the trace splits
    into a part without any call of [Authenticate] and a part without any
    plain-text question.  (After a failed attempt only secrets are asked
    again.) *)
Theorem authenticate_plain_questions_first (E : Env) (c : FlagContext)
    (w : World) :
  exists pre post,
    trace (snd (Login.authenticate E c w)) = trace w ++ pre ++ post /\
    count_events is_Authenticate pre = 0 /\
    count_events is_Ask post = 0.
Proof.
  destruct (String.eqb_spec (Config.UAAGrantType (cfg w)) "client_credentials")
    as [Hg|Hg].
  - exists [], [].
    rewrite (proj1 (authenticate_early_exits_aux E c w) Hg). simpl.
    now rewrite app_nil_r.
  - destruct (snd (snd (GetLoginPromptsAndSaveUAAServerURL E (cfg w)))) as [e|] eqn:He.
    + exists [EvGetLoginPrompts], [].
      destruct (proj2 (authenticate_early_exits_aux E c w) e Hg He) as (_ & Ht & _).
      rewrite Ht. now repeat split.
    + destruct (authenticate_run E c w Hg He) as (pre & post & H1 & _ & H2 & _ & H3 & _).
      exists pre, post. auto.
Qed.

(** X8: a credential that is neither the password nor one of the secrets
    asked at every attempt is the same in every call of [Authenticate] of
    one run of the password flow: what was typed once before the loop is
    sent again after a failure. *)
Theorem authenticate_static_fields_kept (E : Env) (c : FlagContext) (w : World)
    (k : string) :
  Config.UAAGrantType (cfg w) <> "client_credentials" ->
  snd (snd (GetLoginPromptsAndSaveUAAServerURL E (cfg w))) = None ->
  k <> "password" ->
  (forall p,
     In (k, p) (range_prompts E
                  (fst (snd (GetLoginPromptsAndSaveUAAServerURL E (cfg w))))) ->
     Type_ p <> AuthPromptTypePassword) ->
  exists value delta,
    trace (snd (Login.authenticate E c w)) = trace w ++ delta /\
    Forall (fun cr : gmap string string => cr !! k = value)
           (sent_credentials delta).
Proof.
  intros Hg Hp Hk Hty.
  destruct (authenticate_run E c w Hg Hp) as (pre & post & H1 & _ & _ & H2 & _ & H3).
  cbv zeta in H3.
  eexists _, (pre ++ post). split; [exact H1|].
  rewrite sent_credentials_app, H2. simpl.
  eapply List.Forall_impl; [|exact H3].
  intros cr Hcr. cbv beta. apply Hcr; assumption.
Qed.

(** X9: with a text prompt for the user name in the catalog and a
    non-empty [-u] value, the user name is not asked: the plain-text
    questions of the run are those of the other text fields of the
    catalog, one each, and every call of [Authenticate] carries the value
    of the flag as ["username"]. *)
Theorem authenticate_username_flag (E : Env) (c : FlagContext) (w : World)
    (p : AuthPrompt) :
  Config.UAAGrantType (cfg w) <> "client_credentials" ->
  snd (snd (GetLoginPromptsAndSaveUAAServerURL E (cfg w))) = None ->
  fst (snd (GetLoginPromptsAndSaveUAAServerURL E (cfg w))) !! "username" = Some p ->
  Type_ p = AuthPromptTypeText ->
  flag_u c <> "" ->
  (forall q,
     In ("username", q)
        (range_prompts E
           (fst (snd (GetLoginPromptsAndSaveUAAServerURL E (cfg w))))) ->
     Type_ q <> AuthPromptTypePassword) ->
  exists delta,
    trace (snd (Login.authenticate E c w)) = trace w ++ delta /\
    count_events is_Ask delta =
    length (List.filter plain_field
              (range_prompts E
                 (fst (snd (GetLoginPromptsAndSaveUAAServerURL E (cfg w)))))) /\
    Forall (fun cr : gmap string string => cr !! "username" = Some (flag_u c))
           (sent_credentials delta).
Proof.
  intros Hg Hp Hu Hty Hflag Hrange.
  destruct (authenticate_run E c w Hg Hp)
    as (pre & post & H1 & Hpre & _ & H2 & H3 & H4).
  cbv zeta in Hpre, H4.
  destruct (authenticate_username_eq E
              (fst (snd (GetLoginPromptsAndSaveUAAServerURL E (cfg w))))
              (flag_u c) ∅ (snd (authenticator_GetLoginPrompts E w)))
    as (_ & Hflagged).
  specialize (Hflagged p Hu Hty Hflag).
  rewrite Hflagged in Hpre, H4. cbn beta iota delta [fst snd] in Hpre, H4.
  assert (Hw1 : trace (snd (authenticator_GetLoginPrompts E w)) =
                trace w ++ [EvGetLoginPrompts]).
  { unfold authenticator_GetLoginPrompts.
    now destruct (GetLoginPromptsAndSaveUAAServerURL E (cfg w)). }
  rewrite Hw1, <- app_assoc in Hpre. apply app_inv_head in Hpre.
  exists (pre ++ post). split; [exact H1|]. split.
  - rewrite count_events_app, H3, <- Hpre, count_events_app. simpl.
    rewrite count_events_map_Ask. lia.
  - rewrite sent_credentials_app, H2. simpl.
    eapply List.Forall_impl; [|exact H4].
    intros cr Hcr. cbv beta. rewrite Hcr; [|discriminate|assumption].
    destruct (authenticate_range_eq E
                (range_prompts E
                   (fst (snd (GetLoginPromptsAndSaveUAAServerURL E (cfg w)))))
                [] (<["username" := flag_u c]> ∅)
                (snd (authenticator_GetLoginPrompts E w))) as (_ & _ & Hkeep).
    rewrite Hkeep.
    + apply lookup_insert_eq.
    + intros q _. unfold plain_field. simpl. apply andb_false_r.
Qed.

(** X10: the range over the catalog collects, in the order of the
    enumeration, the keys of the secret prompts other than ["password"]
    and ["passcode"], and asks one plain-text question for each entry
    that is not a secret and not the user name, in that order. *)
Theorem authenticate_range_collects (E : Env) (kvs : list (string * AuthPrompt))
    (creds : gmap string string) (w : World) :
  fst (fst (Login.authenticate_range E kvs [] creds w)) =
  map fst (List.filter retry_secret kvs) /\
  trace (snd (Login.authenticate_range E kvs [] creds w)) =
  trace w ++
  map (fun kv => EvAsk (T E (DisplayName (snd kv)) [])) (List.filter plain_field kvs) /\
  ui_pos (snd (Login.authenticate_range E kvs [] creds w)) =
  ui_pos w + length (List.filter plain_field kvs).
Proof.
  destruct (authenticate_range_eq E kvs [] creds w) as (H1 & H2 & _).
  rewrite H1, H2. now repeat split.
Qed.

Lemma authenticateSSO_fetch_error_witness :
  fst (Login.authenticateSSO noPromptsEnv noFlags
         (sampleWorld (sampleStore "https://api.example.com"
                         "https://login.example.com" false []) [] [])) =
  Some "Error performing request".
Proof.
  apply (authenticateSSO_fetch_error noPromptsEnv noFlags
           (sampleWorld (sampleStore "https://api.example.com"
                           "https://login.example.com" false []) [] [])
           "Error performing request" eq_refl).
Defined.

Lemma authenticate_static_fields_kept_witness :
  exists value delta,
    trace (snd (Login.authenticate (sampleEnv None None sampleCatalog []) noFlags
                  (sampleWorld (sampleStore "https://api.example.com"
                                  "https://login.example.com" false [])
                     ["alice"; "wrong"; "000000"; "right"; "111111"]
                     [Some "Credentials were rejected"; None]))) =
    trace (sampleWorld (sampleStore "https://api.example.com"
                          "https://login.example.com" false [])
             ["alice"; "wrong"; "000000"; "right"; "111111"]
             [Some "Credentials were rejected"; None]) ++ delta /\
    Forall (fun cr : gmap string string => cr !! "username" = value)
           (sent_credentials delta).
Proof.
  apply (authenticate_static_fields_kept (sampleEnv None None sampleCatalog [])
           noFlags
           (sampleWorld (sampleStore "https://api.example.com"
                           "https://login.example.com" false [])
              ["alice"; "wrong"; "000000"; "right"; "111111"]
              [Some "Credentials were rejected"; None]) "username").
  - discriminate.
  - reflexivity.
  - discriminate.
  - intros p Hp. apply list_elem_of_In, elem_of_map_to_list in Hp.
    vm_compute in Hp. injection Hp as <-. discriminate.
Defined.

Lemma authenticate_username_flag_witness :
  exists delta,
    trace (snd (Login.authenticate (sampleEnv None None sampleCatalog [])
                  (mkFlagContext "" "alice" "" "" "" false None false)
                  (sampleWorld (sampleStore "https://api.example.com"
                                  "https://login.example.com" false [])
                     ["right"; "111111"] [None]))) =
    trace (sampleWorld (sampleStore "https://api.example.com"
                          "https://login.example.com" false [])
             ["right"; "111111"] [None]) ++ delta /\
    Forall (fun cr : gmap string string => cr !! "username" = Some "alice")
           (sent_credentials delta).
Proof.
  destruct (authenticate_username_flag (sampleEnv None None sampleCatalog [])
              (mkFlagContext "" "alice" "" "" "" false None false)
              (sampleWorld (sampleStore "https://api.example.com"
                              "https://login.example.com" false [])
                 ["right"; "111111"] [None])
              (mkAuthPrompt AuthPromptTypeText "Email"))
    as (delta & H1 & _ & H3).
  - discriminate.
  - reflexivity.
  - reflexivity.
  - reflexivity.
  - discriminate.
  - intros p Hp. apply list_elem_of_In, elem_of_map_to_list in Hp.
    vm_compute in Hp. injection Hp as <-. discriminate.
  - exists delta. now split.
Defined.
(** ** The SSO flow *)

Lemma authenticateSSO_body_delta (E : Env) (c : FlagContext) (passcode : AuthPrompt)
    (i : nat) (st : gmap string string * option string) (w : World) :
  (forall k, k <> "passcode" -> fst st !! k = None) ->
  (forall k, k <> "passcode" ->
     fst (fst (fst (Login.authenticateSSO_body E c passcode i st w))) !! k = None) /\
  exists post,
    trace (snd (Login.authenticateSSO_body E c passcode i st w)) =
    trace w ++ post /\
    count_events is_Ask post = 0 /\
    Forall (fun cr : gmap string string => exists v, cr = {["passcode" := v]})
           (sent_credentials post).
Proof.
  intros Hinv.
  pose proof (authenticateSSO_body_eq E c passcode i st w) as Heq.
  cbv zeta in Heq. rewrite Heq. clear Heq.
  set (code := if negb (IsSet_sso_passcode c && (i =? 0)%nat)
               then ui_in w (ui_pos w) else String_sso_passcode c).
  assert (Hone : <["passcode" := code]> (fst st) = {["passcode" := code]}).
  { apply map_eq. intros k. destruct (decide (k = "passcode")) as [->|Hk].
    - now rewrite lookup_insert_eq, lookup_singleton_eq.
    - rewrite lookup_insert_ne, lookup_singleton_ne by congruence. now apply Hinv. }
  rewrite Hone.
  assert (Hother : forall k, k <> "passcode" ->
            ({["passcode" := code]} : gmap string string) !! k = None).
  { intros k Hk. apply lookup_singleton_ne. congruence. }
  destruct (auth_replies w (auth_calls w)) as [msg|];
    destruct (negb (IsSet_sso_passcode c && (i =? 0)%nat));
    cbn beta iota delta [fst snd]; (split; [exact Hother|]);
    rewrite trace_advance; simpl trace; rewrite <- !app_assoc;
    eexists; (split; [reflexivity|]); simpl;
    (split; [reflexivity|]); repeat constructor; eauto.
Qed.

(** X11: the SSO flow asks no plain-text question, and every call of
    [Authenticate] it makes carries exactly one credential, the passcode:
    nothing else is ever sent. *)
Theorem authenticateSSO_sends_passcode_only (E : Env) (c : FlagContext)
    (w : World) :
  exists delta,
    trace (snd (Login.authenticateSSO E c w)) = trace w ++ delta /\
    count_events is_Ask delta = 0 /\
    Forall (fun cr : gmap string string => exists v, cr = {["passcode" := v]})
           (sent_credentials delta).
Proof.
  assert (Hw1 : trace (snd (authenticator_GetLoginPrompts E w)) =
                trace w ++ [EvGetLoginPrompts]).
  { unfold authenticator_GetLoginPrompts.
    now destruct (GetLoginPromptsAndSaveUAAServerURL E (cfg w)). }
  destruct (snd (snd (GetLoginPromptsAndSaveUAAServerURL E (cfg w)))) as [e|] eqn:He.
  - exists [EvGetLoginPrompts].
    unfold Login.authenticateSSO. run_bind. rewrite GetLoginPrompts_result, He.
    cbn beta iota delta [fst snd ret]. rewrite Hw1. now repeat split.
  - pose proof (authenticateSSO_eq E c w He) as Heq. cbv zeta in Heq.
    rewrite Heq. cbn beta iota delta [snd]. clear Heq.
    set (passcode := if DisplayName (index_prompts _ "passcode") =? "" then _ else _).
    destruct (for_loop_delta
                (Login.authenticateSSO_body E c passcode) maxLoginTries
                (fun st => forall k, k <> "passcode" -> fst st !! k = None)
                (fun post => count_events is_Ask post = 0 /\
                   Forall (fun cr : gmap string string =>
                             exists v, cr = {["passcode" := v]})
                          (sent_credentials post)))
      with (st := (∅ : gmap string string, @None string))
           (w := snd (authenticator_GetLoginPrompts E w))
      as (post & Hpost & Hask & Hall).
    + split; [reflexivity | constructor].
    + intros a b [Ha1 Ha2] [Hb1 Hb2]. split.
      * rewrite count_events_app. lia.
      * rewrite sent_credentials_app. apply Forall_app. now split.
    + intros i st w' Hinv.
      destruct (authenticateSSO_body_delta E c passcode i st w' Hinv)
        as (Hinv' & post & Ht & Hq1 & Hq2).
      split; [exact Hinv'|]. eauto.
    + intros k _. apply lookup_empty.
    + exists ([EvGetLoginPrompts] ++ post).
      rewrite Hpost, Hw1, <- app_assoc. split; [reflexivity|].
      split; [simpl; exact Hask | simpl; exact Hall].
Qed.

Lemma GetLoginPrompts_world (E : Env) (w : World) :
  trace (snd (authenticator_GetLoginPrompts E w)) = trace w ++ [EvGetLoginPrompts] /\
  ui_in (snd (authenticator_GetLoginPrompts E w)) = ui_in w /\
  ui_pos (snd (authenticator_GetLoginPrompts E w)) = ui_pos w /\
  auth_replies (snd (authenticator_GetLoginPrompts E w)) = auth_replies w /\
  auth_calls (snd (authenticator_GetLoginPrompts E w)) = auth_calls w /\
  cfg (snd (authenticator_GetLoginPrompts E w)) =
  fst (GetLoginPromptsAndSaveUAAServerURL E (cfg w)).
Proof.
  unfold authenticator_GetLoginPrompts.
  now destruct (GetLoginPromptsAndSaveUAAServerURL E (cfg w)).
Qed.

(** ** The password and the passcode across the attempts *)

Lemma authenticate_username_world (E : Env) (prompts : gmap string AuthPrompt)
    (u : string) (creds : gmap string string) (w : World) :
  exists es,
    snd (Login.authenticate_username E prompts u creds w) =
    advance es (count_events is_Ask es) w /\
    Forall (fun e => e = EvGetLoginPrompts \/ is_Ask e = true) es.
Proof.
  unfold Login.authenticate_username.
  destruct (prompts !! "username") as [p|].
  - destruct (_ && _).
    + exists []. now rewrite advance_nil.
    + run_bind. rewrite Ask_eq. cbn beta iota delta [fst snd].
      exists [EvAsk (T E (DisplayName p) [])]. split; [reflexivity|].
      constructor; [now right | constructor].
  - exists []. now rewrite advance_nil.
Qed.

(** What the password flow does before its loop: it fetches the catalog
    and asks plain-text questions, and it collects the keys of the secrets
    asked at every attempt. *)
Lemma authenticate_prelude (E : Env) (c : FlagContext) (w : World) :
  let prompts := fst (snd (GetLoginPromptsAndSaveUAAServerURL E (cfg w))) in
  let w1 := snd (authenticator_GetLoginPrompts E w) in
  let r2 := Login.authenticate_username E prompts (flag_u c) ∅ w1 in
  let kvs := range_prompts E prompts in
  let r3 := Login.authenticate_range E kvs [] (fst r2) (snd r2) in
  fst (fst r3) = map fst (List.filter retry_secret kvs) /\
  exists pre,
    trace (snd r3) = trace w ++ pre /\
    Forall (fun e => e = EvGetLoginPrompts \/ is_Ask e = true) pre /\
    ui_pos (snd r3) = ui_pos w + count_events is_Ask pre /\
    ui_in (snd r3) = ui_in w /\
    auth_replies (snd r3) = auth_replies w /\
    auth_calls (snd r3) = auth_calls w.
Proof.
  intros prompts w1 r2 kvs r3.
  destruct (authenticate_range_eq E kvs [] (fst r2) (snd r2)) as (Hkeys & Hworld & _).
  fold r3 in Hkeys, Hworld. split; [exact Hkeys|].
  destruct (authenticate_username_world E prompts (flag_u c) ∅ w1) as (es & Hes & Hask).
  fold r2 in Hes.
  destruct (GetLoginPrompts_world E w) as (Ht & Hin & Hpos & Hrep & Hcalls & _).
  fold w1 in Ht, Hin, Hpos, Hrep, Hcalls.
  exists ([EvGetLoginPrompts] ++ es ++
          map (fun kv => EvAsk (T E (DisplayName (snd kv)) []))
            (List.filter plain_field kvs)).
  rewrite Hworld, Hes. clear Hworld Hes.
  rewrite trace_advance, trace_advance, Ht, <- !app_assoc.
  split; [reflexivity|]. split.
  - constructor; [now left|]. apply Forall_app. split; [exact Hask|].
    clear. induction (List.filter plain_field kvs) as [|kv l IH];
      simpl; constructor; auto.
  - rewrite !count_events_app, count_events_map_Ask. simpl.
    rewrite Hpos, Hin, Hrep, Hcalls. repeat split. lia.
Qed.

(** One attempt of the password flow: what it adds to the trace, the
    password it sends, and the world it leaves. *)
Lemma authenticate_body_step (E : Env) (prompts : gmap string AuthPrompt)
    (passPrompt : AuthPrompt) (keys : list string) (i : nat)
    (v : Login.AuthVars) (w : World) :
  prompts !! "password" = Some passPrompt ->
  ~ In "password" keys ->
  let r := Login.authenticate_body E prompts keys i v w in
  let asked := Login.passwordFlagValue v =? "" in
  exists cr,
    trace (snd r) =
    trace w ++ password_attempt E prompts passPrompt keys asked cr
                 (auth_replies w (auth_calls w)) /\
    cr !! "password" =
    Some (if asked then ui_in w (ui_pos w) else Login.passwordFlagValue v) /\
    ui_in (snd r) = ui_in w /\
    ui_pos (snd r) = ui_pos w + (if asked then 1 else 0) + length keys /\
    auth_replies (snd r) = auth_replies w /\
    auth_calls (snd r) = S (auth_calls w) /\
    Login.passwordFlagValue (fst (fst r)) = "" /\
    snd (fst r) =
    match auth_replies w (auth_calls w) with None => true | Some _ => false end.
Proof.
  intros Hp Hk r asked. subst r.
  pose proof (authenticate_body_eq E prompts keys i v w) as Heq. cbv zeta in Heq.
  rewrite Heq. clear Heq.
  pose proof (authenticate_password_consumes E prompts passPrompt v w Hp) as Hflag.
  assert (Hpw : Login.authenticate_password E prompts v w =
            (Login.mkAuthVars ""
               (<["password" := if asked then ui_in w (ui_pos w)
                                else Login.passwordFlagValue v]> (Login.credentials v))
               (Login.err v),
             advance (if asked
                      then [EvAskForPassword (T E (DisplayName passPrompt) [])]
                      else [])
               (if asked then 1 else 0) w)).
  { unfold asked. destruct (Login.passwordFlagValue v =? "") eqn:Hf.
    - apply String.eqb_eq in Hf.
      exact (authenticate_password_asked E prompts passPrompt v w Hp Hf).
    - apply String.eqb_neq in Hf. rewrite advance_nil.
      exact (authenticate_password_flag E prompts passPrompt v w Hp Hf). }
  rewrite Hpw in *. clear Hpw. cbn beta iota delta [fst snd] in *.
  pose proof (authenticate_passwordKeys_world E prompts keys
                (Login.credentials
                   (Login.mkAuthVars ""
                      (<["password" := if asked then ui_in w (ui_pos w)
                                       else Login.passwordFlagValue v]>
                         (Login.credentials v)) (Login.err v)))
                (advance (if asked
                          then [EvAskForPassword (T E (DisplayName passPrompt) [])]
                          else [])
                   (if asked then 1 else 0) w)) as Hw2.
  pose proof (authenticate_passwordKeys_other E prompts keys
                (Login.credentials
                   (Login.mkAuthVars ""
                      (<["password" := if asked then ui_in w (ui_pos w)
                                       else Login.passwordFlagValue v]>
                         (Login.credentials v)) (Login.err v)))
                (advance (if asked
                          then [EvAskForPassword (T E (DisplayName passPrompt) [])]
                          else [])
                   (if asked then 1 else 0) w) "password" Hk) as Hcr.
  set (r2 := Login.authenticate_passwordKeys E prompts keys _ _) in *.
  clearbody r2. rewrite advance_advance in Hw2.
  cbn [Login.credentials] in Hcr. rewrite lookup_insert_eq in Hcr.
  exists (fst r2). rewrite credentialsCopy_eq. unfold password_attempt.
  destruct (auth_replies w (auth_calls w)) as [msg|];
    cbn beta iota delta [fst snd Login.passwordFlagValue];
    rewrite Hw2; unfold advance, next_auth, log, set_cfg; simpl;
    rewrite <- !app_assoc; simpl; repeat split; auto; lia.
Qed.

(** The attempts entered without a pending flag value: each asks for the
    password first and sends the answer. *)
Lemma authenticate_later_attempts (E : Env) (prompts : gmap string AuthPrompt)
    (passPrompt : AuthPrompt) (keys : list string) :
  prompts !! "password" = Some passPrompt ->
  ~ In "password" keys ->
  forall r i n v w,
    maxLoginTries = i + r -> r < n -> Login.passwordFlagValue v = "" ->
    exists credss,
      length credss = attempts_made r (auth_replies w) (auth_calls w) /\
      trace (snd (for_iter (Login.authenticate_body E prompts keys)
                    maxLoginTries n (Running i v) w)) =
      trace w ++
      concat (imap (fun j cr =>
                      password_attempt E prompts passPrompt keys true cr
                        (auth_replies w (auth_calls w + j))) credss) /\
      (forall j cr, credss !! j = Some cr ->
         cr !! "password" = Some (ui_in w (ui_pos w + j * S (length keys)))).
Proof.
  intros Hp Hk r. induction r as [|r IH]; intros i n v w Hb Hn Hf.
  - destruct n as [|n]; [lia|].
    rewrite for_iter_S, for_step_done by lia.
    cbn beta iota delta [fst snd]. rewrite for_iter_Exited.
    exists []. simpl. rewrite app_nil_r. repeat split.
    intros j cr Hj. now rewrite lookup_nil in Hj.
  - destruct n as [|n]; [lia|].
    rewrite for_iter_S, for_step_Running by lia.
    cbn beta iota delta [fst snd].
    destruct (authenticate_body_step E prompts passPrompt keys i v w Hp Hk)
      as (cr & Ht & Hcr & Hin & Hpos & Hrep & Hcalls & Hflag & Hexit).
    cbv zeta in Ht, Hcr, Hin, Hpos, Hrep, Hcalls, Hflag, Hexit.
    rewrite Hf in Ht, Hcr, Hpos. change ("" =? "") with true in Ht, Hcr, Hpos.
    cbv iota in Hcr, Hpos.
    rewrite Hexit. cbn [attempts_made].
    destruct (auth_replies w (auth_calls w)) as [msg|] eqn:Hreply.
    + destruct (IH (S i) n
                  (fst (fst (Login.authenticate_body E prompts keys i v w)))
                  (snd (Login.authenticate_body E prompts keys i v w)))
        as (credss & Hlen & Htr & Hpw); [lia | lia | exact Hflag |].
      exists (cr :: credss). split; [|split].
      * cbn [length]. rewrite Hlen, Hrep, Hcalls. reflexivity.
      * rewrite Htr, Ht, imap_cons, <- app_assoc. cbn [concat].
        rewrite Nat.add_0_r, Hreply. do 2 f_equal. f_equal.
        apply imap_ext. intros j x _. unfold compose. rewrite Hrep, Hcalls.
        replace (S (auth_calls w) + j) with (auth_calls w + S j) by lia.
        reflexivity.
      * intros [|j] cr' Hj; simpl in Hj.
        -- injection Hj as <-. rewrite Hcr. do 2 f_equal. lia.
        -- rewrite (Hpw j cr' Hj), Hin, Hpos. do 2 f_equal. lia.
    + rewrite for_iter_Exited. cbn beta iota delta [fst snd].
      exists [cr]. split; [reflexivity|]. split.
      * rewrite Ht. cbn. rewrite Nat.add_0_r, Hreply, app_nil_r. reflexivity.
      * intros [|j] cr' Hj; simpl in Hj; [|now rewrite lookup_nil in Hj].
        injection Hj as <-. rewrite Hcr. do 2 f_equal. lia.
Qed.

(** C5: in the password flow, with a ["password"] prompt in the catalog
    and a non-empty value of the password flag.  Before the first attempt
    the flow only fetches the catalog and asks plain-text questions.  The
    first attempt does not ask for the password and the call of
    [Authenticate] it makes carries the flag value as the password; every
    later attempt, as many as the answers of the authenticator call for,
    starts with the password prompt, asked as a secret, and its call of
    [Authenticate] carries the answer typed at that prompt. *)
Theorem password_flag_used_on_first_attempt_only (E : Env) (c : FlagContext)
    (w : World) (passPrompt : AuthPrompt) :
  Config.UAAGrantType (cfg w) <> "client_credentials" ->
  snd (snd (GetLoginPromptsAndSaveUAAServerURL E (cfg w))) = None ->
  fst (snd (GetLoginPromptsAndSaveUAAServerURL E (cfg w))) !! "password" =
  Some passPrompt ->
  flag_p c <> "" ->
  let prompts := fst (snd (GetLoginPromptsAndSaveUAAServerURL E (cfg w))) in
  let passwordKeys := map fst (List.filter retry_secret (range_prompts E prompts)) in
  exists pre credss,
    trace (snd (Login.authenticate E c w)) =
    trace w ++ pre ++
    concat (imap (fun j cr =>
                    password_attempt E prompts passPrompt passwordKeys
                      (negb (Nat.eqb j 0)) cr
                      (auth_replies w (auth_calls w + j))) credss) /\
    Forall (fun e => e = EvGetLoginPrompts \/ is_Ask e = true) pre /\
    length credss = attempts_made maxLoginTries (auth_replies w) (auth_calls w) /\
    (forall j cr, credss !! j = Some cr ->
       cr !! "password" =
       Some match j with
            | O => flag_p c
            | S j' =>
                ui_in w (ui_pos w + count_events is_Ask pre +
                         length passwordKeys + j' * S (length passwordKeys))
            end).
Proof.
  intros Hg Hfetch Hp Hflag prompts passwordKeys.
  destruct (authenticate_eq E c w Hg Hfetch) as (_ & Heq). cbv zeta in Heq.
  rewrite Heq. clear Heq. cbn beta iota delta [snd].
  destruct (authenticate_prelude E c w)
    as (Hkeys & pre & Hpre & Hall & Hpos & Hin & Hrep & Hcalls).
  cbv zeta in Hkeys, Hpre, Hpos, Hin, Hrep, Hcalls.
  fold prompts in Hkeys, Hpre, Hpos, Hin, Hrep, Hcalls |- *.
  fold passwordKeys in Hkeys.
  set (r3 := Login.authenticate_range E (range_prompts E prompts) [] _ _) in *.
  rewrite Hkeys. clear Hkeys.
  assert (Hk : ~ In "password" passwordKeys).
  { unfold passwordKeys. intros Hin'. apply in_map_iff in Hin'.
    destruct Hin' as ([k p] & Hfst & Hin'). simpl in Hfst. subst k.
    apply filter_In in Hin'. destruct Hin' as [_ Hsec].
    unfold retry_secret in Hsec. simpl in Hsec.
    apply andb_true_iff in Hsec. destruct Hsec as [_ Hsec].
    discriminate Hsec. }
  set (v0 := Login.mkAuthVars (flag_p c) (snd (fst r3)) None).
  assert (Hv : Login.passwordFlagValue v0 = flag_p c) by reflexivity.
  set (w3 := snd r3) in *. clearbody w3 v0. clear r3.
  rewrite for_loop_eq. cbn beta iota delta [snd].
  rewrite for_iter_S, for_step_Running by (unfold maxLoginTries; lia).
  cbn beta iota delta [fst snd].
  destruct (authenticate_body_step E prompts passPrompt passwordKeys 0 v0 w3 Hp Hk)
    as (cr & Ht & Hcr & Hin1 & Hpos1 & Hrep1 & Hcalls1 & Hflag1 & Hexit).
  cbv zeta in Ht, Hcr, Hin1, Hpos1, Hrep1, Hcalls1, Hflag1, Hexit.
  assert (Hne : (flag_p c =? "") = false) by now apply String.eqb_neq.
  rewrite Hv, Hne in Ht, Hcr, Hpos1. rewrite Hrep, Hcalls in Ht, Hexit.
  rewrite Hin in Hin1. rewrite Hrep in Hrep1. rewrite Hcalls in Hcalls1.
  rewrite Hpos in Hpos1. rewrite Hpre in Ht.
  assert (Hm : attempts_made maxLoginTries (auth_replies w) (auth_calls w) =
               match auth_replies w (auth_calls w) with
               | None => 1
               | Some _ => S (attempts_made 2 (auth_replies w) (S (auth_calls w)))
               end) by reflexivity.
  rewrite Hm, Hexit. clear Hm.
  destruct (auth_replies w (auth_calls w)) as [msg|] eqn:Hreply.
  - destruct (authenticate_later_attempts E prompts passPrompt passwordKeys Hp Hk
                2 1 maxLoginTries
                (fst (fst (Login.authenticate_body E prompts passwordKeys 0 v0 w3)))
                (snd (Login.authenticate_body E prompts passwordKeys 0 v0 w3)))
      as (credss & Hlen & Htr & Hpw);
      [reflexivity | unfold maxLoginTries; lia | exact Hflag1 |].
    exists pre, (cr :: credss). split; [|split; [exact Hall|split]].
    + rewrite Htr, Ht, imap_cons, <- !app_assoc. cbn [concat Nat.eqb negb].
      rewrite Nat.add_0_r, Hreply. do 4 f_equal.
      apply imap_ext. intros j x _. unfold compose. rewrite Hrep1, Hcalls1.
      replace (S (auth_calls w) + j) with (auth_calls w + S j) by lia.
      reflexivity.
    + cbn [length]. rewrite Hlen, Hrep1, Hcalls1. reflexivity.
    + intros [|j] cr' Hj; simpl in Hj.
      * injection Hj as <-. exact Hcr.
      * rewrite (Hpw j cr' Hj), Hin1, Hpos1. do 2 f_equal. lia.
  - rewrite for_iter_Exited. cbn beta iota delta [fst snd].
    exists pre, [cr]. split; [|split; [exact Hall|split]].
    + rewrite Ht. cbn. rewrite Nat.add_0_r, Hreply, app_nil_r.
      now rewrite <- app_assoc.
    + reflexivity.
    + intros [|j] cr' Hj; simpl in Hj; [|now rewrite lookup_nil in Hj].
      injection Hj as <-. exact Hcr.
Qed.

(** The flag value ["s3cret"] is sent by the first of two attempts. *)
Lemma password_flag_used_on_first_attempt_only_witness :
  let E := sampleEnv None None sampleCatalog [] in
  let c := mkFlagContext "" "alice" "s3cret" "" "" false None false in
  let w := sampleWorld (sampleStore "https://api.example.com"
                          "https://login.example.com" false [])
             ["000000"; "typed"; "111111"] [Some "Credentials were rejected"; None] in
  exists credss : list (gmap string string),
    length credss = 2 /\
    forall cr, credss !! 0 = Some cr -> cr !! "password" = Some "s3cret".
Proof.
  intros E c w.
  destruct (password_flag_used_on_first_attempt_only E c w
              (mkAuthPrompt AuthPromptTypePassword "Password"))
    as (pre & credss & _ & _ & Hlen & Hpw).
  - discriminate.
  - reflexivity.
  - reflexivity.
  - discriminate.
  - exists credss. split; [exact Hlen|].
    intros cr Hcr. exact (Hpw 0 cr Hcr).
Defined.

(** The attempts of the SSO flow after the first: each asks for the
    passcode and sends the answer, alone. *)
Lemma authenticateSSO_later_attempts (E : Env) (c : FlagContext)
    (passcode : AuthPrompt) :
  forall r i n st w,
    maxLoginTries = i + r -> r < n -> 1 <= i ->
    (exists b, fst st = {["passcode" := b]}) ->
    let res := for_iter (Login.authenticateSSO_body E c passcode)
                 maxLoginTries n (Running i st) w in
    let m := attempts_made r (auth_replies w) (auth_calls w) in
    trace (snd res) =
    trace w ++
    concat (map (fun j =>
                   passcode_attempt E (DisplayName passcode) true
                     (ui_in w (ui_pos w + j))
                     (auth_replies w (auth_calls w + j)))
              (seq 0 m)) /\
    ui_pos (snd res) = ui_pos w + m /\
    snd (for_vars (fst res)) =
    match m with
    | O => snd st
    | S m' => auth_replies w (auth_calls w + m')
    end.
Proof.
  assert (Hins : forall a b : string,
            <["passcode" := a]> ({["passcode" := b]} : gmap string string) =
            {["passcode" := a]}).
  { intros a b. apply map_eq. intros k.
    destruct (decide (k = "passcode")) as [->|Hk].
    - now rewrite lookup_insert_eq, lookup_singleton_eq.
    - now rewrite lookup_insert_ne, !lookup_singleton_ne by congruence. }
  intros r. induction r as [|r IH]; intros i n st w Hb Hn Hi Hst; cbv zeta.
  - destruct n as [|n]; [lia|].
    rewrite for_iter_S, for_step_done by lia.
    cbn beta iota delta [fst snd]. rewrite for_iter_Exited.
    simpl. rewrite app_nil_r. repeat split. lia.
  - destruct n as [|n]; [lia|].
    rewrite for_iter_S, for_step_Running by lia.
    cbn beta iota delta [fst snd].
    pose proof (authenticateSSO_body_eq E c passcode i st w) as Heq.
    cbv zeta in Heq.
    assert (Hasked : negb (IsSet_sso_passcode c && (i =? 0)%nat) = true).
    { destruct i; [lia|]. simpl. now rewrite andb_false_r. }
    rewrite Hasked in Heq. destruct Hst as [b Hb']. rewrite Hb', Hins in Heq.
    rewrite Heq. clear Heq. cbn [attempts_made].
    destruct (auth_replies w (auth_calls w)) as [msg|] eqn:Hreply;
      cbn beta iota delta [fst snd].
    + destruct (IH (S i) n ({["passcode" := ui_in w (ui_pos w)]}, Some msg)
                  (advance [EvSay msg []] 0
                     (next_auth
                        (log (EvAuthenticate {["passcode" := ui_in w (ui_pos w)]})
                           (advance [EvSay (T E "Authenticating..." []) []] 0
                              (advance [EvAskForPassword (DisplayName passcode)] 1 w))))))
        as (Htr & Hpos & Herr); [lia | lia | lia | eexists; reflexivity |].
      cbv zeta in Htr, Hpos, Herr.
      rewrite Htr, Hpos, Herr. clear Htr Hpos Herr.
      cbn [auth_replies auth_calls ui_in ui_pos trace advance next_auth log].
      split; [|split].
      * cbn [seq]. rewrite <- List.seq_shift. cbn [map concat]. rewrite List.map_map.
        rewrite !Nat.add_0_r, Hreply.
        rewrite (List.map_ext _
                   (fun j => passcode_attempt E (DisplayName passcode) true
                               (ui_in w (ui_pos w + S j))
                               (auth_replies w (auth_calls w + S j)))).
        -- unfold passcode_attempt at 2. rewrite <- !app_assoc. reflexivity.
        -- intros j. f_equal; f_equal; lia.
      * lia.
      * destruct (attempts_made r (auth_replies w) (S (auth_calls w))) as [|m'].
        -- simpl. now rewrite Nat.add_0_r, Hreply.
        -- f_equal. lia.
    + rewrite for_iter_Exited. cbn beta iota delta [fst snd for_vars].
      simpl. rewrite !Nat.add_0_r, Hreply. unfold passcode_attempt. simpl.
      rewrite <- !app_assoc. repeat split; try lia.
Qed.

(** X12: in the SSO flow with a passcode given on the command line, for
    any answers of the authenticator.  The first attempt asks nothing and
    sends the passcode of the command line; every later attempt, as many
    as the answers call for, asks for the passcode as a secret, under the
    label of the catalog or, when the catalog has none, under the label
    that points to the passcode page of the authentication endpoint, and
    sends the answer typed at that prompt.  Nothing else is asked, and the
    flow succeeds exactly when its last attempt is accepted. *)
Theorem authenticateSSO_passcode_flag (E : Env) (c : FlagContext) (w : World)
    (code : string) :
  snd (snd (GetLoginPromptsAndSaveUAAServerURL E (cfg w))) = None ->
  flag_sso_passcode c = Some code ->
  let label :=
    passcode_label E (fst (snd (GetLoginPromptsAndSaveUAAServerURL E (cfg w))))
      (fst (GetLoginPromptsAndSaveUAAServerURL E (cfg w))) in
  let attempts := attempts_made maxLoginTries (auth_replies w) (auth_calls w) in
  trace (snd (Login.authenticateSSO E c w)) =
  trace w ++ [EvGetLoginPrompts] ++
  concat (map (fun j =>
                 passcode_attempt E label (negb (Nat.eqb j 0))
                   match j with
                   | O => code
                   | S j' => ui_in w (ui_pos w + j')
                   end
                   (auth_replies w (auth_calls w + j)))
            (seq 0 attempts)) /\
  ui_pos (snd (Login.authenticateSSO E c w)) = ui_pos w + (attempts - 1) /\
  fst (Login.authenticateSSO E c w) =
  match auth_replies w (auth_calls w + (attempts - 1)) with
  | None => None
  | Some _ => Some (T E "Unable to authenticate." [])
  end.
Proof.
  intros Hp Hcode label attempts.
  pose proof (authenticateSSO_eq E c w Hp) as Heq. cbv zeta in Heq.
  destruct (GetLoginPrompts_world E w) as (Ht & Hin & Hpos & Hrep & Hcalls & Hcfg).
  rewrite Hcfg in Heq.
  set (w1 := snd (authenticator_GetLoginPrompts E w)) in *. clearbody w1.
  set (prompts := fst (snd (GetLoginPromptsAndSaveUAAServerURL E (cfg w)))) in *.
  assert (Hlabel : DisplayName
            (if DisplayName (index_prompts prompts "passcode") =? ""
             then mkAuthPrompt AuthPromptTypePassword
                    (T E "Temporary Authentication Code ( Get one at {{.AuthenticationEndpoint}}/passcode )"
                       [("AuthenticationEndpoint",
                         Config.AuthenticationEndpoint
                           (fst (GetLoginPromptsAndSaveUAAServerURL E (cfg w))))])
             else index_prompts prompts "passcode") = label).
  { unfold label, passcode_label. fold prompts. now destruct (_ =? _). }
  set (passcode := if DisplayName (index_prompts prompts "passcode") =? ""
                   then _ else _) in *.
  clearbody passcode. clearbody label.
  assert (Hset : IsSet_sso_passcode c = true)
    by (unfold IsSet_sso_passcode; now rewrite Hcode).
  assert (Hstr : String_sso_passcode c = code)
    by (unfold String_sso_passcode; now rewrite Hcode).
  rewrite Heq, for_loop_eq. clear Heq. cbn beta iota delta [fst snd].
  rewrite for_iter_S, for_step_Running by (unfold maxLoginTries; lia).
  rewrite authenticateSSO_body_eq. cbv zeta.
  rewrite Hset, Hstr, Hrep, Hcalls. cbn beta iota delta [Nat.eqb andb negb fst snd].
  rewrite insert_empty.
  assert (Hm : attempts =
               match auth_replies w (auth_calls w) with
               | None => 1
               | Some _ => S (attempts_made 2 (auth_replies w) (S (auth_calls w)))
               end) by reflexivity.
  rewrite Hm. clear Hm. clearbody attempts.
  destruct (auth_replies w (auth_calls w)) as [msg|] eqn:Hreply;
    cbn beta iota delta [fst snd].
  - destruct (authenticateSSO_later_attempts E c passcode 2 1 maxLoginTries
                ({["passcode" := code]}, Some msg)
                (advance [EvSay msg []] 0
                   (next_auth
                      (log (EvAuthenticate {["passcode" := code]})
                         (advance [EvSay (T E "Authenticating..." []) []] 0 w1)))))
      as (Htr & Hpos' & Herr);
      [reflexivity | unfold maxLoginTries; lia | lia | eexists; reflexivity |].
    cbv zeta in Htr, Hpos', Herr.
    rewrite Htr, Hpos', Herr. clear Htr Hpos' Herr.
    cbn [auth_replies auth_calls ui_in ui_pos trace advance next_auth log].
    rewrite Ht, Hin, Hpos, Hrep, Hcalls, Hlabel.
    split; [|split].
    + cbn [seq]. rewrite <- List.seq_shift. cbn [map concat]. rewrite List.map_map.
      cbn [Nat.eqb negb].
      rewrite !Nat.add_0_r, Hreply.
      rewrite (List.map_ext _
                 (fun j => passcode_attempt E label true
                             (ui_in w (ui_pos w + j))
                             (auth_replies w (auth_calls w + S j)))).
      * unfold passcode_attempt at 2. rewrite <- !app_assoc. reflexivity.
      * intros j. f_equal; f_equal; lia.
    + lia.
    + destruct (attempts_made 2 (auth_replies w) (S (auth_calls w))) as [|m'].
      * simpl. now rewrite Nat.add_0_r, Hreply.
      * replace (auth_calls w + (S (S m') - 1)) with (S (auth_calls w) + m') by lia.
        reflexivity.
  - rewrite for_iter_Exited. cbn beta iota delta [fst snd for_vars].
    simpl. rewrite !Nat.add_0_r, Hreply, Ht, Hpos. unfold passcode_attempt. simpl.
    rewrite <- !app_assoc. repeat split; try lia.
Qed.

(** A passcode of the command line rejected once: the second attempt asks
    and the flow makes no third. *)
Lemma authenticateSSO_passcode_flag_witness :
  ui_pos (snd (Login.authenticateSSO (sampleEnv None None sampleCatalog [])
                 (mkFlagContext "" "" "" "" "" false (Some "123456") false)
                 (sampleWorld (sampleStore "https://api.example.com"
                                 "https://login.example.com" false [])
                    ["654321"] [Some "Credentials were rejected"; None]))) = 1 /\
  fst (Login.authenticateSSO (sampleEnv None None sampleCatalog [])
         (mkFlagContext "" "" "" "" "" false (Some "123456") false)
         (sampleWorld (sampleStore "https://api.example.com"
                         "https://login.example.com" false [])
            ["654321"] [Some "Credentials were rejected"; None])) = None.
Proof.
  destruct (authenticateSSO_passcode_flag (sampleEnv None None sampleCatalog [])
              (mkFlagContext "" "" "" "" "" false (Some "123456") false)
              (sampleWorld (sampleStore "https://api.example.com"
                              "https://login.example.com" false [])
                 ["654321"] [Some "Credentials were rejected"; None])
              "123456" eq_refl eq_refl) as (_ & Hpos & Hres).
  split; [exact Hpos | exact Hres].
Defined.

(** ** Targeting: the store *)

Lemma retargeted_refl (c : Config.t) : retargeted c c.
Proof. now destruct c. Qed.

Lemma retargeted_org (c c' : Config.t) (o : models.OrganizationFields) :
  retargeted c c' -> retargeted c (Config.SetOrganizationFields o c').
Proof. unfold retargeted. intros ->. now destruct c. Qed.

Lemma retargeted_space (c c' : Config.t) (s : models.SpaceFields) :
  retargeted c c' -> retargeted c (Config.SetSpaceFields s c').
Proof. unfold retargeted. intros ->. now destruct c. Qed.

Lemma retargeted_InstanceData (c c' : Config.t) :
  retargeted c c' -> Config.InstanceData c' = Config.InstanceData c.
Proof. unfold retargeted. intros ->. reflexivity. Qed.

(** The menu only talks to the terminal. *)
Lemma promptForName_loop_world (E : Env) (names : list string)
    (listPrompt itemPrompt : string) (fuel : nat) :
  forall (nameIndex : Z) (w : World),
    exists es k,
      snd (Login.promptForName_loop E fuel names listPrompt itemPrompt nameIndex w) =
      advance es k w.
Proof.
  induction fuel as [|fuel IH]; intros nameIndex w.
  - exists [], 0. simpl. destruct (_ || _); simpl; now rewrite advance_nil.
  - destruct (Z.ltb_spec nameIndex 1) as [H1|H1];
      [|destruct (Z.ltb_spec (Z.of_nat (length names)) nameIndex) as [H2|H2]].
    + rewrite promptForName_loop_turn by (now left). cbv zeta.
      destruct (_ =? ""); [eauto|]. destruct (Atoi _) as [n|]; [|eauto].
      destruct (IH n (advance (menu_events E names listPrompt itemPrompt) 1 w))
        as (es & k & Hr).
      rewrite Hr, advance_advance. eauto.
    + rewrite promptForName_loop_turn by (now right). cbv zeta.
      destruct (_ =? ""); [eauto|]. destruct (Atoi _) as [n|]; [|eauto].
      destruct (IH n (advance (menu_events E names listPrompt itemPrompt) 1 w))
        as (es & k & Hr).
      rewrite Hr, advance_advance. eauto.
    + rewrite promptForName_loop_done by lia. exists [], 0. simpl.
      now rewrite advance_nil.
Qed.

Lemma setOrganization_find_eq (E : Env) (orgName : string) (w : World) :
  Login.setOrganization_find E orgName w =
  match snd (FindOrgByName E orgName (cfg w)) with
  | Some e =>
      (Returned
         (false,
          Some (T E ("Error finding org {{.OrgName}}" +:+ Login.LF +:+ "{{.Err}}")
                  [("OrgName", EntityNameColor E orgName); ("Err", e)])),
       log (EvFindOrgByName orgName) w)
  | None =>
      (Returned (true, None),
       log (EvSay (T E ("Targeted org {{.OrgName}}" +:+ Login.LF)
                     [("OrgName",
                       EntityNameColor E
                         (models.Organization_Name
                            (fst (FindOrgByName E orgName (cfg w)))))]) [])
         (set_cfg
            (Config.SetOrganizationFields
               (models.Organization_Fields (fst (FindOrgByName E orgName (cfg w)))))
            (log (EvFindOrgByName orgName) w)))
  end.
Proof.
  unfold Login.setOrganization_find. run_bind. unfold orgRepo_FindByName.
  cbn beta iota delta [fst snd].
  destruct (snd (FindOrgByName E orgName (cfg w))); [reflexivity|].
  now run_bind.
Qed.

Lemma setSpace_find_eq (E : Env) (spaceName : string) (w : World) :
  Login.setSpace_find E spaceName w =
  match snd (FindSpaceByName E spaceName (cfg w)) with
  | Some e =>
      (Returned
         (Some (T E ("Error finding space {{.SpaceName}}" +:+ Login.LF +:+ "{{.Err}}")
                  [("SpaceName", EntityNameColor E spaceName); ("Err", e)])),
       log (EvFindSpaceByName spaceName) w)
  | None =>
      (Returned None,
       log (EvSay (T E ("Targeted space {{.SpaceName}}" +:+ Login.LF)
                     [("SpaceName",
                       EntityNameColor E
                         (models.Space_Name
                            (fst (FindSpaceByName E spaceName (cfg w)))))]) [])
         (set_cfg
            (Config.SetSpaceFields
               (models.Space_Fields (fst (FindSpaceByName E spaceName (cfg w)))))
            (log (EvFindSpaceByName spaceName) w)))
  end.
Proof.
  unfold Login.setSpace_find. run_bind. unfold spaceRepo_FindByName.
  cbn beta iota delta [fst snd].
  destruct (snd (FindSpaceByName E spaceName (cfg w))); [reflexivity|].
  now run_bind.
Qed.

(** What [setOrganization] does to the store, in every case. *)
Lemma setOrganization_store (E : Env) (fuel : nat) (c : FlagContext) (w : World) :
  auth_calls (snd (Login.setOrganization E fuel c w)) = auth_calls w /\
  match fst (Login.setOrganization E fuel c w) with
  | Returned (true, None) =>
      exists org,
        cfg (snd (Login.setOrganization E fuel c w)) =
        Config.SetOrganizationFields (models.Organization_Fields org) (cfg w)
  | Returned (true, Some _) => False
  | _ => cfg (snd (Login.setOrganization E fuel c w)) = cfg w
  end.
Proof.
  assert (Hfind : forall name w',
            auth_calls w' = auth_calls w -> cfg w' = cfg w ->
            auth_calls (snd (Login.setOrganization_find E name w')) = auth_calls w /\
            match fst (Login.setOrganization_find E name w') with
            | Returned (true, None) =>
                exists org,
                  cfg (snd (Login.setOrganization_find E name w')) =
                  Config.SetOrganizationFields (models.Organization_Fields org) (cfg w)
            | Returned (true, Some _) => False
            | _ => cfg (snd (Login.setOrganization_find E name w')) = cfg w
            end).
  { intros name w' Ha Hc. rewrite setOrganization_find_eq.
    destruct (snd (FindOrgByName E name (cfg w'))); simpl.
    - now split.
    - split; [assumption|]. rewrite Hc. eauto. }
  unfold Login.setOrganization.
  destruct (flag_o c =? ""); [|now apply Hfind].
  run_bind. unfold orgRepo_ListOrgs. cbn beta iota delta [fst snd].
  destruct (snd (ListOrgs E maxChoices (cfg w))); [now split|].
  destruct (fst (ListOrgs E maxChoices (cfg w))) as [|o1 [|o2 rest]].
  - now split.
  - run_bind. simpl. split; [reflexivity|]. eauto.
  - run_bind. unfold Login.promptForOrgName, Login.promptForName.
    destruct (promptForName_loop_world E
                (map models.Organization_Name (o1 :: o2 :: rest))
                (T E "Select an org (or press enter to skip):" []) "Org" fuel 0%Z
                (log (EvListOrgs maxChoices) w)) as (es & k & Hw).
    destruct (Login.promptForName_loop E fuel _ _ "Org" 0%Z _) as [[orgName|] w'].
    + cbn beta iota delta [fst snd] in *. subst w'.
      destruct (orgName =? "").
      * run_bind. now split.
      * now apply Hfind.
    + cbn beta iota delta [fst snd] in *. subst w'. now split.
Qed.

(** X13: an organization named with [-o] is looked up by that name and
    nothing else is done: no listing, no question.  When the lookup fails,
    [setOrganization] returns false and an error that carries the name and
    the cause, and the store is as before; when it succeeds, the
    organization found is the target.  When no organization is named and
    the listing fails, it returns false and an error that wraps the cause,
    asks nothing and leaves the store as it was. *)
Theorem setOrganization_errors (E : Env) (fuel : nat) (c : FlagContext)
    (w : World) :
  (flag_o c <> "" ->
   (forall e, snd (FindOrgByName E (flag_o c) (cfg w)) = Some e ->
      Login.setOrganization E fuel c w =
      (Returned
         (false,
          Some (T E ("Error finding org {{.OrgName}}" +:+ Login.LF +:+ "{{.Err}}")
                  [("OrgName", EntityNameColor E (flag_o c)); ("Err", e)])),
       log (EvFindOrgByName (flag_o c)) w)) /\
   (snd (FindOrgByName E (flag_o c) (cfg w)) = None ->
    fst (Login.setOrganization E fuel c w) = Returned (true, None) /\
    cfg (snd (Login.setOrganization E fuel c w)) =
    Config.SetOrganizationFields
      (models.Organization_Fields (fst (FindOrgByName E (flag_o c) (cfg w))))
      (cfg w) /\
    count_events is_prompt (trace (snd (Login.setOrganization E fuel c w))) =
    count_events is_prompt (trace w) /\
    count_events is_repository_call (trace (snd (Login.setOrganization E fuel c w))) =
    S (count_events is_repository_call (trace w)))) /\
  (flag_o c = "" ->
   forall e, snd (ListOrgs E maxChoices (cfg w)) = Some e ->
     Login.setOrganization E fuel c w =
     (Returned
        (false,
         Some (T E ("Error finding available orgs" +:+ Login.LF +:+ "{{.APIErr}}")
                 [("APIErr", e)])),
      log (EvListOrgs maxChoices) w)).
Proof.
  split.
  - intros Ho. unfold Login.setOrganization.
    apply String.eqb_neq in Ho. rewrite Ho. rewrite setOrganization_find_eq.
    split.
    + intros e He. now rewrite He.
    + intros He. rewrite He. simpl. rewrite !count_events_app. simpl.
      repeat split; lia.
  - intros Ho e He. unfold Login.setOrganization. rewrite Ho.
    change ("" =? "") with true. cbv iota.
    run_bind. unfold orgRepo_ListOrgs. cbn beta iota delta [fst snd].
    now rewrite He.
Qed.

Lemma setOrganization_errors_witness :
  fst (Login.setOrganization (sampleEnv None None sampleCatalog []) 0
         (mkFlagContext "" "" "" "org1" "" false None false)
         (sampleWorld (sampleStore "https://api.example.com"
                         "https://login.example.com" false []) [] [])) =
  Returned (true, None).
Proof.
  destruct (setOrganization_errors (sampleEnv None None sampleCatalog []) 0
              (mkFlagContext "" "" "" "org1" "" false None false)
              (sampleWorld (sampleStore "https://api.example.com"
                              "https://login.example.com" false []) [] []))
    as (Hnamed & _).
  destruct Hnamed as (_ & Hfound); [discriminate|].
  now destruct (Hfound eq_refl).
Defined.


(** ** The space stage *)

Lemma ListSpaces_callback_take (spaces : list models.Space) :
  forall availableSpaces,
    length availableSpaces < maxChoices ->
    ListSpaces_callback spaces availableSpaces =
    availableSpaces ++ take (maxChoices - length availableSpaces) spaces.
Proof.
  induction spaces as [|space rest IH]; intros acc Hacc.
  - simpl. now rewrite take_nil, app_nil_r.
  - cbn [ListSpaces_callback].
    destruct (Nat.ltb_spec (length (acc ++ [space])) maxChoices) as [Hlt|Hge].
    + rewrite IH by assumption. rewrite length_app in *. simpl in *.
      replace (maxChoices - length acc) with (S (maxChoices - (length acc + 1))) by lia.
      simpl. now rewrite <- app_assoc.
    + rewrite length_app in Hge. simpl in Hge.
      replace (maxChoices - length acc) with 1 by lia.
      simpl. now rewrite take_0.
Qed.

Lemma ListSpaces_callback_keeps_first_50_aux (spaces : list models.Space) :
  ListSpaces_callback spaces [] = take maxChoices spaces /\
  length (ListSpaces_callback spaces []) = Nat.min maxChoices (length spaces).
Proof.
  rewrite (ListSpaces_callback_take spaces [])
    by (cbn [length]; unfold maxChoices; lia).
  cbn [length app]. rewrite Nat.sub_0_r. split; [reflexivity|]. apply length_take.
Qed.

(** X15: the callback [setSpace] hands to [ListSpaces] keeps the first
    [maxChoices] spaces it is given, in order, and no more; with fewer
    spaces it keeps them all. *)
Theorem ListSpaces_callback_keeps_first_50 (spaces : list models.Space) :
  ListSpaces_callback spaces [] = take maxChoices spaces /\
  length (ListSpaces_callback spaces []) = Nat.min maxChoices (length spaces).
Proof. exact (ListSpaces_callback_keeps_first_50_aux spaces). Qed.

Lemma spaceRepo_ListSpaces_eq (E : Env) (w : World) :
  spaceRepo_ListSpaces E w =
  ((take maxChoices (fst (ListSpaces E (cfg w))), snd (ListSpaces E (cfg w))),
   log EvListSpaces w).
Proof.
  unfold spaceRepo_ListSpaces. destruct (ListSpaces E (cfg w)) as [spaces e].
  simpl. now rewrite (proj1 (ListSpaces_callback_keeps_first_50_aux spaces)).
Qed.

(** [setSpace] when no space is named and more than one is listed. *)
Lemma setSpace_menu (E : Env) (fuel : nat) (c : FlagContext) (w : World)
    (spaces : list models.Space) :
  flag_s c = "" ->
  ListSpaces E (cfg w) = (spaces, None) ->
  2 <= length spaces ->
  Login.setSpace E fuel c w =
  let r := Login.promptForName E fuel
             (map models.Space_Name (take maxChoices spaces))
             (T E "Select a space (or press enter to skip):" []) "Space"
             (log EvListSpaces w) in
  match fst r with
  | Diverging => (Diverging, snd r)
  | Returned spaceName =>
      if spaceName =? ""
      then (Returned None, advance [EvSay "" []] 0 (snd r))
      else Login.setSpace_find E spaceName (snd r)
  end.
Proof.
  intros Hs Hl Hn. unfold Login.setSpace. rewrite Hs.
  change ("" =? "") with true. cbv iota.
  run_bind. rewrite spaceRepo_ListSpaces_eq, Hl. cbn beta iota delta [fst snd].
  destruct spaces as [|s1 [|s2 rest]]; [simpl in Hn; lia | simpl in Hn; lia|].
  change (take maxChoices (s1 :: s2 :: rest))
    with (s1 :: s2 :: take (maxChoices - 2) rest).
  cbv iota. run_bind. unfold Login.promptForSpaceName. cbv zeta.
  destruct (fst (Login.promptForName E fuel _ _ "Space" _)) as [spaceName|];
    [|reflexivity].
  destruct (spaceName =? ""); [|reflexivity].
  run_bind. now rewrite Say_eq.
Qed.

(** X16: with no space named on the command line: no space listed, nothing
    is targeted and nothing asked; one space listed, it is targeted
    without a question; with more, the menu is shown over the spaces
    collected, numbered from 1 when fewer than 50 are listed, and with the
    instruction to type the name in place of the list as soon as 50 or
    more are (of which the first 50 were collected). *)
Theorem setSpace_by_count (E : Env) (fuel : nat) (c : FlagContext) (w : World)
    (spaces : list models.Space) :
  flag_s c = "" ->
  ListSpaces E (cfg w) = (spaces, None) ->
  let listPrompt := T E "Select a space (or press enter to skip):" [] in
  (spaces = [] ->
   Login.setSpace E fuel c w = (Returned None, log EvListSpaces w)) /\
  (forall space, spaces = [space] ->
   Login.setSpace E fuel c w =
   (Returned None,
    log (EvSay (T E ("Targeted space {{.SpaceName}}" +:+ Login.LF)
                  [("SpaceName", EntityNameColor E (models.Space_Name space))]) [])
      (set_cfg (Config.SetSpaceFields (models.Space_Fields space))
         (log EvListSpaces w)))) /\
  (2 <= length spaces < maxChoices ->
   exists rest,
     trace (snd (Login.setSpace E (S fuel) c w)) =
     trace w ++ [EvListSpaces] ++ [EvSay listPrompt []] ++
     numbered_lines 0 (map models.Space_Name spaces) ++ [EvAsk "Space"] ++ rest) /\
  (maxChoices <= length spaces ->
   exists rest,
     trace (snd (Login.setSpace E (S fuel) c w)) =
     trace w ++ [EvListSpaces] ++ [EvSay listPrompt []] ++
     [EvSay (T E "There are too many options to display, please type in the name." []) []] ++
     [EvAsk "Space"] ++ rest).
Proof.
  intros Hs Hl listPrompt.
  assert (Hmenu : 2 <= length spaces ->
            exists rest,
              trace (snd (Login.setSpace E (S fuel) c w)) =
              trace w ++ [EvListSpaces] ++
              menu_events E (map models.Space_Name (take maxChoices spaces))
                listPrompt "Space" ++ rest).
  { intros Hn. pose proof (setSpace_menu E (S fuel) c w spaces Hs Hl Hn) as Heq.
    cbv zeta in Heq. rewrite Heq. fold listPrompt.
    destruct (promptForName_first_turn E
                (map models.Space_Name (take maxChoices spaces)) listPrompt
                "Space" fuel (log EvListSpaces w)) as [rest Hr].
    destruct (fst (Login.promptForName E (S fuel) _ listPrompt "Space" _))
      as [spaceName|]; cbn beta iota delta [fst snd].
    - destruct (spaceName =? ""); cbn beta iota delta [fst snd].
      + exists (rest ++ [EvSay "" []]).
        rewrite trace_advance, Hr, trace_log. now rewrite <- !app_assoc.
      + rewrite setSpace_find_eq.
        destruct (snd (FindSpaceByName E spaceName _)); cbn beta iota delta [snd];
          rewrite ?trace_log; cbn [trace set_cfg]; rewrite ?trace_log, Hr, trace_log;
          rewrite <- !app_assoc; eauto.
    - exists rest. rewrite Hr, trace_log. now rewrite <- !app_assoc. }
  split; [|split; [|split]].
  - intros ->. unfold Login.setSpace. rewrite Hs.
    change ("" =? "") with true. cbv iota.
    run_bind. now rewrite spaceRepo_ListSpaces_eq, Hl.
  - intros space ->. unfold Login.setSpace. rewrite Hs.
    change ("" =? "") with true. cbv iota.
    run_bind. rewrite spaceRepo_ListSpaces_eq, Hl. cbn beta iota delta [fst snd].
    change (take maxChoices [space]) with [space]. cbv iota.
    run_bind. reflexivity.
  - intros [H2 H50]. destruct (Hmenu H2) as [rest Hr]. exists rest.
    rewrite Hr. rewrite take_ge by lia. unfold menu_events.
    rewrite length_map. apply Nat.ltb_lt in H50. rewrite H50.
    now rewrite <- !app_assoc.
  - intros H50. destruct Hmenu as [rest Hr]; [unfold maxChoices in H50; lia|].
    exists rest. rewrite Hr. unfold menu_events.
    rewrite length_map, length_take, Nat.min_l by assumption.
    rewrite Nat.ltb_irrefl. now rewrite <- !app_assoc.
Qed.

Lemma setSpace_by_count_witness :
  fst (Login.setSpace scenarioEnv 0 noFlags
         (sampleWorld (sampleStore "https://api.example.com"
                         "https://login.example.com" false []) [] [])) =
  Returned None.
Proof.
  destruct (setSpace_by_count scenarioEnv 0 noFlags
              (sampleWorld (sampleStore "https://api.example.com"
                              "https://login.example.com" false []) [] [])
              [models.mkSpace (models.mkSpaceFields "space1-guid" "space1")]
              eq_refl eq_refl) as (_ & Hone & _).
  now rewrite (Hone _ eq_refl).
Defined.

(** X17: a space named with [-s] is looked up by that name, with no
    listing and no question; a failed lookup gives an error that carries
    the name and the cause and leaves the store as it was, and so does a
    failed listing when no space is named. *)
Theorem setSpace_errors (E : Env) (fuel : nat) (c : FlagContext) (w : World) :
  (flag_s c <> "" ->
   (forall e, snd (FindSpaceByName E (flag_s c) (cfg w)) = Some e ->
      Login.setSpace E fuel c w =
      (Returned
         (Some (T E ("Error finding space {{.SpaceName}}" +:+ Login.LF +:+ "{{.Err}}")
                  [("SpaceName", EntityNameColor E (flag_s c)); ("Err", e)])),
       log (EvFindSpaceByName (flag_s c)) w)) /\
   (snd (FindSpaceByName E (flag_s c) (cfg w)) = None ->
    fst (Login.setSpace E fuel c w) = Returned None /\
    cfg (snd (Login.setSpace E fuel c w)) =
    Config.SetSpaceFields
      (models.Space_Fields (fst (FindSpaceByName E (flag_s c) (cfg w)))) (cfg w) /\
    count_events is_prompt (trace (snd (Login.setSpace E fuel c w))) =
    count_events is_prompt (trace w))) /\
  (flag_s c = "" ->
   forall e, snd (ListSpaces E (cfg w)) = Some e ->
     Login.setSpace E fuel c w =
     (Returned
        (Some (T E ("Error finding available spaces" +:+ Login.LF +:+ "{{.Err}}")
                 [("Err", e)])),
      log EvListSpaces w)).
Proof.
  split.
  - intros Hs. unfold Login.setSpace.
    apply String.eqb_neq in Hs. rewrite Hs. rewrite setSpace_find_eq. split.
    + intros e He. now rewrite He.
    + intros He. rewrite He. simpl. rewrite !count_events_app. simpl.
      repeat split; lia.
  - intros Hs e He. unfold Login.setSpace. rewrite Hs.
    change ("" =? "") with true. cbv iota.
    run_bind. rewrite spaceRepo_ListSpaces_eq. cbn beta iota delta [fst snd].
    now rewrite He.
Qed.

(** What [setSpace] does to the store, in every case. *)
Lemma setSpace_store (E : Env) (fuel : nat) (c : FlagContext) (w : World) :
  cfg (snd (Login.setSpace E fuel c w)) = cfg w \/
  (fst (Login.setSpace E fuel c w) = Returned None /\
   exists space,
     cfg (snd (Login.setSpace E fuel c w)) =
     Config.SetSpaceFields (models.Space_Fields space) (cfg w)).
Proof.
  assert (Hfind : forall name w', cfg w' = cfg w ->
            cfg (snd (Login.setSpace_find E name w')) = cfg w \/
            (fst (Login.setSpace_find E name w') = Returned None /\
             exists space,
               cfg (snd (Login.setSpace_find E name w')) =
               Config.SetSpaceFields (models.Space_Fields space) (cfg w))).
  { intros name w' Hc. rewrite setSpace_find_eq.
    destruct (snd (FindSpaceByName E name (cfg w'))); simpl.
    - now left.
    - right. split; [reflexivity|]. rewrite Hc. eauto. }
  unfold Login.setSpace.
  destruct (flag_s c =? ""); [|now apply Hfind].
  run_bind. rewrite spaceRepo_ListSpaces_eq. cbn beta iota delta [fst snd].
  destruct (snd (ListSpaces E (cfg w))); [now left|].
  destruct (take maxChoices (fst (ListSpaces E (cfg w)))) as [|s1 [|s2 rest]].
  - now left.
  - run_bind. right. split; [reflexivity|]. simpl. eauto.
  - run_bind. unfold Login.promptForSpaceName, Login.promptForName.
    destruct (promptForName_loop_world E
                (map models.Space_Name (s1 :: s2 :: rest))
                (T E "Select a space (or press enter to skip):" []) "Space" fuel 0%Z
                (log EvListSpaces w)) as (es & k & Hw).
    destruct (Login.promptForName_loop E fuel _ _ "Space" 0%Z _) as [[spaceName|] w'].
    + cbn beta iota delta [fst snd] in *. subst w'.
      destruct (spaceName =? "").
      * run_bind. now left.
      * now apply Hfind.
    + cbn beta iota delta [fst snd] in *. subst w'. now left.
Qed.

(** X18: the session list is written at the very end of a login that
    succeeded, and only then.  When the targeting stage of [Execute]
    returns nil, the store is the one left by targeting, passed through
    [updateMultiInstances]; when it returns an error, or the menu never
    gets an answer, the store differs from the one it started with at most
    in the targeted organization and space, and the session list is
    untouched. *)
Theorem Execute_target_session_list (E : Env) (fuel : nat) (c : FlagContext)
    (w : World) :
  match fst (Login.Execute_target E fuel c w) with
  | Returned None =>
      exists c',
        retargeted (cfg w) c' /\
        cfg (snd (Login.Execute_target E fuel c w)) =
        Login.updateMultiInstances_cfg c'
  | _ =>
      retargeted (cfg w) (cfg (snd (Login.Execute_target E fuel c w))) /\
      Config.InstanceData (cfg (snd (Login.Execute_target E fuel c w))) =
      Config.InstanceData (cfg w)
  end.
Proof.
  assert (Hkeep : forall c', retargeted (cfg w) c' ->
            retargeted (cfg w) c' /\
            Config.InstanceData c' = Config.InstanceData (cfg w)).
  { intros c' Hc'. split; [assumption | now apply retargeted_InstanceData]. }
  assert (Hdone : forall w', retargeted (cfg w) (cfg w') ->
            exists c',
              retargeted (cfg w) c' /\
              cfg (snd ((NotifyUpdateIfNeeded ;;; Login.updateMultiInstances ;;;
                         ret (Returned (@None string))) w')) =
              Login.updateMultiInstances_cfg c').
  { intros w' Hw'. exists (cfg w'). split; [assumption|].
    run_bind. run_bind. reflexivity. }
  unfold Login.Execute_target. run_bind.
  destruct (setOrganization_store E fuel c w) as (_ & Horg).
  destruct (Login.setOrganization E fuel c w) as [[[orgIsSet [e|]]|] w1];
    cbn beta iota delta [fst snd ret] in *.
  - destruct orgIsSet; [contradiction|]. apply Hkeep. rewrite Horg.
    apply retargeted_refl.
  - assert (Hw1 : retargeted (cfg w) (cfg w1)).
    { destruct orgIsSet.
      - destruct Horg as [org ->]. apply retargeted_org, retargeted_refl.
      - rewrite Horg. apply retargeted_refl. }
    run_bind.
    assert (Hsp : forall r : Outcome (option string) * World,
              retargeted (cfg w) (cfg (snd r)) ->
              match fst (match fst r with
                         | Returned (Some e) => ret (Returned (Some e))
                         | Returned None =>
                             NotifyUpdateIfNeeded ;;; Login.updateMultiInstances ;;;
                             ret (Returned None)
                         | Diverging => ret Diverging
                         end (snd r)) with
              | Returned None =>
                  exists c',
                    retargeted (cfg w) c' /\
                    cfg (snd (match fst r with
                              | Returned (Some e) => ret (Returned (Some e))
                              | Returned None =>
                                  NotifyUpdateIfNeeded ;;; Login.updateMultiInstances ;;;
                                  ret (Returned None)
                              | Diverging => ret Diverging
                              end (snd r))) = Login.updateMultiInstances_cfg c'
              | _ =>
                  retargeted (cfg w)
                    (cfg (snd (match fst r with
                               | Returned (Some e) => ret (Returned (Some e))
                               | Returned None =>
                                   NotifyUpdateIfNeeded ;;; Login.updateMultiInstances ;;;
                                   ret (Returned None)
                               | Diverging => ret Diverging
                               end (snd r)))) /\
                  Config.InstanceData
                    (cfg (snd (match fst r with
                               | Returned (Some e) => ret (Returned (Some e))
                               | Returned None =>
                                   NotifyUpdateIfNeeded ;;; Login.updateMultiInstances ;;;
                                   ret (Returned None)
                               | Diverging => ret Diverging
                               end (snd r)))) = Config.InstanceData (cfg w)
              end).
    { intros [[[e'|]|] w2] Hw2; cbn beta iota delta [fst snd ret] in *.
      - now apply Hkeep.
      - replace (fst ((NotifyUpdateIfNeeded ;;; Login.updateMultiInstances ;;;
                       ret (Returned (@None string))) w2))
          with (Returned (@None string)) by (run_bind; run_bind; reflexivity).
        now apply Hdone.
      - now apply Hkeep. }
    apply Hsp.
    destruct orgIsSet.
    + destruct (setSpace_store E fuel c w1) as [Hs|(_ & space & Hs)]; rewrite Hs.
      * assumption.
      * now apply retargeted_space.
    + assumption.
  - apply Hkeep. rewrite Horg. apply retargeted_refl.
Qed.

(** ** [Execute] and the deferred display *)

(** X19: an error of the API stage (targeting the endpoint, or the check
    of the API version other than "minimum not met") is returned as it is
    and nothing more is done; past that stage, every return of [Execute],
    with or without error, is followed by an empty line and the display of
    the configuration, which are the last two things it does. *)
Theorem Execute_shows_configuration_on_return (E : Env) (fuel : nat)
    (c : FlagContext) (w : World) :
  let es := Login.decideEndpoint E c (snd (Login.config_ClearSession E w)) in
  let a := Login.api_setAPIEndpoint E (fst (fst es)) (snd (fst es)) "login"
             (snd es) in
  match fst a with
  | Some e => Login.Execute E fuel c w = (Returned (Some e), snd a)
  | None =>
      match MinimumCCAPIVersionCheck E (Config.APIVersion (cfg (snd a)))
              (MinSupportedV2ClientVersion E) with
      | VersionCheckError msg =>
          Login.Execute E fuel c w = (Returned (Some msg), snd a)
      | _ =>
          forall x, fst (Login.Execute E fuel c w) = Returned x ->
            exists tr,
              trace (snd (Login.Execute E fuel c w)) =
              tr ++ [EvSay "" []; EvShowConfiguration]
      end
  end.
Proof.
  intros es a. unfold Login.Execute.
  run_bind. run_bind. fold es. run_bind. fold a.
  destruct (fst a) as [e|]; [reflexivity|].
  run_bind. unfold Login.command_MinimumCCAPIVersionCheck.
  cbn beta iota delta [fst snd].
  destruct (MinimumCCAPIVersionCheck E (Config.APIVersion (cfg (snd a)))
              (MinSupportedV2ClientVersion E)) as [| |msg]; [| |reflexivity].
  - run_bind. run_bind.
    destruct ((a0 <- Login.Execute_switch E c;;
               match a0 with
               | Some e => ret (Returned (Some e))
               | None => Login.Execute_target E fuel c
               end) (snd (ret tt (snd a)))) as [[y|] w'];
      cbn beta iota delta [fst snd]; intros x Hx.
    + run_bind. unfold Login.Execute_deferred. run_bind. rewrite Say_eq.
      run_bind. unfold ui_ShowConfiguration, ret. cbn beta iota delta [fst snd].
      rewrite trace_log, trace_advance, <- app_assoc. eauto.
    + discriminate Hx.
  - run_bind. run_bind.
    destruct ((a0 <- Login.Execute_switch E c;;
               match a0 with
               | Some e => ret (Returned (Some e))
               | None => Login.Execute_target E fuel c
               end) (snd (Warn _ (snd a)))) as [[y|] w'];
      cbn beta iota delta [fst snd]; intros x Hx.
    + run_bind. unfold Login.Execute_deferred. run_bind. rewrite Say_eq.
      run_bind. unfold ui_ShowConfiguration, ret. cbn beta iota delta [fst snd].
      rewrite trace_log, trace_advance, <- app_assoc. eauto.
    + discriminate Hx.
Qed.

(** ** The menu without an answer *)

Lemma promptForName_loop_stubborn (E : Env) (names : list string)
    (listPrompt itemPrompt : string) (fuel : nat) :
  forall (w : World) (nameIndex : Z),
    (nameIndex < 1 \/ Z.of_nat (length names) < nameIndex)%Z ->
    (forall j, asks_again names (ui_in w (ui_pos w + j))) ->
    Login.promptForName_loop E fuel names listPrompt itemPrompt nameIndex w =
    (Diverging,
     advance (concat (repeat (menu_events E names listPrompt itemPrompt) fuel))
       fuel w).
Proof.
  induction fuel as [|fuel IH]; intros w nameIndex Hout Hagain.
  - cbn [Login.promptForName_loop repeat concat].
    assert (Hc : ((nameIndex <? 1) || (Z.of_nat (length names) <? nameIndex))%Z = true).
    { apply orb_true_iff. destruct Hout; [left|right]; now apply Z.ltb_lt. }
    rewrite Hc. unfold ret. now rewrite advance_nil.
  - rewrite promptForName_loop_turn by assumption. cbv zeta.
    destruct (Hagain 0) as (Hne & n & Hn & Hrange).
    rewrite Nat.add_0_r in Hne, Hn.
    apply String.eqb_neq in Hne. rewrite Hne, Hn.
    rewrite IH; [|assumption|].
    + rewrite advance_advance. reflexivity.
    + intros j. rewrite ui_in_advance, ui_pos_advance.
      replace (ui_pos w + 1 + j) with (ui_pos w + S j) by lia. apply Hagain.
Qed.

(** X20: the menu has no limit on the number of questions.  As long as the
    answers are numbers outside [1 .. length names], [promptForName] shows
    the menu and asks again: whatever the fuel, it has not returned when
    the fuel is used up, and it has asked as many questions as it had
    fuel. *)
Theorem promptForName_asks_without_limit (E : Env) (names : list string)
    (listPrompt itemPrompt : string) (fuel : nat) (w : World) :
  (forall j, asks_again names (ui_in w (ui_pos w + j))) ->
  Login.promptForName E fuel names listPrompt itemPrompt w =
  (Diverging,
   advance (concat (repeat (menu_events E names listPrompt itemPrompt) fuel))
     fuel w).
Proof.
  intros Hagain. unfold Login.promptForName.
  apply promptForName_loop_stubborn; [left; lia | assumption].
Qed.

Lemma promptForName_asks_without_limit_witness :
  fst (Login.promptForName (sampleEnv None None sampleCatalog []) 1000
         ["org1"; "org2"] "Select an org (or press enter to skip):" "Org"
         (stubbornWorld (sampleStore "https://api.example.com"
                           "https://login.example.com" false []))) = Diverging.
Proof.
  rewrite (promptForName_asks_without_limit (sampleEnv None None sampleCatalog [])
             ["org1"; "org2"] "Select an org (or press enter to skip):" "Org" 1000
             (stubbornWorld (sampleStore "https://api.example.com"
                               "https://login.example.com" false []))).
  - reflexivity.
  - intros j. split; [discriminate|]. exists 0%Z.
    split; [reflexivity | left; reflexivity].
Defined.

(** ** The session list, as the code keeps it *)

Lemma NoDup_keys_filter (p : CFInstanceData.t -> bool) (l : list CFInstanceData.t) :
  List.NoDup (instance_keys l) -> List.NoDup (instance_keys (List.filter p l)).
Proof.
  unfold instance_keys. induction l as [|i l IH]; intros Hnd; simpl.
  - constructor.
  - inversion Hnd as [|? ? Hnotin Hnd']; subst.
    destruct (p i); simpl; [|now apply IH].
    constructor; [|now apply IH].
    intros Hin. apply Hnotin. apply in_map_iff in Hin.
    destruct Hin as (j & Hj & Hin). apply filter_In in Hin.
    apply in_map_iff. exists j. tauto.
Qed.

(** X21: [updateMultiInstances] puts the session read from the store
    first, keeps after it, in their order, the old entries whose
    authorization endpoint is not the API endpoint of the store, and
    changes nothing else in the store; the list grows by one entry at
    most. *)
Theorem updateMultiInstances_result (c : Config.t) :
  Config.InstanceData (Login.updateMultiInstances_cfg c) =
  Login.currentInstance c ::
  List.filter
    (fun i => negb (CFInstanceData.AuthorizationEndpoint i =? Config.APIEndpoint c))
    (Config.InstanceData c) /\
  Config.SetInstanceData (Config.InstanceData c) (Login.updateMultiInstances_cfg c) = c /\
  length (Config.InstanceData (Login.updateMultiInstances_cfg c)) <=
  S (length (Config.InstanceData c)) /\
  Forall (fun i => CFInstanceData.AuthorizationEndpoint i <> Config.APIEndpoint c)
         (tl (Config.InstanceData (Login.updateMultiInstances_cfg c))).
Proof.
  rewrite updateMultiInstances_cfg_InstanceData.
  split; [reflexivity|]. split; [now destruct c|]. split.
  - simpl. apply le_n_S. apply filter_length_le.
  - simpl. apply List.Forall_forall. intros i Hi. apply filter_In in Hi.
    destruct Hi as [_ Hi]. apply negb_true_iff in Hi. now apply String.eqb_neq.
Qed.

(** X22: in a store whose API endpoint is also its authentication
    endpoint, [updateMultiInstances] keeps the keys of the session list
    distinct when they were, and running it again changes nothing. *)
Theorem updateMultiInstances_unique_keys (c : Config.t) :
  Config.APIEndpoint c = Config.AuthenticationEndpoint c ->
  (List.NoDup (instance_keys (Config.InstanceData c)) ->
   List.NoDup (instance_keys (Config.InstanceData (Login.updateMultiInstances_cfg c)))) /\
  Login.updateMultiInstances_cfg (Login.updateMultiInstances_cfg c) =
  Login.updateMultiInstances_cfg c.
Proof.
  intros Hapi. split.
  - intros Hnd. rewrite updateMultiInstances_cfg_InstanceData.
    unfold instance_keys. simpl. constructor.
    + intros Hin. apply in_map_iff in Hin. destruct Hin as (i & Hi & Hin).
      apply filter_In in Hin. destruct Hin as [_ Hne].
      apply negb_true_iff, String.eqb_neq in Hne. congruence.
    + now apply NoDup_keys_filter.
  - assert (Hl : Config.InstanceData
                   (Login.updateMultiInstances_cfg (Login.updateMultiInstances_cfg c)) =
                 Config.InstanceData (Login.updateMultiInstances_cfg c)).
    { rewrite (updateMultiInstances_cfg_InstanceData (Login.updateMultiInstances_cfg c)).
      rewrite updateMultiInstances_cfg_InstanceData.
      replace (Config.APIEndpoint (Login.updateMultiInstances_cfg c))
        with (Config.APIEndpoint c) by now destruct c.
      replace (Login.currentInstance (Login.updateMultiInstances_cfg c))
        with (Login.currentInstance c) by now destruct c.
      cbn [List.filter]. simpl CFInstanceData.AuthorizationEndpoint.
      rewrite Hapi, String.eqb_refl. cbn [negb]. f_equal.
      rewrite <- Hapi.
      induction (Config.InstanceData c) as [|i l IH]; [reflexivity|].
      cbn [List.filter].
      destruct (negb (CFInstanceData.AuthorizationEndpoint i =? Config.APIEndpoint c))
        eqn:Hi; [|exact IH].
      cbn [List.filter]. rewrite Hi. now f_equal. }
    destruct c; unfold Login.updateMultiInstances_cfg in *; simpl in *.
    unfold Config.SetInstanceData. simpl. f_equal. exact Hl.
Qed.

Lemma updateMultiInstances_unique_keys_witness :
  Login.updateMultiInstances_cfg
    (Login.updateMultiInstances_cfg
       (sampleStore "https://uaa.example.com" "https://uaa.example.com" false [])) =
  Login.updateMultiInstances_cfg
    (sampleStore "https://uaa.example.com" "https://uaa.example.com" false []).
Proof.
  apply (updateMultiInstances_unique_keys
           (sampleStore "https://uaa.example.com" "https://uaa.example.com" false [])
           eq_refl).
Defined.

(** * The test double [FakeCreateUserActor] *)

Lemma Invocations_read {User : Type} (fake : v7fakes.FakeCreateUserActor User) :
  v7fakes.Invocations fake = v7fakes.read (v7fakes.invocations fake).
Proof.
  unfold v7fakes.Invocations.
  apply (map_fold_weak_ind (fun r m => r = m)); [reflexivity|].
  intros i x m r _ ->. reflexivity.
Qed.

Lemma recorded_snoc (args : list (string * string * string))
    (a : string * string * string) :
  recorded (args ++ [a]) =
  <["CreateUser" :=
      default [] (recorded args !! "CreateUser") ++ [v7fakes.invocation_of a]]>
    (recorded args).
Proof.
  destruct args as [|b args].
  - simpl. rewrite lookup_empty. simpl. now rewrite insert_empty.
  - unfold recorded. cbn [app].
    rewrite lookup_singleton_eq. cbn [default].
    rewrite insert_singleton_eq. f_equal.
    change (b :: args ++ [a]) with ((b :: args) ++ [a]).
    now rewrite List.map_app.
Qed.

Lemma CreateUser_state {User : Type} (fake : v7fakes.FakeCreateUserActor User)
    (arg1 arg2 arg3 : string) :
  let fake' := snd (v7fakes.CreateUser arg1 arg2 arg3 fake) in
  v7fakes.CreateUserStub fake' = v7fakes.CreateUserStub fake /\
  v7fakes.createUserArgsForCall fake' =
  v7fakes.createUserArgsForCall fake ++ [(arg1, arg2, arg3)] /\
  v7fakes.createUserReturns fake' = v7fakes.createUserReturns fake /\
  v7fakes.createUserReturnsOnCall fake' = v7fakes.createUserReturnsOnCall fake.
Proof.
  unfold v7fakes.CreateUser. cbv zeta.
  cbn [v7fakes.recordInvocation v7fakes.CreateUserStub].
  destruct (v7fakes.CreateUserStub fake);
    [|destruct (v7fakes.read _ !! _)]; simpl; auto.
Qed.

Lemma CreateUser_invocations {User : Type}
    (fake : v7fakes.FakeCreateUserActor User) (arg1 arg2 arg3 : string) :
  v7fakes.read (v7fakes.invocations fake) =
  recorded (v7fakes.createUserArgsForCall fake) ->
  v7fakes.read (v7fakes.invocations (snd (v7fakes.CreateUser arg1 arg2 arg3 fake))) =
  recorded (v7fakes.createUserArgsForCall fake ++ [(arg1, arg2, arg3)]).
Proof.
  intros Hinv. rewrite recorded_snoc, <- Hinv.
  assert (Hrec :
    v7fakes.read (v7fakes.invocations (snd (v7fakes.CreateUser arg1 arg2 arg3 fake))) =
    v7fakes.read (v7fakes.invocations
      (v7fakes.recordInvocation "CreateUser" [arg1; arg2; arg3]
         (v7fakes.mkFake (v7fakes.CreateUserStub fake)
            (v7fakes.createUserArgsForCall fake ++ [(arg1, arg2, arg3)])
            (v7fakes.createUserReturns fake) (v7fakes.createUserReturnsOnCall fake)
            (v7fakes.invocations fake))))).
  { unfold v7fakes.CreateUser. cbv zeta.
    cbn [v7fakes.recordInvocation v7fakes.CreateUserStub].
    destruct (v7fakes.CreateUserStub fake); [|destruct (v7fakes.read _ !! _)];
      reflexivity. }
  rewrite Hrec. unfold v7fakes.recordInvocation. cbn.
  change (match v7fakes.invocations fake with
          | Some m => m
          | None => ∅
          end) with (v7fakes.read (v7fakes.invocations fake)).
  destruct (v7fakes.read (v7fakes.invocations fake) !! "CreateUser") as [l|] eqn:Hl.
  - rewrite Hl. reflexivity.
  - rewrite lookup_insert_eq. cbn [default].
    now rewrite insert_insert_eq.
Qed.

Lemma calls_recorded {User : Type} (cs : list (v7fakes.Call User)) :
  forall fake : v7fakes.FakeCreateUserActor User,
    v7fakes.read (v7fakes.invocations fake) =
    recorded (v7fakes.createUserArgsForCall fake) ->
    v7fakes.createUserArgsForCall (v7fakes.calls cs fake) =
    v7fakes.createUserArgsForCall fake ++ flat_map v7fakes.args_of cs /\
    v7fakes.read (v7fakes.invocations (v7fakes.calls cs fake)) =
    recorded (v7fakes.createUserArgsForCall (v7fakes.calls cs fake)).
Proof.
  induction cs as [|c cs IH]; intros fake Hinv.
  - simpl. now rewrite app_nil_r.
  - change (v7fakes.calls (c :: cs) fake)
      with (v7fakes.calls cs (v7fakes.call fake c)).
    destruct c as [arg1 arg2 arg3|stub|r|i r].
    + destruct (CreateUser_state fake arg1 arg2 arg3) as (_ & Hargs & _).
      cbv zeta in Hargs.
      destruct (IH (v7fakes.call fake (v7fakes.DoCreateUser arg1 arg2 arg3)))
        as (IH1 & IH2).
      { cbn [v7fakes.call]. rewrite Hargs.
        now apply CreateUser_invocations. }
      split; [|exact IH2].
      rewrite IH1. cbn [v7fakes.call]. rewrite Hargs.
      now rewrite <- app_assoc.
    + destruct (IH (v7fakes.call fake (v7fakes.DoCreateUserCalls stub)) Hinv)
        as (IH1 & IH2).
      split; [exact IH1 | exact IH2].
    + destruct (IH (v7fakes.call fake (v7fakes.DoCreateUserReturns r)) Hinv)
        as (IH1 & IH2).
      split; [exact IH1 | exact IH2].
    + destruct (IH (v7fakes.call fake (v7fakes.DoCreateUserReturnsOnCall i r)) Hinv)
        as (IH1 & IH2).
      split; [exact IH1 | exact IH2].
Qed.

(** X23: on a double made with [new], whatever calls a test makes, the
    arguments recorded are those of the [CreateUser] calls, in order;
    [CreateUserCallCount] is their number; and [Invocations] has one key,
    ["CreateUser"], with the same arguments in the same order (no key
    while [CreateUser] has not been called). *)
Theorem FakeCreateUserActor_records_calls {User : Type} (zeroUser : User)
    (cs : list (v7fakes.Call User)) :
  let fake := v7fakes.calls cs (v7fakes.new zeroUser) in
  v7fakes.createUserArgsForCall fake = flat_map v7fakes.args_of cs /\
  v7fakes.CreateUserCallCount fake =
  Z.of_nat (length (List.filter v7fakes.is_DoCreateUser cs)) /\
  v7fakes.Invocations fake = recorded (flat_map v7fakes.args_of cs).
Proof.
  intros fake.
  destruct (calls_recorded cs (v7fakes.new zeroUser) eq_refl) as (Hargs & Hinv).
  fold fake in Hargs, Hinv. simpl in Hargs.
  split; [exact Hargs|]. split.
  - unfold v7fakes.CreateUserCallCount. rewrite Hargs. f_equal.
    clear. induction cs as [|c cs IH]; [reflexivity|].
    destruct c; simpl; now rewrite ?IH.
  - rewrite Invocations_read, Hinv, Hargs. reflexivity.
Qed.

Lemma calls_create_users {User : Type} (l : list (string * string * string)) :
  forall fake : v7fakes.FakeCreateUserActor User,
    let fake' := v7fakes.calls (create_users l) fake in
    v7fakes.CreateUserStub fake' = v7fakes.CreateUserStub fake /\
    v7fakes.createUserArgsForCall fake' = v7fakes.createUserArgsForCall fake ++ l /\
    v7fakes.createUserReturns fake' = v7fakes.createUserReturns fake /\
    v7fakes.createUserReturnsOnCall fake' = v7fakes.createUserReturnsOnCall fake.
Proof.
  induction l as [|[[arg1 arg2] arg3] l IH]; intros fake.
  - simpl. now rewrite app_nil_r.
  - cbv zeta.
    change (v7fakes.calls (create_users ((arg1, arg2, arg3) :: l)) fake)
      with (v7fakes.calls (create_users l)
              (snd (v7fakes.CreateUser arg1 arg2 arg3 fake))).
    destruct (IH (snd (v7fakes.CreateUser arg1 arg2 arg3 fake)))
      as (H1 & H2 & H3 & H4).
    destruct (CreateUser_state fake arg1 arg2 arg3) as (G1 & G2 & G3 & G4).
    cbv zeta in *.
    rewrite H1, H2, H3, H4, G1, G2, G3, G4, <- app_assoc. auto.
Qed.

Lemma CreateUser_result {User : Type} (fake : v7fakes.FakeCreateUserActor User)
    (arg1 arg2 arg3 : string) :
  fst (v7fakes.CreateUser arg1 arg2 arg3 fake) =
  match v7fakes.CreateUserStub fake with
  | Some stub => stub arg1 arg2 arg3
  | None =>
      v7fakes.canned fake (Z.of_nat (length (v7fakes.createUserArgsForCall fake)))
  end.
Proof.
  unfold v7fakes.CreateUser, v7fakes.canned. cbv zeta.
  cbn [v7fakes.recordInvocation v7fakes.CreateUserStub v7fakes.createUserReturns].
  destruct (v7fakes.CreateUserStub fake); [reflexivity|].
  now destruct (v7fakes.read _ !! _).
Qed.

(** X24: which of the three ways of setting the answer of the double
    decides.  After [CreateUserCalls stub], every call answers what the
    stub answers for its arguments, whatever results were registered
    before.  After [CreateUserReturnsOnCall i r], the call number [i]
    (counting from 0, calls made before included) answers [r], and any
    other call answers as registered before; after [CreateUserReturns r],
    a call answers [r] unless a result is registered for its number.  Both
    remove the stub. *)
Theorem FakeCreateUserActor_answers {User : Type}
    (fake : v7fakes.FakeCreateUserActor User)
    (l : list (string * string * string)) (arg1 arg2 arg3 : string) :
  let index := Z.of_nat (length (v7fakes.createUserArgsForCall fake) + length l) in
  (forall stub,
     fst (v7fakes.CreateUser arg1 arg2 arg3
            (v7fakes.calls (create_users l)
               (v7fakes.CreateUserCalls (Some stub) fake))) =
     stub arg1 arg2 arg3) /\
  (forall i r,
     fst (v7fakes.CreateUser arg1 arg2 arg3
            (v7fakes.calls (create_users l)
               (v7fakes.CreateUserReturnsOnCall i r fake))) =
     if (i =? index)%Z then r else v7fakes.canned fake index) /\
  (forall r,
     fst (v7fakes.CreateUser arg1 arg2 arg3
            (v7fakes.calls (create_users l)
               (v7fakes.CreateUserReturns r fake))) =
     match v7fakes.read (v7fakes.createUserReturnsOnCall fake) !! index with
     | Some r' => r'
     | None => r
     end).
Proof.
  intros index. repeat split.
  - intros stub. rewrite CreateUser_result.
    destruct (calls_create_users l (v7fakes.CreateUserCalls (Some stub) fake))
      as (H1 & _).
    cbv zeta in H1. now rewrite H1.
  - intros i r. rewrite CreateUser_result.
    destruct (calls_create_users l (v7fakes.CreateUserReturnsOnCall i r fake))
      as (H1 & H2 & H3 & H4).
    cbv zeta in *. rewrite H1. cbn [v7fakes.CreateUserReturnsOnCall
      v7fakes.CreateUserStub].
    unfold v7fakes.canned. rewrite H2, H3, H4, length_app. fold index.
    cbn [v7fakes.CreateUserReturnsOnCall v7fakes.createUserReturnsOnCall
         v7fakes.createUserArgsForCall v7fakes.createUserReturns v7fakes.read].
    fold index.
    change (match v7fakes.createUserReturnsOnCall fake with
            | Some m => m
            | None => ∅
            end) with (v7fakes.read (v7fakes.createUserReturnsOnCall fake)).
    destruct (Z.eqb_spec i index) as [->|Hne].
    + now rewrite lookup_insert_eq.
    + now rewrite lookup_insert_ne.
  - intros r. rewrite CreateUser_result.
    destruct (calls_create_users l (v7fakes.CreateUserReturns r fake))
      as (H1 & H2 & H3 & H4).
    cbv zeta in *. rewrite H1. cbn [v7fakes.CreateUserReturns
      v7fakes.CreateUserStub].
    unfold v7fakes.canned. rewrite H2, H3, H4, length_app. reflexivity.
Qed.

(** X25: [CreateUserArgsForCall] reads back what [CreateUser] was given.
    After a call, the arguments of that call are at the index that was the
    call count before it, the arguments of the earlier calls are where
    they were, and the count is one more.  An index is refused (the code
    panics) exactly when it is negative or not below the call count. *)
Theorem CreateUserArgsForCall_reads_back {User : Type}
    (fake : v7fakes.FakeCreateUserActor User) (arg1 arg2 arg3 : string) :
  let fake' := snd (v7fakes.CreateUser arg1 arg2 arg3 fake) in
  v7fakes.CreateUserArgsForCall (v7fakes.CreateUserCallCount fake) fake' =
  Some (arg1, arg2, arg3) /\
  v7fakes.CreateUserCallCount fake' = (v7fakes.CreateUserCallCount fake + 1)%Z /\
  (forall i a, v7fakes.CreateUserArgsForCall i fake = Some a ->
               v7fakes.CreateUserArgsForCall i fake' = Some a) /\
  (forall i, v7fakes.CreateUserArgsForCall i fake = None <->
             (i < 0 \/ v7fakes.CreateUserCallCount fake <= i)%Z).
Proof.
  intros fake'.
  destruct (CreateUser_state fake arg1 arg2 arg3) as (_ & Hargs & _).
  fold fake' in Hargs.
  unfold v7fakes.CreateUserArgsForCall, v7fakes.CreateUserCallCount.
  rewrite Hargs. repeat split.
  - destruct (Z.ltb_spec (Z.of_nat (length (v7fakes.createUserArgsForCall fake))) 0);
      [lia|].
    rewrite Nat2Z.id. rewrite lookup_app_r by lia.
    now rewrite Nat.sub_diag.
  - rewrite length_app. simpl. lia.
  - intros i a. destruct (i <? 0)%Z; [discriminate|].
    intros Ha. now apply lookup_app_l_Some.
  - destruct (Z.ltb_spec i 0); [now left|].
    intros Hnone. apply lookup_ge_None in Hnone. right. lia.
  - destruct (Z.ltb_spec i 0); [reflexivity|].
    intros [Hneg|Hge]; [lia|]. apply lookup_ge_None. lia.
Qed.

(** * The [download-droplet] command *)

Lemma Execute_download_actions (E : v7.Env) (cmd : v7.DownloadDropletCommand)
    (userName : string) :
  exists text call warnings,
    snd (v7.Execute_download E cmd userName) =
    [v7.DisplayTextWithFlavor (fst text) (snd text); call;
     v7.DisplayWarnings warnings] /\
    v7.is_download call = true.
Proof.
  unfold v7.Execute_download.
  destruct (negb (v7.Droplet cmd =? "")); cbn [snd];
    eexists (_, _), _, _; cbn [fst snd]; split; reflexivity.
Qed.

Lemma Execute_write_actions (E : v7.Env) (cmd : v7.DownloadDropletCommand)
    (rawDropletBytes : list Byte.byte) (dropletGUID : string) :
  let r := v7.Execute_write E cmd rawDropletBytes dropletGUID in
  let path :=
    v7.Join E (if v7.CWD cmd =? "" then fst (v7.Getwd E) else v7.CWD cmd)
      ("droplet_" +:+ dropletGUID +:+ ".tgz") in
  match fst r with
  | None =>
      snd r =
      [v7.WriteFile path rawDropletBytes 438;
       v7.DisplayText "Droplet downloaded successfully at {{.FilePath}}"
         [("FilePath", path)];
       v7.DisplayOK]
  | Some _ => snd r = [] \/ snd r = [v7.WriteFile path rawDropletBytes 438]
  end.
Proof.
  unfold v7.Execute_write. cbv zeta.
  destruct (v7.CWD cmd =? "").
  - destruct (snd (v7.Getwd E)); cbn [fst snd]; [now left|].
    destruct (v7.writeFile E _ _); cbn [fst snd]; [now right | reflexivity].
  - destruct (v7.writeFile E _ _); cbn [fst snd]; [now right | reflexivity].
Qed.

(** X26: the order of what [download-droplet] does.  It asks for the
    droplet at most once and writes at most one file, and never writes
    without having asked.  It displays OK exactly when it returns no
    error, and then the last three things it did are the write of the
    file, the message with the path of the file, and OK. *)
Theorem DownloadDroplet_Execute_steps (E : v7.Env) (cmd : v7.DownloadDropletCommand) :
  let r := v7.Execute E cmd in
  length (List.filter v7.is_WriteFile (snd r)) <=
  length (List.filter v7.is_download (snd r)) /\
  length (List.filter v7.is_download (snd r)) <= 1 /\
  (fst r = None <-> existsb v7.is_DisplayOK (snd r) = true) /\
  (fst r = None ->
   exists before path data,
     snd r =
     before ++
     [v7.WriteFile path data 438;
      v7.DisplayText "Droplet downloaded successfully at {{.FilePath}}"
        [("FilePath", path)];
      v7.DisplayOK] /\
     length (List.filter v7.is_WriteFile before) = 0).
Proof.
  unfold v7.Execute. cbv zeta.
  destruct (v7.CheckTarget E true true) as [e|].
  { cbn. repeat split; try lia; discriminate. }
  destruct (snd (v7.CurrentUser E)) as [e|].
  { cbn. repeat split; try lia; discriminate. }
  destruct (Execute_download_actions E cmd (fst (v7.CurrentUser E)))
    as (text & call & warnings & Hd & Hcall).
  destruct (snd (fst (v7.Execute_download E cmd (fst (v7.CurrentUser E)))))
    as [e|].
  { cbn [fst snd]. rewrite Hd. cbn. rewrite Hcall.
    destruct call; try discriminate Hcall; cbn;
      repeat split; try lia; discriminate. }
  cbn [fst snd]. rewrite Hd.
  pose proof (Execute_write_actions E cmd
    (fst (fst (fst (v7.Execute_download E cmd (fst (v7.CurrentUser E))))))
    (snd (fst (fst (v7.Execute_download E cmd (fst (v7.CurrentUser E)))))))
    as Hw.
  cbv zeta in Hw.
  destruct (fst (v7.Execute_write E cmd _ _)) as [e|].
  - destruct Hw as [Hw|Hw]; rewrite Hw;
      destruct call; try discriminate Hcall; cbn;
      repeat split; try lia; discriminate.
  - rewrite Hw.
    destruct call; try discriminate Hcall; cbn;
      (repeat split; try lia; try reflexivity;
       intros _; eexists [_; _; _], _, _; split; reflexivity).
Qed.

(** X27: when the droplet is not found, the error returned names the
    application and the droplet GUID given with [--droplet], which is
    empty when the current droplet was asked for, whatever GUID the actor
    returned with its error.  The warnings have been displayed, nothing is
    written, and any other error of the download is returned as it is. *)
Theorem DownloadDroplet_Execute_download_error (E : v7.Env)
    (cmd : v7.DownloadDropletCommand) (err : v7.error) :
  v7.CheckTarget E true true = None ->
  snd (v7.CurrentUser E) = None ->
  snd (fst (v7.Execute_download E cmd (fst (v7.CurrentUser E)))) = Some err ->
  fst (v7.Execute E cmd) =
  Some (match err with
        | v7.DropletNotFoundError =>
            v7.NoDropletForAppError (v7.RequiredArgs_AppName cmd) (v7.Droplet cmd)
        | _ => err
        end) /\
  List.filter v7.is_WriteFile (snd (v7.Execute E cmd)) = [] /\
  exists warnings, List.last (snd (v7.Execute E cmd)) v7.DisplayOK =
                   v7.DisplayWarnings warnings.
Proof.
  intros Hc Hu Hd. unfold v7.Execute. rewrite Hc, Hu. cbv zeta. rewrite Hd.
  cbn [fst snd].
  destruct (Execute_download_actions E cmd (fst (v7.CurrentUser E)))
    as (text & call & warnings & Ha & Hcall).
  rewrite Ha. split; [reflexivity|]. split.
  - destruct call; try discriminate Hcall; reflexivity.
  - exists warnings. reflexivity.
Qed.

Lemma DownloadDroplet_Execute_download_error_witness :
  fst (v7.Execute noDropletEnv (v7.mkDownloadDropletCommand "app1" "" "")) =
  Some (v7.NoDropletForAppError "app1" "").
Proof.
  apply (DownloadDroplet_Execute_download_error noDropletEnv
           (v7.mkDownloadDropletCommand "app1" "" "")
           v7.DropletNotFoundError eq_refl eq_refl eq_refl).
Defined.

(** X28: when the command returns no error, the file it wrote holds the
    bytes the actor returned, with mode 0666, and its path is the file
    name [droplet_<GUID>.tgz] joined to the directory of the command, or
    to the working directory when the command has no directory.  The GUID
    is the one given with [--droplet], or else the one the actor returned
    for the current droplet. *)
Theorem DownloadDroplet_Execute_file (E : v7.Env) (cmd : v7.DownloadDropletCommand) :
  fst (v7.Execute E cmd) = None ->
  let app := v7.RequiredArgs_AppName cmd in
  let space := v7.TargetedSpace_GUID E in
  let guid :=
    if v7.Droplet cmd =? "" then snd (fst (fst (v7.downloadCurrent E app space)))
    else v7.Droplet cmd in
  let data :=
    if v7.Droplet cmd =? ""
    then fst (fst (fst (v7.downloadCurrent E app space)))
    else fst (fst (v7.downloadByGUID E (v7.Droplet cmd) app space)) in
  let dir := if v7.CWD cmd =? "" then fst (v7.Getwd E) else v7.CWD cmd in
  List.filter v7.is_WriteFile (snd (v7.Execute E cmd)) =
  [v7.WriteFile (v7.Join E dir ("droplet_" +:+ guid +:+ ".tgz")) data 438].
Proof.
  unfold v7.Execute. cbv zeta.
  destruct (v7.CheckTarget E true true) as [e|]; [discriminate|].
  destruct (snd (v7.CurrentUser E)) as [e|]; [discriminate|].
  destruct (snd (fst (v7.Execute_download E cmd (fst (v7.CurrentUser E)))))
    as [e|]; [discriminate|].
  cbn [fst snd]. intros Hok.
  pose proof (Execute_write_actions E cmd
    (fst (fst (fst (v7.Execute_download E cmd (fst (v7.CurrentUser E))))))
    (snd (fst (fst (v7.Execute_download E cmd (fst (v7.CurrentUser E)))))))
    as Hw.
  cbv zeta in Hw. rewrite Hok in Hw. rewrite Hw.
  unfold v7.Execute_download.
  destruct (v7.Droplet cmd =? ""); reflexivity.
Qed.

Lemma DownloadDroplet_Execute_file_witness :
  List.filter v7.is_WriteFile
    (snd (v7.Execute dropletEnv (v7.mkDownloadDropletCommand "app1" "" ""))) =
  [v7.WriteFile "/home/user/droplet_droplet-guid.tgz" [Byte.x1f; Byte.x8b] 438].
Proof.
  apply (DownloadDroplet_Execute_file dropletEnv
           (v7.mkDownloadDropletCommand "app1" "" "") eq_refl).
Defined.

(** * The properties at work *)

Lemma decideEndpoint_asks_only_when_needed_witness :
  fst (fst (Login.decideEndpoint (sampleEnv None None sampleCatalog []) noFlags
              (sampleWorld (sampleStore "" "" false []) ["api.example.com"] []))) =
  "api.example.com".
Proof.
  destruct (decideEndpoint_asks_only_when_needed
              (sampleEnv None None sampleCatalog []) noFlags
              (sampleWorld (sampleStore "" "" false []) ["api.example.com"] []))
    as (_ & _ & _ & Hask & _).
  now destruct (Hask eq_refl eq_refl).
Defined.

Lemma Endpoint_Execute_only_reports_witness :
  fst (Endpoint.Execute (sampleEnv None None sampleCatalog [])
         (mkFlagContext "eu10" "" "" "" "" false None false)
         (sampleWorld
            (Config.mk "https://api.example.com" false "2.150.0"
               "https://login.example.com" "access" "refresh" "" "" "" ""
               noFields_org noFields_space [])
            [] [])) = None.
Proof.
  destruct (Endpoint_Execute_only_reports
              (sampleEnv None None sampleCatalog [])
              (mkFlagContext "eu10" "" "" "" "" false None false)
              (sampleWorld
                 (Config.mk "https://api.example.com" false "2.150.0"
                    "https://login.example.com" "access" "refresh" "" "" "" ""
                    noFields_org noFields_space [])
                 [] []))
    as (_ & _ & _ & Hnone).
  now rewrite (Hnone (List.Forall_nil _) eq_refl eq_refl).
Defined.

Lemma authenticate_early_exits_witness :
  fst (Login.authenticate noPromptsEnv noFlags
         (sampleWorld (sampleStore "https://api.example.com"
                         "https://login.example.com" false []) [] [])) =
  Some "Error performing request".
Proof.
  destruct (authenticate_early_exits noPromptsEnv noFlags
              (sampleWorld (sampleStore "https://api.example.com"
                              "https://login.example.com" false []) [] []))
    as (_ & Hfetch).
  destruct (Hfetch "Error performing request") as (Herr & _);
    [discriminate | reflexivity | exact Herr].
Defined.

Lemma setSpace_errors_witness :
  fst (Login.setSpace (sampleEnv None None sampleCatalog []) 0
         (mkFlagContext "" "" "" "" "space1" false None false)
         (sampleWorld (sampleStore "https://api.example.com"
                         "https://login.example.com" false []) [] [])) =
  Returned None.
Proof.
  destruct (setSpace_errors (sampleEnv None None sampleCatalog []) 0
              (mkFlagContext "" "" "" "" "space1" false None false)
              (sampleWorld (sampleStore "https://api.example.com"
                              "https://login.example.com" false []) [] []))
    as (Hnamed & _).
  destruct Hnamed as (_ & Hfound); [discriminate|].
  now destruct (Hfound eq_refl).
Defined.

Lemma Execute_shows_configuration_on_return_witness :
  exists tr,
    trace (snd (Login.Execute scenarioEnv 1
                  (mkFlagContext "https://api.example.com" "" "" "" "" false None false)
                  (sampleWorld (sampleStore "" "" false [])
                     ["alice"; "wrong"; "000000"; "right"; "111111"]
                     [Some "Credentials were rejected"; None]))) =
    tr ++ [EvSay "" []; EvShowConfiguration].
Proof.
  refine (Execute_shows_configuration_on_return scenarioEnv 1
            (mkFlagContext "https://api.example.com" "" "" "" "" false None false)
            (sampleWorld (sampleStore "" "" false [])
               ["alice"; "wrong"; "000000"; "right"; "111111"]
               [Some "Credentials were rejected"; None])
            None _).
  vm_compute. reflexivity.
Defined.

Lemma DownloadDroplet_Execute_steps_witness :
  existsb v7.is_DisplayOK
    (snd (v7.Execute dropletEnv (v7.mkDownloadDropletCommand "app1" "" "/tmp"))) =
  true.
Proof.
  destruct (DownloadDroplet_Execute_steps dropletEnv
              (v7.mkDownloadDropletCommand "app1" "" "/tmp"))
    as (_ & _ & Hok & _).
  apply Hok. reflexivity.
Defined.
